(** * Digital-twin simulation pipeline: PK / PD / effect propagation / features

    A shallow embedding of the numerical pipeline under
    [mechanics/models] ([pk_model.py], [pd_model.py], [ode_model.py],
    [orchestrator.py], [schemas.py]).

    Numbers.  Python floats and numpy float64 arrays are read as real
    numbers ([R]) and lists of reals; decimal literals of the source keep
    their decimal value.  Rounding, overflow and signed zeros are outside
    this reading.  Where the float computation leaves the reals (numpy
    yields [inf] or [nan] on a zero divisor or on a power of a negative
    base, Python yields a complex power) the model stops with the outcome
    [NonReal] and does not follow the code further; where Python raises, it
    stops with [Raise].  Pickle files, timestamps and prints are left out
    (a print is kept where it can fail): every stage is a function from the
    records it loads to the record it stores. *)

From Stdlib Require Import Reals Lra Lia ZArith List String Ascii Sorted.
From stdpp Require Import gmap strings.
Import ListNotations.

Open Scope R_scope.

(** Comparisons of reals as decisions, so that [decide], [bool_decide] and
    [filter] read like the tests of the source. *)
#[global] Instance Rlt_Decision (x y : R) : Decision (x < y) := Rlt_dec x y.
#[global] Instance Rle_Decision (x y : R) : Decision (x <= y) := Rle_dec x y.
#[global] Instance Rge_Decision (x y : R) : Decision (x >= y) := Rge_dec x y.
#[global] Instance Req_Decision : EqDecision R := Req_dec_T.

(** ** Outcomes of a Python computation *)

Inductive exn : Type :=
| ValueError (msg : string)
| TypeError
| IndexError
| KeyError
| ZeroDivisionError
| OverflowError.

Inductive result (A : Type) : Type :=
| Ok (a : A)
| Raise (e : exn)
| NonReal.

Arguments Ok {A} a.
Arguments Raise {A} e.
Arguments NonReal {A}.

Definition bind {A B : Type} (c : result A) (k : A -> result B) : result B :=
  match c with
  | Ok a => k a
  | Raise e => Raise e
  | NonReal => NonReal
  end.

Notation "'let*' x ':=' c 'in' k" := (bind c (fun x => k))
  (at level 10, x name, c at level 100, k at level 200).

Fixpoint mapM {A B : Type} (f : A -> result B) (l : list A) : result (list B) :=
  match l with
  | [] => Ok []
  | a :: l' => let* b := f a in let* bs := mapM f l' in Ok (b :: bs)
  end.

(** Python numbers that keep their dynamic type ([int] or [float]). *)
Inductive pynum : Type :=
| PyInt (z : Z)
| PyFloat (r : R).

Definition num_val (n : pynum) : R :=
  match n with
  | PyInt z => IZR z
  | PyFloat r => r
  end.

(** Values a loosely typed patient mapping can hold. *)
Inductive pyval : Type :=
| VNone
| VBool (b : bool)
| VNum (n : pynum)
| VStr (s : string)
| VObj.

(** [a * b] on Python numbers. *)
Definition py_mul (a b : pynum) : pynum :=
  match a, b with
  | PyInt x, PyInt y => PyInt (x * y)%Z
  | _, _ => PyFloat (num_val a * num_val b)
  end.

(** [a // b] on Python numbers: floor division, [ZeroDivisionError] on 0. *)
Definition py_floordiv (a b : pynum) : result pynum :=
  match a, b with
  | PyInt x, PyInt y =>
      if decide (y = 0%Z) then Raise ZeroDivisionError else Ok (PyInt (x / y)%Z)
  | _, _ =>
      if decide (num_val b = 0) then Raise ZeroDivisionError
      else Ok (PyFloat (IZR (Int_part (num_val a / num_val b))))
  end.

(** Python-level [a / b] on floats. *)
Definition py_div (a b : R) : result R :=
  if decide (b = 0) then Raise ZeroDivisionError else Ok (a / b).

(** numpy-level [a / b]: no exception, [inf]/[nan] on a zero divisor. *)
Definition np_div (a b : R) : result R :=
  if decide (b = 0) then NonReal else Ok (a / b).

(** [range(n)] *)
Definition range (n : Z) : list Z :=
  map Z.of_nat (seq 0 (Z.to_nat n)).

(** [np.linspace(start, stop, num)] *)
Definition linspace (start stop : R) (num : nat) : list R :=
  map (fun k => start + INR k * ((stop - start) / INR (num - 1))) (seq 0 num).

(** [a[-1]] *)
Definition last_item (a : list R) : result R :=
  match last a with
  | None => Raise IndexError
  | Some x => Ok x
  end.

(** [np.max(a)] *)
Definition np_max (a : list R) : result R :=
  match a with
  | [] => Raise (ValueError "zero-size array to reduction operation maximum which has no identity")
  | x :: a' => Ok (fold_left Rmax a' x)
  end.

(** [np.min(a)] *)
Definition np_min (a : list R) : result R :=
  match a with
  | [] => Raise (ValueError "zero-size array to reduction operation minimum which has no identity")
  | x :: a' => Ok (fold_left Rmin a' x)
  end.

(** [float ** float] on the reals: [Rpower] on a positive base, the
    integer power on a negative base with an integral exponent. *)
Definition real_pow (x g : R) : option R :=
  if decide (0 < x) then Some (Rpower x g)
  else if decide (x = 0) then
    (if decide (0 < g) then Some 0 else if decide (g = 0) then Some 1 else None)
  else if decide (frac_part g = 0) then Some (powerRZ x (Int_part g))
  else None.

(** Python-level [x ** g]: [0.0 ** negative] raises, a negative base with a
    fractional exponent gives a complex number. *)
Definition py_pow (x g : R) : result R :=
  match real_pow x g with
  | Some v => Ok v
  | None => if decide (x = 0) then Raise ZeroDivisionError else NonReal
  end.

(** numpy-level [x ** g]: never raises; [inf] or [nan] where [py_pow] has
    no real value. *)
Definition np_pow (x g : R) : result R :=
  match real_pow x g with
  | Some v => Ok v
  | None => NonReal
  end.

(** [np.clip(a, a_min, a_max)], that is [minimum(a_max, maximum(a, a_min))]. *)
Definition np_clip (a a_min a_max : R) : R := Rmin a_max (Rmax a a_min).

(** Elementwise binary operation on two 1-D arrays under numpy broadcasting:
    equal lengths pair up, a length-1 operand is stretched, anything else
    raises [ValueError]. *)
Definition broadcast2 (f : R -> R -> result R) (a b : list R) : result (list R) :=
  if decide (length a = length b) then mapM (fun '(x, y) => f x y) (zip a b)
  else match a, b with
       | [x], _ => mapM (fun y => f x y) b
       | _, [y] => mapM (fun x => f x y) a
       | _, _ => Raise (ValueError "operands could not be broadcast together")
       end.

(** [a[idx]] for a non-negative index. *)
Definition get_item (a : list R) (idx : nat) : result R :=
  match a !! idx with
  | Some v => Ok v
  | None => Raise IndexError
  end.

(** [a.argmin()]: the first index holding the least value. *)
Fixpoint argmin_from (a : list R) (i : nat) (best : R) (best_i : nat) : nat :=
  match a with
  | [] => best_i
  | x :: a' =>
      if decide (x < best) then argmin_from a' (S i) x i
      else argmin_from a' (S i) best best_i
  end.

Definition np_argmin (a : list R) : result nat :=
  match a with
  | [] => Raise (ValueError "attempt to get argmin of an empty sequence")
  | x :: a' => Ok (argmin_from a' 1 x 0)
  end.

(** [np.argmin(np.abs(t - x))] *)
Definition nearest_index (t : list R) (x : R) : result nat :=
  np_argmin (map (fun v => Rabs (v - x)) t).

(** [scipy.integrate.trapezoid(y, x)] *)
Fixpoint trapezoid (y x : list R) : R :=
  match y, x with
  | y0 :: ((y1 :: _) as y'), x0 :: ((x1 :: _) as x') =>
      (x1 - x0) * (y1 + y0) / 2 + trapezoid y' x'
  | _, _ => 0
  end.

(** [str.lower()] on ASCII text.  Other characters are left as they are; no
    key of the drug tables contains a letter that lower-casing produces from
    a non-ASCII character. *)
Definition lower_ascii (c : ascii) : ascii :=
  let n := nat_of_ascii c in
  if (65 <=? n)%nat && (n <=? 90)%nat then ascii_of_nat (n + 32) else c.

Fixpoint lower (s : string) : string :=
  match s with
  | EmptyString => EmptyString
  | String c s' => String (lower_ascii c) (lower s')
  end.

(** ** schemas.py *)

Module Schemas.

Record PatientBaseline : Type := {
  patient_id : string;
  age : Z;
  sex : pyval;
  weight : R;
  height : R;
  hr_baseline : R;
  sbp_baseline : R;
  dbp_baseline : R;
  lv_volume : R;
  aortic_pressure : R;
  contractility : R;
  vascular_resistance : R;
  ejection_fraction : R;
  cardiac_output : R;
  arrhythmia_risk : R
}.

Record DrugConcentration : Type := {
  dc_drug_name : string;
  dose_mg : R;
  route : string;
  dc_time_hours : list R;
  concentration_mg_L : list R;
  absorption_rate : R;
  elimination_rate : R;
  volume_distribution : R;
  bioavailability : R;
  Cmax_ss : R;
  Cmin_ss : R;
  Cavg_ss : R;
  AUC_ss : R;
  accumulation_factor : R;
  fluctuation_percent : R
}.

Record PhysiologicalEffects : Type := {
  pe_drug_name : string;
  pe_time_hours : list R;
  delta_hr : list R;
  delta_sbp : list R;
  delta_dbp : list R;
  delta_contractility : list R;
  delta_vascular_resistance : list R;
  bradycardia_risk : bool;
  hypotension_risk : bool
}.

(** An adverse-event message, with the number it prints kept as a real. *)
Inductive adverse_event : Type :=
| BradycardiaRisk (min_hr : R)
| HypotensionRisk (min_sbp : R).

Record SimulationTrajectory : Type := {
  st_patient_id : string;
  drug_applied : string;
  st_time_hours : list R;
  heart_rate : list R;
  systolic_bp : list R;
  diastolic_bp : list R;
  st_cardiac_output : list R;
  st_ejection_fraction : list R;
  mean_arterial_pressure : list R;
  stroke_volume : list R;
  hr_percent_change : R;
  bp_percent_change : R;
  adverse_events : list adverse_event
}.

Record LSTMFeatures : Type := {
  lf_patient_id : string;
  lf_age : Z;
  lf_weight : R;
  baseline_hr : R;
  baseline_bp : R;
  baseline_ef : R;
  lf_arrhythmia_risk : R;
  lf_time_hours : list R;
  drug_concentration : list R;
  heart_rate_history : list R;
  bp_history : list R;
  co_history : list R;
  hr_velocity : list R;
  bp_velocity : list R;
  concentration_gradient : list R;
  target_hr_next_24h : list R;
  target_adverse_event : Z
}.

End Schemas.

(** ** pk_model.py *)

Module PK.
Import Schemas.

Record drug_params : Type := {
  p_ka : R;
  p_ke : R;
  p_Vd : R;
  p_F : R
}.

Definition DRUG_PARAMS : gmap string drug_params :=
  <["metoprolol" := {| p_ka := 1.5; p_ke := 0.20; p_Vd := 5.5; p_F := 0.50 |}]>
  (<["atenolol" := {| p_ka := 1.0; p_ke := 0.12; p_Vd := 1.2; p_F := 0.60 |}]> ∅).

Record PKModel : Type := {
  drug_name : string;
  dose : R;
  weight : R;
  tau : pynum;
  n_days : pynum;
  ka : R;
  ke : R;
  Vd : R;
  F : R
}.

(** [PKModel.__init__] *)
Definition init (drug_name0 : string) (dose_mg : R) (patient_weight : R)
    (tau_hours : pynum) (n_days0 : pynum) : result PKModel :=
  let name := lower drug_name0 in
  match DRUG_PARAMS !! name with
  | None => Raise (ValueError ("Unknown drug: " ++ drug_name0))
  | Some p =>
      Ok {| drug_name := name; dose := dose_mg; weight := patient_weight;
            tau := tau_hours; n_days := n_days0;
            ka := p_ka p; ke := p_ke p;
            Vd := p_Vd p * patient_weight; F := p_F p |}
  end.

(** [PKModel.C_single] *)
Definition C_single (self : PKModel) (t : R) : result R :=
  if decide (t < 0) then Ok 0
  else
    let* q := py_div (F self * dose self * ka self)
                     (Vd self * (ka self - ke self)) in
    Ok (q * (exp (- ke self * t) - exp (- ka self * t)) * 1000).

(** The loop of [PKModel.C_multiple], with the accumulator [total]. *)
Fixpoint C_multiple_loop (self : PKModel) (t : R) (idx : list Z) (total : R)
    : result R :=
  match idx with
  | [] => Ok total
  | i :: idx' =>
      let dose_time := IZR i * num_val (tau self) in
      if decide (t >= dose_time) then
        let* c := C_single self (t - dose_time) in
        C_multiple_loop self t idx' (total + c)
      else C_multiple_loop self t idx' total
  end.

(** [PKModel.C_multiple] *)
Definition C_multiple (self : PKModel) (t : R) (n_doses : Z) : result R :=
  C_multiple_loop self t (range n_doses) 0.

(** The superposition law in the words of the specification: the sum, over
    the dose indices [i] in [[0, n_doses)] whose dose time [i * tau] is at or
    before [t], of the single-dose curve shifted by that dose time. *)
Definition administered (self : PKModel) (t : R) (n_doses : Z) : list Z :=
  filter (fun i => IZR i * num_val (tau self) <= t)
         (range n_doses).

Definition sum_results (cs : list (result R)) : result R :=
  fold_left (fun acc c => let* a := acc in let* x := c in Ok (a + x)) cs (Ok 0).

Definition superposition (self : PKModel) (t : R) (n_doses : Z) : result R :=
  sum_results
    (map (fun i => C_single self (t - IZR i * num_val (tau self)))
         (administered self t n_doses)).

(** The Bateman curve as a real function, for [t >= 0]. *)
Definition bateman (self : PKModel) (t : R) : R :=
  (F self * dose self * ka self) / (Vd self * (ka self - ke self))
  * (exp (- ke self * t) - exp (- ka self * t)) * 1000.

Definition Rsum (l : list R) : R := fold_right Rplus 0 l.

(** One sample of the steady-state profile (the body of the loop over
    [t_interval]).  The Python-level quotient is evaluated first: it is the
    only step of the body that can raise, and it raises whether or not the
    two numpy quotients computed above it in the source are finite. *)
Definition C_ss_at (self : PKModel) (tau0 tt : R) : result R :=
  let* q := py_div (F self * dose self * ka self * 1000)
                   (Vd self * (ka self - ke self)) in
  let* num_elim := np_div (exp (- ke self * tt)) (1 - exp (- ke self * tau0)) in
  let* num_abs := np_div (exp (- ka self * tt)) (1 - exp (- ka self * tau0)) in
  Ok (q * (num_elim - num_abs)).

(** [R = 1 / (1 - np.exp(-ke * tau))] *)
Definition accumulation (self : PKModel) : result R :=
  np_div 1 (1 - exp (- ke self * num_val (tau self))).

(** Number of points of the two time grids. *)
Definition n_time : nat := Z.to_nat 5000.
Definition n_interval : nat := Z.to_nat 500.

(** [PKModel.simulate]; [range(n_doses)] inside [C_multiple] needs an
    [int], so a float dose count raises [TypeError] at the first sample. *)
Definition simulate (self : PKModel) (duration_hours : option R)
    : result DrugConcentration :=
  let* per_day := py_floordiv (PyInt 24) (tau self) in
  let n_doses := py_mul (n_days self) per_day in
  let total_time :=
    match duration_hours with
    | None => num_val (py_mul (n_days self) (PyInt 24))
    | Some d => d
    end in
  let t := linspace 0 total_time n_time in
  let* concentration_total :=
    mapM (fun tt => match n_doses with
                    | PyInt n => C_multiple self tt n
                    | PyFloat _ => Raise TypeError
                    end) t in
  let tau0 := num_val (tau self) in
  let t_interval := linspace 0 tau0 n_interval in
  let* C_ss_interval := mapM (C_ss_at self tau0) t_interval in
  let* Cmax := np_max C_ss_interval in
  let* Cmin := last_item C_ss_interval in
  let AUC := trapezoid C_ss_interval t_interval in
  let* Cavg := np_div AUC tau0 in
  let* R0 := accumulation self in
  let* fl := np_div (Cmax - Cmin) Cavg in
  let fluctuation := fl * 100 in
  Ok {| dc_drug_name := drug_name self;
        dose_mg := dose self;
        route := "oral";
        dc_time_hours := t;
        concentration_mg_L := map (fun c => c / 1000.0) concentration_total;
        absorption_rate := ka self;
        elimination_rate := ke self;
        volume_distribution := Vd self;
        bioavailability := F self;
        Cmax_ss := Cmax;
        Cmin_ss := Cmin;
        Cavg_ss := Cavg;
        AUC_ss := AUC;
        accumulation_factor := R0;
        fluctuation_percent := fluctuation |}.

End PK.

(** ** pd_model.py *)

Module PD.
Import Schemas.

Record hill_params : Type := {
  Emax : R;
  EC50 : R;
  gamma : R;
  baseline : option R
}.

Record pd_params : Type := {
  HR : hill_params;
  SBP : hill_params;
  DBP : hill_params;
  contractility : hill_params;
  vascular_resistance : hill_params
}.

Definition hp (emax ec50 g : R) (b : option R) : hill_params :=
  {| Emax := emax; EC50 := ec50; gamma := g; baseline := b |}.

Definition metoprolol_defaults : pd_params :=
  {| HR := hp 25.0 50.0 1.5 (Some 75.0);
     SBP := hp 15.0 80.0 1.5 (Some 120.0);
     DBP := hp 10.0 80.0 1.5 (Some 80.0);
     contractility := hp 0.2 50.0 1.5 None;
     vascular_resistance := hp 0.15 80.0 1.5 None |}.

Definition atenolol_defaults : pd_params :=
  {| HR := hp 20.0 100.0 1.5 (Some 75.0);
     SBP := hp 12.0 150.0 1.5 (Some 120.0);
     DBP := hp 8.0 150.0 1.5 (Some 80.0);
     contractility := hp 0.15 100.0 1.5 None;
     vascular_resistance := hp 0.12 150.0 1.5 None |}.

Definition default_params : gmap string pd_params :=
  <["metoprolol" := metoprolol_defaults]>
  (<["atenolol" := atenolol_defaults]> ∅).

Record PDModel : Type := {
  drug_name : string;
  params : pd_params
}.

Section Init.

(** The file system and the curve fit stay outside the model:
    [Path(csv_path).exists()] and [_fit_from_csv] (pandas and
    [scipy.optimize.curve_fit]) are taken as given. *)
Variable path_exists : string -> bool.
Variable fit_from_csv : string -> result pd_params.

(** The default branch of [PDModel.__init__]:
    [default_params.get(drug_name, default_params['metoprolol'])]. *)
Definition use_defaults (name : string) : result PDModel :=
  match default_params !! "metoprolol" with
  | None => Raise KeyError
  | Some fallback =>
      Ok {| drug_name := name;
            params := default fallback (default_params !! name) |}
  end.

(** [PDModel.__init__]; an empty path counts as no path. *)
Definition init (drug_name0 : string) (csv_path : option string) : result PDModel :=
  let name := lower drug_name0 in
  match csv_path with
  | Some path =>
      if negb (String.eqb path "") && path_exists path then
        let* fitted := fit_from_csv path in
        Ok {| drug_name := name; params := fitted |}
      else use_defaults name
  | None => use_defaults name
  end.

End Init.

(** One element of [PDModel.hill_equation], given the value [e50g] of the
    Python-level power [EC50 ** gamma]. *)
Definition hill_elem (Emax0 e50g gamma0 : R) (c : R) : result R :=
  let* cg := np_pow c gamma0 in
  let* effect := np_div (Emax0 * cg) (e50g + cg) in
  Ok (np_clip effect 0 (Emax0 * 1.1)).

(** [PDModel.hill_equation] on an array of concentrations.  [EC50 ** gamma]
    is a power of two Python floats, the only step that can raise; it does
    not depend on the array and is evaluated first. *)
Definition hill_equation (C : list R) (Emax0 EC500 gamma0 : R) : result (list R) :=
  let* e50g := py_pow EC500 gamma0 in
  mapM (hill_elem Emax0 e50g gamma0) C.

(** [c ** gamma] for a concentration [c >= 0] and [gamma > 0]. *)
Definition conc_pow (gamma0 c : R) : R :=
  if decide (c = 0) then 0 else Rpower c gamma0.

(** The Hill curve as a real function of a concentration [c >= 0], for
    [EC50 > 0] and [gamma > 0]: the value of one element of
    [hill_equation] on that domain (lemma [hill_equation_curve]). *)
Definition hill_curve (Emax0 EC500 gamma0 c : R) : R :=
  np_clip (Emax0 * conc_pow gamma0 c / (Rpower EC500 gamma0 + conc_pow gamma0 c))
          0 (Emax0 * 1.1).

Definition hill_with (C : list R) (p : hill_params) : result (list R) :=
  hill_equation C (Emax p) (EC50 p) (gamma p).

(** [PDModel.compute_effects] *)
Definition compute_effects (self : PDModel) (baseline0 : PatientBaseline)
    (drug_conc : DrugConcentration) : result PhysiologicalEffects :=
  let C_mg_L := concentration_mg_L drug_conc in
  let C_ng_mL := map (fun c => c * 1000.0) C_mg_L in
  let t := dc_time_hours drug_conc in
  let* hr_reduction := hill_with C_ng_mL (HR (params self)) in
  let* sbp_reduction := hill_with C_ng_mL (SBP (params self)) in
  let* dbp_reduction := hill_with C_ng_mL (DBP (params self)) in
  let* contractility_reduction := hill_with C_ng_mL (contractility (params self)) in
  let* vascular_resistance_reduction :=
    hill_with C_ng_mL (vascular_resistance (params self)) in
  let delta_hr0 := map Ropp hr_reduction in
  let delta_sbp0 := map Ropp sbp_reduction in
  let delta_dbp0 := map Ropp dbp_reduction in
  let delta_contractility0 := map Ropp contractility_reduction in
  let delta_vascular_resistance0 := map Ropp vascular_resistance_reduction in
  let* last_hr := last_item delta_hr0 in
  let final_hr := hr_baseline baseline0 + last_hr in
  let* last_sbp := last_item delta_sbp0 in
  let final_sbp := sbp_baseline baseline0 + last_sbp in
  Ok {| pe_drug_name := drug_name self;
        pe_time_hours := t;
        delta_hr := delta_hr0;
        delta_sbp := delta_sbp0;
        delta_dbp := delta_dbp0;
        delta_contractility := delta_contractility0;
        delta_vascular_resistance := delta_vascular_resistance0;
        bradycardia_risk := bool_decide (final_hr < 60);
        hypotension_risk := bool_decide (final_sbp < 90) |}.

End PD.

(** ** ode_model.py *)

Module ODE.
Import Schemas.

Record CardiovascularODE : Type := {
  patient_id : string;
  age : Z;
  sex : pyval;
  weight : R;
  height : R;
  hr : R;
  sbp : R;
  dbp : R;
  sv : R;
  co : R;
  svr : R;
  arrhythmia_risk : R
}.

(** An [int] that [float] cannot hold: its magnitude rounds, half to even
    on 53 bits, to [2^1024] or more, that is from [2^1024 - 2^970] on. *)
Definition float_overflow (z : Z) : bool :=
  (2 ^ 1024 - 2 ^ 970 <=? Z.abs z)%Z.

Section Init.

(** Python's built-in conversions of text stay outside the model: how
    [int] and [float] read a string, and what [str] prints. *)
Variable int_of_string : string -> result Z.
Variable float_of_string : string -> result R.
Variable py_str : pyval -> string.

(** [int(v)]; a float is truncated towards zero. *)
Definition py_int (v : pyval) : result Z :=
  match v with
  | VNone => Raise TypeError
  | VBool b => Ok (if b then 1%Z else 0%Z)
  | VNum (PyInt z) => Ok z
  | VNum (PyFloat r) =>
      Ok (if decide (0 <= r) then Int_part r else (- Int_part (- r))%Z)
  | VStr s => int_of_string s
  | VObj => Raise TypeError
  end.

(** [float(v)]; an [int] too large for a float raises [OverflowError]. *)
Definition py_float (v : pyval) : result R :=
  match v with
  | VNone => Raise TypeError
  | VBool b => Ok (if b then 1 else 0)
  | VNum (PyInt z) => if float_overflow z then Raise OverflowError else Ok (IZR z)
  | VNum (PyFloat r) => Ok r
  | VStr s => float_of_string s
  | VObj => Raise TypeError
  end.

(** [patient.get(key, default)] *)
Definition get (patient : gmap string pyval) (key : string) (dflt : pyval) : pyval :=
  default dflt (patient !! key).

Definition vfloat (r : R) : pyval := VNum (PyFloat r).

(** [CardiovascularODE.__init__] with [_set_physiological_parameters] *)
Definition init (patient : gmap string pyval) : result CardiovascularODE :=
  let patient_id0 := py_str (get patient "patient_id" (VStr "unknown")) in
  let* age0 := py_int (get patient "age" (VNum (PyInt 50))) in
  let sex0 := get patient "sex" (VStr "M") in
  let* weight0 := py_float (get patient "weight" (vfloat 70.0)) in
  let* height0 := py_float (get patient "height" (vfloat 170.0)) in
  let* hr0 := py_float (get patient "hr" (vfloat 75.0)) in
  let* sbp0 := py_float (get patient "sbp" (vfloat 120.0)) in
  let* dbp0 := py_float (get patient "dbp" (vfloat 80.0)) in
  let* sv0 := py_float (get patient "sv" (vfloat 70.0)) in
  let* co0 := py_float (get patient "co" (vfloat 5.0)) in
  let* svr0 := py_float (get patient "svr" (vfloat 18.0)) in
  let* risk0 := py_float (get patient "ecg_risk" (vfloat 0.1)) in
  Ok {| patient_id := patient_id0; age := age0; sex := sex0;
        weight := weight0; height := height0;
        hr := hr0; sbp := sbp0; dbp := dbp0;
        sv := sv0; co := co0; svr := svr0; arrhythmia_risk := risk0 |}.

(** [CardiovascularODE.initialize] *)
Definition initialize (self : CardiovascularODE) : PatientBaseline :=
  let lv_volume0 := 120.0 in
  let aortic_pressure0 := sbp self in
  let contractility0 := 1.0 in
  let vascular_resistance0 := svr self in
  let ejection_fraction0 := 0.60 in
  let cardiac_output0 :=
    if decide (co self > 0) then co self else hr self * sv self / 1000.0 in
  {| Schemas.patient_id := patient_id self;
     Schemas.age := age self;
     Schemas.sex := sex self;
     Schemas.weight := weight self;
     Schemas.height := height self;
     hr_baseline := hr self;
     sbp_baseline := sbp self;
     dbp_baseline := dbp self;
     lv_volume := lv_volume0;
     aortic_pressure := aortic_pressure0;
     contractility := contractility0;
     vascular_resistance := vascular_resistance0;
     ejection_fraction := ejection_fraction0;
     cardiac_output := cardiac_output0;
     Schemas.arrhythmia_risk := arrhythmia_risk self |}.

(** The Baseline Initializer: construction followed by [initialize]. *)
Definition baseline_initializer (patient : gmap string pyval)
    : result PatientBaseline :=
  let* ode := init patient in
  Ok (initialize ode).

End Init.

(** The series of [simulate_with_effects], in the order of the source. *)
Definition hr_series (b : PatientBaseline) (e : PhysiologicalEffects) : list R :=
  map (fun d => hr_baseline b + d) (delta_hr e).

Definition sbp_series (b : PatientBaseline) (e : PhysiologicalEffects) : list R :=
  map (fun d => sbp_baseline b + d) (delta_sbp e).

Definition dbp_series (b : PatientBaseline) (e : PhysiologicalEffects) : list R :=
  map (fun d => dbp_baseline b + d) (delta_dbp e).

Definition contractility_series (b : PatientBaseline) (e : PhysiologicalEffects)
    : list R :=
  map (fun d => contractility b * (1.0 + d)) (delta_contractility e).

Definition vr_series (b : PatientBaseline) (e : PhysiologicalEffects) : list R :=
  map (fun d => vascular_resistance b * (1.0 + d)) (delta_vascular_resistance e).

(** [x * (contractility_series / baseline.contractility)] *)
Definition scale_by_contractility (x : R) (b : PatientBaseline)
    (e : PhysiologicalEffects) : result (list R) :=
  let* ratio := mapM (fun c => np_div c (contractility b))
                     (contractility_series b e) in
  Ok (map (fun r => x * r) ratio).

Definition co_series (b : PatientBaseline) (e : PhysiologicalEffects)
    : result (list R) :=
  scale_by_contractility (cardiac_output b) b e.

Definition ef_series (b : PatientBaseline) (e : PhysiologicalEffects)
    : result (list R) :=
  scale_by_contractility (ejection_fraction b) b e.

(** [np.where(hr_series <= 0, 1.0, hr_series)] *)
Definition hr_safe (hr_series0 : list R) : list R :=
  map (fun h => if decide (h <= 0) then 1.0 else h) hr_series0.

(** [co_series * 1000.0 / hr_safe] *)
Definition stroke_volume_series (co_series0 hr_series0 : list R)
    : result (list R) :=
  broadcast2 (fun c h => np_div (c * 1000.0) h) co_series0 (hr_safe hr_series0).

(** [dbp_series + (sbp_series - dbp_series) / 3.0] *)
Definition map_series (sbp_series0 dbp_series0 : list R) : result (list R) :=
  let* pulse := broadcast2 (fun s d => Ok ((s - d) / 3.0)) sbp_series0 dbp_series0 in
  broadcast2 (fun d p => Ok (d + p)) dbp_series0 pulse.

(** [(series[-1] - base) / base * 100.0] *)
Definition percent_change (series : list R) (base : R) : result R :=
  let* final := last_item series in
  let* q := np_div (final - base) base in
  Ok (q * 100.0).

(** [flag or np.min(series) < limit], then the message with the minimum. *)
Definition adverse (flag : bool) (series : list R) (limit : R)
    (msg : R -> adverse_event) : result (list adverse_event) :=
  let* hit := (if flag then Ok true
               else let* m := np_min series in Ok (bool_decide (m < limit))) in
  if hit : bool then let* m := np_min series in Ok [msg m] else Ok [].

(** The console summary at the end of [simulate_with_effects]: one line per
    simulated day, read at the sample nearest to the end of that day.  Only
    what can make it fail is kept: the index lookups. *)
Definition daily_summary (t hr_series0 sbp_series0 co_series0 : list R)
    : result unit :=
  let duration := match last t with Some x => x | None => 0.0 end in
  let num_days := Z.max 1 (Int_part (duration / 24)) in
  let* lines :=
    mapM (fun day =>
            let target_t := 24 * (IZR day + 1) in
            let* idx := nearest_index t target_t in
            let* h := get_item hr_series0 idx in
            let* s := get_item sbp_series0 idx in
            let* c := get_item co_series0 idx in
            Ok tt) (range num_days) in
  Ok tt.

(** [CardiovascularODE.simulate_with_effects]; [vr_series] is computed by
    the source as well and not used further. *)
Definition simulate_with_effects (b : PatientBaseline) (e : PhysiologicalEffects)
    : result SimulationTrajectory :=
  let t := pe_time_hours e in
  let hr_series0 := hr_series b e in
  let sbp_series0 := sbp_series b e in
  let dbp_series0 := dbp_series b e in
  let* co_series0 := co_series b e in
  let* ef_series0 := ef_series b e in
  let* stroke_volume_series0 := stroke_volume_series co_series0 hr_series0 in
  let* mean_arterial_pressure0 := map_series sbp_series0 dbp_series0 in
  let* hr_percent_change0 := percent_change hr_series0 (hr_baseline b) in
  let* bp_percent_change0 := percent_change sbp_series0 (sbp_baseline b) in
  let* brady := adverse (bradycardia_risk e) hr_series0 60 BradycardiaRisk in
  let* hypo := adverse (hypotension_risk e) sbp_series0 90 HypotensionRisk in
  let* summary := daily_summary t hr_series0 sbp_series0 co_series0 in
  Ok {| st_patient_id := Schemas.patient_id b;
        drug_applied := pe_drug_name e;
        st_time_hours := t;
        heart_rate := hr_series0;
        systolic_bp := sbp_series0;
        diastolic_bp := dbp_series0;
        st_cardiac_output := co_series0;
        st_ejection_fraction := ef_series0;
        mean_arterial_pressure := mean_arterial_pressure0;
        stroke_volume := stroke_volume_series0;
        hr_percent_change := hr_percent_change0;
        bp_percent_change := bp_percent_change0;
        adverse_events := brady ++ hypo |}.

End ODE.

(** ** orchestrator.py: the 24-hour-ahead target of [prepare_lstm_features] *)

Module Orchestrator.
Import Schemas.

(** The loop that fills [target_hr]. *)
Definition target_hr (t hr : list R) : result (list R) :=
  mapM (fun ti =>
          let future := ti + 24 in
          let* idx := nearest_index t future in
          get_item hr idx) t.

Section Features.

(** numpy's interpolation and finite-difference gradient are taken as
    given: [np.interp(x, xp, fp)] and [np.gradient(f, x)]. *)
Variable np_interp : list R -> list R -> list R -> result (list R).
Variable np_gradient : list R -> list R -> result (list R).

(** [DigitalTwinOrchestrator.prepare_lstm_features], from the three records
    it loads. *)
Definition prepare_lstm_features (baseline : PatientBaseline)
    (drug : DrugConcentration) (traj : SimulationTrajectory)
    : result LSTMFeatures :=
  let t := st_time_hours traj in
  let hr := heart_rate traj in
  let bp := systolic_bp traj in
  let co := st_cardiac_output traj in
  let* conc := np_interp t (dc_time_hours drug) (concentration_mg_L drug) in
  let* hr_vel := np_gradient hr t in
  let* bp_vel := np_gradient bp t in
  let* conc_grad := np_gradient conc t in
  let* target := target_hr t hr in
  Ok {| lf_patient_id := patient_id baseline;
        lf_age := age baseline;
        lf_weight := weight baseline;
        baseline_hr := hr_baseline baseline;
        baseline_bp := sbp_baseline baseline;
        baseline_ef := ejection_fraction baseline;
        lf_arrhythmia_risk := arrhythmia_risk baseline;
        lf_time_hours := t;
        drug_concentration := conc;
        heart_rate_history := hr;
        bp_history := bp;
        co_history := co;
        hr_velocity := hr_vel;
        bp_velocity := bp_vel;
        concentration_gradient := conc_grad;
        target_hr_next_24h := target;
        target_adverse_event :=
          match adverse_events traj with [] => 0%Z | _ :: _ => 1%Z end |}.

End Features.

End Orchestrator.

(** ** Closed forms and sample inputs used in the statements below *)

(** Metoprolol 50 mg every 12 h for 7 days in a 70 kg patient. *)
Definition metoprolol_50 : PK.PKModel :=
  {| PK.drug_name := "metoprolol"; PK.dose := 50; PK.weight := 70;
     PK.tau := PyInt 12; PK.n_days := PyInt 7;
     PK.ka := 1.5; PK.ke := 0.20; PK.Vd := 5.5 * 70; PK.F := 0.50 |}.

(** Hill parameters inside the fit bounds of the source as far as the model
    needs them: [EC50 > 0] and [gamma > 0]. *)
Definition valid_hill (p : PD.hill_params) : Prop :=
  0 < PD.EC50 p /\ 0 < PD.gamma p.

Definition valid_params (p : PD.pd_params) : Prop :=
  valid_hill (PD.HR p) /\ valid_hill (PD.SBP p) /\ valid_hill (PD.DBP p)
  /\ valid_hill (PD.contractility p) /\ valid_hill (PD.vascular_resistance p).

(** The deltas of one endpoint on that domain: minus the Hill curve at the
    concentration in ng/mL. *)
Definition delta_of (p : PD.hill_params) (conc_mg_L : list R) : list R :=
  map Ropp (map (PD.hill_curve (PD.Emax p) (PD.EC50 p) (PD.gamma p))
                (map (fun c => c * 1000.0) conc_mg_L)).

(** Scenario 2 of the specification: baseline HR 75, SBP 120, DBP 80, and a
    PD engine whose heart-rate curve gives a reduction of exactly 20 at the
    final concentration (0.2 mg/L, that is 200 ng/mL). *)
Definition scenario2_baseline : Schemas.PatientBaseline :=
  {| Schemas.patient_id := "demo"; Schemas.age := 55; Schemas.sex := VStr "M";
     Schemas.weight := 70; Schemas.height := 170;
     Schemas.hr_baseline := 75; Schemas.sbp_baseline := 120;
     Schemas.dbp_baseline := 80; Schemas.lv_volume := 120;
     Schemas.aortic_pressure := 120; Schemas.contractility := 1;
     Schemas.vascular_resistance := 18; Schemas.ejection_fraction := 0.6;
     Schemas.cardiac_output := 5; Schemas.arrhythmia_risk := 0.1 |}.

Definition scenario2_engine : PD.PDModel :=
  {| PD.drug_name := "metoprolol";
     PD.params :=
       {| PD.HR := PD.hp 25 50 1 (Some 75);
          PD.SBP := PD.hp 15 80 1 (Some 120);
          PD.DBP := PD.hp 10 80 1 (Some 80);
          PD.contractility := PD.hp 0.2 50 1 None;
          PD.vascular_resistance := PD.hp 0.15 80 1 None |} |}.

Definition scenario2_concentration : Schemas.DrugConcentration :=
  {| Schemas.dc_drug_name := "metoprolol"; Schemas.dose_mg := 50;
     Schemas.route := "oral";
     Schemas.dc_time_hours := [0; 84; 168];
     Schemas.concentration_mg_L := [0.2; 0.2; 0.2];
     Schemas.absorption_rate := 1.5; Schemas.elimination_rate := 0.2;
     Schemas.volume_distribution := 385; Schemas.bioavailability := 0.5;
     Schemas.Cmax_ss := 0; Schemas.Cmin_ss := 0; Schemas.Cavg_ss := 0;
     Schemas.AUC_ss := 0; Schemas.accumulation_factor := 1;
     Schemas.fluctuation_percent := 0 |}.

(** The null effect on a time axis of [n] points. *)
Definition zero_effects (n : nat) : Schemas.PhysiologicalEffects :=
  {| Schemas.pe_drug_name := "metoprolol";
     Schemas.pe_time_hours := replicate n 0;
     Schemas.delta_hr := replicate n 0;
     Schemas.delta_sbp := replicate n 0;
     Schemas.delta_dbp := replicate n 0;
     Schemas.delta_contractility := replicate n 0;
     Schemas.delta_vascular_resistance := replicate n 0;
     Schemas.bradycardia_risk := false;
     Schemas.hypotension_risk := false |}.

(** The baseline the initializer builds when every field takes its default. *)
Definition default_baseline : Schemas.PatientBaseline :=
  {| Schemas.patient_id := "unknown"; Schemas.age := 50; Schemas.sex := VStr "M";
     Schemas.weight := 70.0; Schemas.height := 170.0;
     Schemas.hr_baseline := 75.0; Schemas.sbp_baseline := 120.0;
     Schemas.dbp_baseline := 80.0; Schemas.lv_volume := 120.0;
     Schemas.aortic_pressure := 120.0; Schemas.contractility := 1.0;
     Schemas.vascular_resistance := 18.0; Schemas.ejection_fraction := 0.60;
     Schemas.cardiac_output := 5.0; Schemas.arrhythmia_risk := 0.1 |}.

(** The same baseline for a patient mapping that supplies [hr = 0]. *)
Definition baseline_hr0 : Schemas.PatientBaseline :=
  {| Schemas.patient_id := "unknown"; Schemas.age := 50; Schemas.sex := VStr "M";
     Schemas.weight := 70.0; Schemas.height := 170.0;
     Schemas.hr_baseline := 0; Schemas.sbp_baseline := 120.0;
     Schemas.dbp_baseline := 80.0; Schemas.lv_volume := 120.0;
     Schemas.aortic_pressure := 120.0; Schemas.contractility := 1.0;
     Schemas.vascular_resistance := 18.0; Schemas.ejection_fraction := 0.60;
     Schemas.cardiac_output := 5.0; Schemas.arrhythmia_risk := 0.1 |}.

(** The steady-state concentration at time [tt] of a dosing interval of
    length [tau0], as a real function: the value of [PK.C_ss_at] whenever
    its three quotients are defined. *)
Definition C_ss_curve (self : PK.PKModel) (tau0 tt : R) : R :=
  PK.F self * PK.dose self * PK.ka self * 1000
  / (PK.Vd self * (PK.ka self - PK.ke self))
  * (exp (- PK.ke self * tt) / (1 - exp (- PK.ke self * tau0))
     - exp (- PK.ka self * tt) / (1 - exp (- PK.ka self * tau0))).

(** Metoprolol with a dose of 0 mg. *)
Definition metoprolol_0 : PK.PKModel :=
  {| PK.drug_name := "metoprolol"; PK.dose := 0; PK.weight := 70;
     PK.tau := PyInt 12; PK.n_days := PyInt 7;
     PK.ka := 1.5; PK.ke := 0.20; PK.Vd := 5.5 * 70; PK.F := 0.50 |}.

(** The numeric fields the initializer converts with [float]. *)
Definition float_keys : list string :=
  ["weight"; "height"; "hr"; "sbp"; "dbp"; "sv"; "co"; "svr"; "ecg_risk"].

(** Every numeric field that is present holds a value [int] (for [age]) or
    [float] (for the others) accepts. *)
Definition convertible (int_of_string : string -> result Z)
    (float_of_string : string -> result R) (patient : gmap string pyval) : Prop :=
  (forall v, patient !! "age" = Some v ->
             exists z, ODE.py_int int_of_string v = Ok z)
  /\ (forall key v, In key float_keys -> patient !! key = Some v ->
                    exists r, ODE.py_float float_of_string v = Ok r).

(** The numeric fields in the order in which the initializer converts
    them. *)
Definition field_order : list string := "age" :: float_keys.

(** The conversion the initializer applies to the value of a numeric field:
    [int] for [age], [float] for the others.  Only its outcome is used. *)
Definition conversion (int_of_string : string -> result Z)
    (float_of_string : string -> result R) (key : string) (v : pyval) : result R :=
  if String.eqb key "age" then
    let* z := ODE.py_int int_of_string v in Ok (IZR z)
  else ODE.py_float float_of_string v.

(** A field that is absent, or present with a value its conversion accepts,
    lets the initializer go on to the next field. *)
Definition passes (int_of_string : string -> result Z)
    (float_of_string : string -> result R) (patient : gmap string pyval)
    (key : string) : Prop :=
  forall v, patient !! key = Some v ->
            exists r, conversion int_of_string float_of_string key v = Ok r.

(** A partial intake record, and one whose [age] is present but [None]. *)
Definition partial_patient : gmap string pyval :=
  <["hr" := VNum (PyInt 95)]> (<["weight" := VNum (PyFloat 62.0)]> ∅).

Definition patient_age_none : gmap string pyval := {["age" := VNone]}.

(** A reader of text that accepts nothing, for the sample inputs. *)
Definition no_int : string -> result Z :=
  fun _ => Raise (ValueError "invalid literal for int()").
Definition no_float : string -> result R :=
  fun _ => Raise (ValueError "could not convert string to float").
Definition str_unknown : pyval -> string := fun _ => "unknown".

(** A file system without files and a fit that is never reached. *)
Definition no_file : string -> bool := fun _ => false.
Definition no_fit : string -> result PD.pd_params :=
  fun _ => Raise (ValueError "no calibration data").

(** Deltas that drive the heart rate of the default baseline to -5 at the
    first timestep. *)
Definition arrest_effects : Schemas.PhysiologicalEffects :=
  {| Schemas.pe_drug_name := "metoprolol";
     Schemas.pe_time_hours := [0; 1];
     Schemas.delta_hr := [-80; 0];
     Schemas.delta_sbp := [0; 0];
     Schemas.delta_dbp := [0; 0];
     Schemas.delta_contractility := [0; 0];
     Schemas.delta_vascular_resistance := [0; 0];
     Schemas.bradycardia_risk := false;
     Schemas.hypotension_risk := false |}.

(** [idx] is the first index of [t] whose time is nearest to [x] by
    absolute difference. *)
Definition nearest_to (t : list R) (x : R) (idx : nat) : Prop :=
  exists tn,
    t !! idx = Some tn
    /\ (forall k tk, t !! k = Some tk -> Rabs (tn - x) <= Rabs (tk - x))
    /\ (forall k tk, (k < idx)%nat -> t !! k = Some tk ->
                     Rabs (tn - x) < Rabs (tk - x)).

(** A two-day trajectory sampled every 12 hours. *)
Definition sample_times : list R := [0; 12; 24; 36].
Definition sample_hr : list R := [70; 68; 66; 64].

(** The trajectory record holding those series; the other series are not
    read by the target. *)
Definition sample_trajectory : Schemas.SimulationTrajectory :=
  {| Schemas.st_patient_id := "demo"; Schemas.drug_applied := "metoprolol";
     Schemas.st_time_hours := sample_times;
     Schemas.heart_rate := sample_hr;
     Schemas.systolic_bp := [120; 118; 116; 114];
     Schemas.diastolic_bp := [80; 79; 78; 77];
     Schemas.st_cardiac_output := [5; 5; 5; 5];
     Schemas.st_ejection_fraction := [0.6; 0.6; 0.6; 0.6];
     Schemas.mean_arterial_pressure := [93; 92; 91; 89];
     Schemas.stroke_volume := [71; 73; 75; 78];
     Schemas.hr_percent_change := -8;
     Schemas.bp_percent_change := -5;
     Schemas.adverse_events := [] |}.

(** Construction without a calibration dataset: no path, an empty path, or
    a path at which no file exists. *)
Definition no_dataset (path_exists : string -> bool) (csv_path : option string)
    : Prop :=
  match csv_path with
  | None => True
  | Some path => path = "" \/ path_exists path = false
  end.

(** An outcome other than a division error. *)
Definition no_division_error {A : Type} (c : result A) : Prop :=
  c <> Raise ZeroDivisionError.

(** ** Further sample inputs *)

(** Metoprolol 50 mg every 48 h: fewer than one dose a day. *)
Definition metoprolol_q48 : PK.PKModel :=
  {| PK.drug_name := "metoprolol"; PK.dose := 50; PK.weight := 70;
     PK.tau := PyInt 48; PK.n_days := PyInt 7;
     PK.ka := 1.5; PK.ke := 0.20; PK.Vd := 5.5 * 70; PK.F := 0.50 |}.

(** A metoprolol-like engine with a chosen interval, duration and
    absorption rate. *)
Definition pk_sample (tau0 n_days0 : pynum) (ka0 : R) : PK.PKModel :=
  {| PK.drug_name := "metoprolol"; PK.dose := 50; PK.weight := 70;
     PK.tau := tau0; PK.n_days := n_days0;
     PK.ka := ka0; PK.ke := 0.20; PK.Vd := 5.5 * 70; PK.F := 0.50 |}.


(** Non-negative maximal effects for the five endpoints: what a reduction
    from baseline means. *)
Definition nonneg_Emax (p : PD.pd_params) : Prop :=
  0 <= PD.Emax (PD.HR p) /\ 0 <= PD.Emax (PD.SBP p) /\ 0 <= PD.Emax (PD.DBP p)
  /\ 0 <= PD.Emax (PD.contractility p)
  /\ 0 <= PD.Emax (PD.vascular_resistance p).

(** The Hill function without the clip: [Emax * C^γ / (EC50^γ + C^γ)]. *)
Definition hill_raw (Emax0 EC500 gamma0 c : R) : R :=
  Emax0 * PD.conc_pow gamma0 c / (Rpower EC500 gamma0 + PD.conc_pow gamma0 c).

(** A concentration record with no sample. *)
Definition empty_concentration : Schemas.DrugConcentration :=
  {| Schemas.dc_drug_name := "metoprolol"; Schemas.dose_mg := 50;
     Schemas.route := "oral"; Schemas.dc_time_hours := [];
     Schemas.concentration_mg_L := [];
     Schemas.absorption_rate := 1.5; Schemas.elimination_rate := 0.20;
     Schemas.volume_distribution := 385; Schemas.bioavailability := 0.50;
     Schemas.Cmax_ss := 0; Schemas.Cmin_ss := 0; Schemas.Cavg_ss := 0;
     Schemas.AUC_ss := 0; Schemas.accumulation_factor := 1;
     Schemas.fluctuation_percent := 0 |}.

(** ** pd_model.py: fitting the Hill parameters from a dose-response file *)

Module PDFit.

(** One row of the dose-response file, with the four columns the fit
    reads. *)
Record observation : Type := {
  Concentration_ng_mL : R;
  Heart_Rate_bpm : R;
  Systolic_BP_mmHg : R;
  Diastolic_BP_mmHg : R
}.

(** [Series.mean()]: [nan] on an empty selection. *)
Definition mean (l : list R) : result R :=
  np_div (PK.Rsum l) (INR (length l)).

(** [Series.min()]: no value ([nan]) on an empty column. *)
Definition series_min (l : list R) : option R :=
  match l with
  | [] => None
  | x :: l' => Some (fold_left Rmin l' x)
  end.

(** [C[mask]] with a boolean mask: the shapes must agree. *)
Definition mask (C : list R) (m : list bool) : result (list R) :=
  if decide (length C = length m) then
    Ok (map fst (filter (fun cm => snd cm = true) (zip C m)))
  else Raise IndexError.

Section Fit.

(** What pandas, numpy and scipy do stays outside the model:
    [pd.read_csv], [np.median] and [scipy.optimize.curve_fit]; the fit either
    returns [(Emax, EC50, gamma)] or raises, which the caller catches. *)
Variable read_csv : string -> result (list observation).
Variable np_median : list R -> R.
Variable curve_fit : list R -> list R -> R * R * R -> option (R * R * R).

(** [PDModel._fit_hill_equation] *)
Definition fit_hill_equation (C y_data : list R) : result PD.hill_params :=
  let* y_max := np_max y_data in
  let Emax_init := y_max * 1.2 in
  let half_max := y_max / 2 in
  let* subset := mask C (map (fun y => bool_decide (y > half_max)) y_data) in
  let EC50_init :=
    if decide (0 < length subset)%nat then np_median subset else np_median C in
  let gamma_init := 1.5 in
  let Emax_init := np_clip Emax_init (0.0 + 0.001) (300.0 - 0.001) in
  let EC50_init := np_clip EC50_init (0.1 + 0.001) (2000.0 - 0.001) in
  match curve_fit C y_data (Emax_init, EC50_init, gamma_init) with
  | Some (Emax0, EC500, gamma0) => Ok (PD.hp Emax0 EC500 gamma0 None)
  | None => Ok (PD.hp Emax_init EC50_init 1.5 None)
  end.

(** One endpoint of the loop in [_fit_from_csv]: the reductions from the
    baseline, clipped at 0, then the fit, then the baseline stored with the
    parameters.  The baseline mean is [nan] only on an empty selection, and
    it is first needed for the first row of the file. *)
Definition fit_endpoint (C : list R) (baseline0 : result R) (column : list R)
    : result PD.hill_params :=
  let* y_data := mapM (fun v => let* b := baseline0 in Ok (Rmax (b - v) 0)) column in
  let* params := fit_hill_equation C y_data in
  let* b := baseline0 in
  Ok (PD.hp (PD.Emax params) (PD.EC50 params) (PD.gamma params) (Some b)).

(** The rows whose concentration is below 10 ng/mL, or else the rows at the
    least concentration. *)
Definition baseline_rows (df : list observation) : list observation :=
  let low := filter (fun r => Concentration_ng_mL r < 10) df in
  if decide (length low = 0)%nat then
    match series_min (map Concentration_ng_mL df) with
    | Some c_min => filter (fun r => Concentration_ng_mL r = c_min) df
    | None => []
    end
  else low.

(** [PDModel._fit_from_csv] *)
Definition fit_from_csv (csv_path : string) : result PD.pd_params :=
  let* df := read_csv csv_path in
  let baseline_data := baseline_rows df in
  let baseline_hr := mean (map Heart_Rate_bpm baseline_data) in
  let baseline_sbp := mean (map Systolic_BP_mmHg baseline_data) in
  let baseline_dbp := mean (map Diastolic_BP_mmHg baseline_data) in
  let C := map Concentration_ng_mL df in
  let* hr_params := fit_endpoint C baseline_hr (map Heart_Rate_bpm df) in
  let* sbp_params := fit_endpoint C baseline_sbp (map Systolic_BP_mmHg df) in
  let* dbp_params := fit_endpoint C baseline_dbp (map Diastolic_BP_mmHg df) in
  Ok {| PD.HR := hr_params;
        PD.SBP := sbp_params;
        PD.DBP := dbp_params;
        PD.contractility :=
          PD.hp (PD.Emax hr_params / 100.0) (PD.EC50 hr_params)
                (PD.gamma hr_params) None;
        PD.vascular_resistance :=
          PD.hp (PD.Emax sbp_params / 100.0) (PD.EC50 sbp_params)
                (PD.gamma sbp_params) None |}.

(** The fit stays inside the bounds it is called with:
    [([0, 0.1, 0.1], [300, 2000, 10])]. *)
Definition within_bounds : Prop :=
  forall C y p0 Emax0 EC500 gamma0,
    curve_fit C y p0 = Some (Emax0, EC500, gamma0) ->
    0 <= Emax0 <= 300 /\ 0.1 <= EC500 <= 2000 /\ 0.1 <= gamma0 <= 10.

End Fit.

End PDFit.

(** Stand-ins for the file system and the numeric libraries: a file of three
    observations, the middle element as the median, and a fit that always
    fails. *)
Definition three_rows : list PDFit.observation :=
  [ {| PDFit.Concentration_ng_mL := 0; PDFit.Heart_Rate_bpm := 75;
       PDFit.Systolic_BP_mmHg := 120; PDFit.Diastolic_BP_mmHg := 80 |};
    {| PDFit.Concentration_ng_mL := 50; PDFit.Heart_Rate_bpm := 65;
       PDFit.Systolic_BP_mmHg := 114; PDFit.Diastolic_BP_mmHg := 76 |};
    {| PDFit.Concentration_ng_mL := 200; PDFit.Heart_Rate_bpm := 55;
       PDFit.Systolic_BP_mmHg := 108; PDFit.Diastolic_BP_mmHg := 72 |} ].

Definition read_three (_ : string) : result (list PDFit.observation) :=
  Ok three_rows.

Definition read_nothing (_ : string) : result (list PDFit.observation) :=
  Ok [].

Definition middle (l : list R) : R := nth (length l / 2) l 0.

Definition fit_fails (_ _ : list R) (_ : R * R * R) : option (R * R * R) := None.

Definition any_file (_ : string) : bool := true.

(** Effects without a single timestep, and effects whose contractility
    series is shorter than the heart-rate series. *)
Definition empty_effects : Schemas.PhysiologicalEffects :=
  {| Schemas.pe_drug_name := "metoprolol";
     Schemas.pe_time_hours := [];
     Schemas.delta_hr := [];
     Schemas.delta_sbp := [];
     Schemas.delta_dbp := [];
     Schemas.delta_contractility := [];
     Schemas.delta_vascular_resistance := [];
     Schemas.bradycardia_risk := false;
     Schemas.hypotension_risk := false |}.

Definition ragged_effects : Schemas.PhysiologicalEffects :=
  {| Schemas.pe_drug_name := "metoprolol";
     Schemas.pe_time_hours := [0; 1; 2];
     Schemas.delta_hr := [0; -1; -2];
     Schemas.delta_sbp := [0; -1; -2];
     Schemas.delta_dbp := [0; -1; -2];
     Schemas.delta_contractility := [0; 0];
     Schemas.delta_vascular_resistance := [0; 0; 0];
     Schemas.bradycardia_risk := false;
     Schemas.hypotension_risk := false |}.

(** ** orchestrator.py: the patient lookup and the full pipeline *)

Module DigitalTwinOrchestrator.
Import Schemas.

(** The columns of the [Patient] table that the lookup reads
    (backend/app/db/models.py). *)
Record Patient : Type := {
  id : Z;
  age : Z;
  gender : option string;
  weight : option R;
  height : option R;
  hr : option R;
  sbp : option R;
  dbp : option R
}.

(** [float(v) if v else d] on an optional float column: [None] and [0.0]
    are both falsy. *)
Definition or_default (v : option R) (d : R) : R :=
  match v with
  | Some x => if decide (x = 0) then d else x
  | None => d
  end.

(** ["M" if patient.gender and patient.gender.lower() == "male" else "F"] *)
Definition sex_of (g : option string) : string :=
  match g with
  | Some s => if String.eqb (lower s) "male" then "M" else "F"
  | None => "F"
  end.

(** What the five stages return. *)
Record results : Type := {
  r_baseline : PatientBaseline;
  r_pk : DrugConcentration;
  r_pd : PhysiologicalEffects;
  r_trajectory : SimulationTrajectory;
  r_lstm : LSTMFeatures
}.

(** The right operand of [p['Vd'] * patient_weight], a float times whatever
    the patient mapping holds under ["weight"]. *)
Definition float_times (v : pyval) : result R :=
  match v with
  | VNum n => Ok (num_val n)
  | VBool b => Ok (if b then 1 else 0)
  | VNone | VStr _ | VObj => Raise TypeError
  end.

(** [PKModel(drug_name, dose_mg, weight)] as the pipeline calls it: the
    weight is passed as found in the mapping, the interval and the duration
    keep their defaults of 12 hours and 7 days.  The registry test comes
    before the product with the weight. *)
Definition construct_pk (drug_name : string) (dose_mg : R) (patient_weight : pyval)
    : result PK.PKModel :=
  match PK.DRUG_PARAMS !! lower drug_name with
  | None => Raise (ValueError ("Unknown drug: " ++ drug_name))
  | Some _ =>
      let* w := float_times patient_weight in
      PK.init drug_name dose_mg w (PyInt 12) (PyInt 7)
  end.

Section Pipeline.

(** Outside the model: the database session (with [int(patient_id)], any
    exception of which is caught), Python's conversions between text and
    numbers, and numpy's interpolation and gradient. *)
Variable DB_AVAILABLE : bool.
Variable db_first : string -> result (option Patient).
Variable str_of_int : Z -> string.
Variable int_of_string : string -> result Z.
Variable float_of_string : string -> result R.
Variable py_str : pyval -> string.
Variable np_interp : list R -> list R -> list R -> result (list R).
Variable np_gradient : list R -> list R -> result (list R).

(** The mapping built from a row of the table. *)
Definition params_of (patient : Patient) : gmap string pyval :=
  let p_hr := or_default (hr patient) 75.0 in
  let sv := 70.0 in
  <["ecg_risk" := ODE.vfloat 0.1]>
  (<["svr" := ODE.vfloat 18.0]>
  (<["co" := ODE.vfloat (p_hr * sv / 1000.0)]>
  (<["sv" := ODE.vfloat sv]>
  (<["dbp" := ODE.vfloat (or_default (dbp patient) 80.0)]>
  (<["sbp" := ODE.vfloat (or_default (sbp patient) 120.0)]>
  (<["hr" := ODE.vfloat p_hr]>
  (<["height" := ODE.vfloat (or_default (height patient) 170.0)]>
  (<["weight" := ODE.vfloat (or_default (weight patient) 70.0)]>
  (<["sex" := VStr (sex_of (gender patient))]>
  (<["age" := VNum (PyInt (age patient))]>
  (<["patient_id" := VStr (str_of_int (id patient))]> ∅))))))))))).

(** [DigitalTwinOrchestrator.fetch_patient_params] *)
Definition fetch_patient_params (patient_id : string) : gmap string pyval :=
  if negb DB_AVAILABLE then ∅
  else match db_first patient_id with
       | Ok (Some patient) => params_of patient
       | Ok None => ∅
       | Raise _ | NonReal => ∅
       end.

(** The merge at the head of [run_full_simulation]: database first, then
    the manual mapping on top.  [patient_id] is [None] for a falsy
    identifier, and its text otherwise. *)
Definition merged_params (patient_params : option (gmap string pyval))
    (patient_id : option string) : gmap string pyval :=
  let from_db :=
    match patient_id with
    | Some pid => fetch_patient_params pid
    | None => ∅
    end in
  match patient_params with
  | Some manual => manual ∪ from_db
  | None => from_db
  end.

(** [DigitalTwinOrchestrator.run_full_simulation], steps 1 to 5; the plots
    and the report of steps 6 and 7 are not modelled. *)
Definition run_full_simulation (patient_params : option (gmap string pyval))
    (patient_id : option string) (drug_name : string) (dose_mg : R)
    (duration_hours : option R) : result results :=
  let final_params := merged_params patient_params patient_id in
  if decide (final_params = ∅) then
    Raise (ValueError "No patient parameters provided (neither via DB nor manual dict).")
  else
    let* ode := ODE.init int_of_string float_of_string py_str final_params in
    let baseline := ODE.initialize ode in
    let* pk := construct_pk drug_name dose_mg
                 (ODE.get final_params "weight" (ODE.vfloat 70.0)) in
    let* drug_conc := PK.simulate pk duration_hours in
    let* pd := PD.init (fun _ => false) (fun _ => Raise KeyError) drug_name None in
    let* effects := PD.compute_effects pd baseline drug_conc in
    let* trajectory := ODE.simulate_with_effects baseline effects in
    let* lstm_features :=
      Orchestrator.prepare_lstm_features np_interp np_gradient
        baseline drug_conc trajectory in
    Ok {| r_baseline := baseline; r_pk := drug_conc; r_pd := effects;
          r_trajectory := trajectory; r_lstm := lstm_features |}.

End Pipeline.

End DigitalTwinOrchestrator.

(** Stand-ins for the database and the numeric libraries: a table with one
    patient whose vitals are all missing, an interpolation that returns the
    sampled values and a gradient that is zero. *)
Definition patient_7 : DigitalTwinOrchestrator.Patient :=
  {| DigitalTwinOrchestrator.id := 7; DigitalTwinOrchestrator.age := 61;
     DigitalTwinOrchestrator.gender := Some "Male";
     DigitalTwinOrchestrator.weight := None;
     DigitalTwinOrchestrator.height := None;
     DigitalTwinOrchestrator.hr := Some 0;
     DigitalTwinOrchestrator.sbp := None;
     DigitalTwinOrchestrator.dbp := None |}.

Definition one_patient (_ : string)
    : result (option DigitalTwinOrchestrator.Patient) := Ok (Some patient_7).

Definition no_patient (_ : string)
    : result (option DigitalTwinOrchestrator.Patient) := Ok None.

Definition str_seven (_ : Z) : string := "7".

Definition interp_samples (_ _ fp : list R) : result (list R) := Ok fp.

Definition gradient_zero (f _ : list R) : result (list R) :=
  Ok (map (fun _ => 0) f).

(** A manual mapping whose weight is given as text. *)
Definition text_weight : gmap string pyval := {["weight" := VStr "82"]}.

Definition float_82 (_ : string) : result R := Ok 82.

(** ** backend/app/services/pkpd_service.py *)

Module PKPDService.
Import Schemas.

(** [int(x)] on a float: truncation towards zero. *)
Definition int_of_float (x : R) : Z :=
  if decide (0 <= x) then Int_part x else (- Int_part (- x))%Z.

(** [max(a)] on a Python list. *)
Definition py_max (a : list R) : result R :=
  match a with
  | [] => Raise (ValueError "max() arg is an empty sequence")
  | x :: a' => Ok (fold_left Rmax a' x)
  end.

(** [sum(a)]: the left fold from 0. *)
Definition py_sum (a : list R) : R := fold_left Rplus a 0.

(** The dictionary [run_single_dose] returns. *)
Record single_dose : Type := {
  time : list Z;
  concentration : list R;
  cmax : R;
  auc : R
}.

(** [PKPDService.run_single_dose]; the drug name it is given is not used. *)
Definition run_single_dose (dose_mg duration_h : R) : result single_dose :=
  let time_points := range (int_of_float duration_h + 1) in
  let* conc_curve :=
    mapM (fun t => let* q := py_div (IZR t) duration_h in
                   Ok (dose_mg * (1 - q))) time_points in
  let* cmax0 := py_max conc_curve in
  let auc0 := py_sum conc_curve in
  Ok {| time := time_points; concentration := conc_curve;
        cmax := cmax0; auc := auc0 |}.

(** One entry of the comparison. *)
Record comparison : Type := {
  c_dose : R;
  c_cmax : R;
  c_auc : R;
  curve : list (Z * R)
}.

(** [PKPDService.compare_doses]; the drug name is only passed on. *)
Definition compare_doses (doses : list R) (duration : R) : result (list comparison) :=
  mapM (fun dose =>
          let* sim := run_single_dose dose duration in
          let* points :=
            mapM (fun i =>
                    match time sim !! i, concentration sim !! i with
                    | Some t, Some c => Ok (t, c)
                    | _, _ => Raise IndexError
                    end) (seq 0 (length (time sim))) in
          Ok {| c_dose := dose; c_cmax := cmax sim; c_auc := auc sim;
                curve := points |}) doses.

(** The fields of [PKPDSimulateRequest] that the simulation reads; the
    schema makes the interval and the duration floats. *)
Record PKPDSimulateRequest : Type := {
  drug_name : string;
  dose_mg : R;
  dosing_interval_h : R;
  duration_h : R;
  weight_kg : option R
}.

(** What ends up in [simulation_data]: nothing, the record of the PK
    engine, or the placeholder curve. *)
Inductive simulation_data : Type :=
| NoData
| FromPKModel (pk_output : DrugConcentration)
| FromPlaceholder (sim : single_dose).

(** [payload.weight_kg if payload.weight_kg else 70.0] *)
Definition weight_of (payload : PKPDSimulateRequest) : R :=
  match weight_kg payload with
  | Some w => if decide (w = 0) then 70.0 else w
  | None => 70.0
  end.

(** [payload.dosing_interval_h if payload.dosing_interval_h else 12] *)
Definition tau_of (payload : PKPDSimulateRequest) : pynum :=
  if decide (dosing_interval_h payload = 0) then PyInt 12
  else PyFloat (dosing_interval_h payload).

(** [int(payload.duration_h / 24) if payload.duration_h else 7], raised to
    1 when below. *)
Definition n_days_of (payload : PKPDSimulateRequest) : Z :=
  let n_days :=
    if decide (duration_h payload = 0) then 7%Z
    else int_of_float (duration_h payload / 24) in
  if decide (n_days < 1)%Z then 1%Z else n_days.

(** [PKPDService.simulate] up to [simulation_data]: the engine inside
    [try ... except Exception], or the placeholder when the engine could
    not be imported.  Writing the result file and the report is not
    modelled. *)
Definition simulate (PKModel_available : bool) (payload : PKPDSimulateRequest)
    : result simulation_data :=
  if PKModel_available then
    let attempt :=
      let* pk := PK.init (drug_name payload) (dose_mg payload) (weight_of payload)
                   (tau_of payload) (PyInt (n_days_of payload)) in
      PK.simulate pk (Some (duration_h payload)) in
    match attempt with
    | Ok pk_output => Ok (FromPKModel pk_output)
    | Raise _ => Ok NoData
    | NonReal => NonReal
    end
  else
    let* sim := run_single_dose (dose_mg payload) (duration_h payload) in
    Ok (FromPlaceholder sim).

End PKPDService.

(** Requests for metoprolol 50 mg over a week: every 12 hours, and with the
    interval left at 0. *)
Definition request_q12 : PKPDService.PKPDSimulateRequest :=
  {| PKPDService.drug_name := "metoprolol"; PKPDService.dose_mg := 50;
     PKPDService.dosing_interval_h := 12; PKPDService.duration_h := 168;
     PKPDService.weight_kg := None |}.

Definition request_q0 : PKPDService.PKPDSimulateRequest :=
  {| PKPDService.drug_name := "metoprolol"; PKPDService.dose_mg := 50;
     PKPDService.dosing_interval_h := 0; PKPDService.duration_h := 168;
     PKPDService.weight_kg := None |}.

(** ** backend/app/routes/twin.py: the parameters of a simulation request *)

Module TwinRoute.

(** [SimulationRequest] (backend/app/schemas/simulation.py). *)
Record SimulationRequest : Type := {
  patient_id : Z;
  drug_name : option string;
  dose_mg : option R;
  duration_hours : Z;
  age : option Z;
  sex : option string;
  weight : option R;
  height : option R;
  hr : option R;
  sbp : option R;
  dbp : option R;
  sv : option R;
  co : option R;
  svr : option R;
  ecg_risk : option R
}.

(** The parsed EHR file as [run_simulation] holds it.  The module never
    imports [json], so [json.load] raises [NameError] whenever a parsed file
    exists; the surrounding [except Exception] swallows it and [ehr_data]
    keeps its initial value [{}], as it does when there is no file. *)
Definition ehr_data : gmap string pyval := ∅.

(** [get_val]: the request first, then the database, then the EHR mapping
    unless it holds [null], then the default. *)
Definition get_val (req_val : option pyval) (ehr_key : string) (default0 : pyval)
    (db_val : option pyval) : pyval :=
  match req_val with
  | Some v => v
  | None =>
      match db_val with
      | Some v => v
      | None =>
          match ehr_data !! ehr_key with
          | Some VNone | None => default0
          | Some v => v
          end
      end
  end.

Definition float_val (v : option R) : option pyval := ODE.vfloat <$> v.
Definition int_val (v : option Z) : option pyval := (fun z => VNum (PyInt z)) <$> v.

(** The mapping [run_simulation] hands to the pipeline, once [sex] has been
    settled. *)
Definition patient_params (str_of_int : Z -> string) (req : SimulationRequest)
    (patient : DigitalTwinOrchestrator.Patient) (sex0 : string)
    : gmap string pyval :=
  <["ecg_risk" := get_val (float_val (ecg_risk req)) "ecg_risk" (ODE.vfloat 0.2) None]>
  (<["svr" := get_val (float_val (svr req)) "svr" (ODE.vfloat 18.0) None]>
  (<["co" := get_val (float_val (co req)) "cardiac_output" (ODE.vfloat 5.0) None]>
  (<["sv" := get_val (float_val (sv req)) "stroke_volume" (ODE.vfloat 70.0) None]>
  (<["dbp" := get_val (float_val (dbp req)) "blood_pressure_dia" (ODE.vfloat 80.0)
                (float_val (DigitalTwinOrchestrator.dbp patient))]>
  (<["sbp" := get_val (float_val (sbp req)) "blood_pressure_sys" (ODE.vfloat 120.0)
                (float_val (DigitalTwinOrchestrator.sbp patient))]>
  (<["hr" := get_val (float_val (hr req)) "heart_rate" (ODE.vfloat 75.0)
               (float_val (DigitalTwinOrchestrator.hr patient))]>
  (<["height" := get_val (float_val (height req)) "height_cm" (ODE.vfloat 170.0)
                   (float_val (DigitalTwinOrchestrator.height patient))]>
  (<["weight" := get_val (float_val (weight req)) "weight_kg" (ODE.vfloat 70.0)
                   (float_val (DigitalTwinOrchestrator.weight patient))]>
  (<["sex" := VStr sex0]>
  (<["age" := get_val (int_val (age req)) "age" (VNum (PyInt 45))
                (Some (VNum (PyInt (DigitalTwinOrchestrator.age patient))))]>
  (<["patient_id" := VStr (str_of_int (patient_id req))]> ∅))))))))))).

End TwinRoute.

(** A request that sets only the heart rate, to 0. *)
Definition request_hr0 : TwinRoute.SimulationRequest :=
  {| TwinRoute.patient_id := 7; TwinRoute.drug_name := Some "Metoprolol";
     TwinRoute.dose_mg := Some 50; TwinRoute.duration_hours := 168;
     TwinRoute.age := None; TwinRoute.sex := None;
     TwinRoute.weight := None; TwinRoute.height := None;
     TwinRoute.hr := Some 0; TwinRoute.sbp := None; TwinRoute.dbp := None;
     TwinRoute.sv := None; TwinRoute.co := None; TwinRoute.svr := None;
     TwinRoute.ecg_risk := None |}.
(** * Properties *)

(** ** The outcome monad *)

Lemma bind_Ok_inv {A B : Type} (c : result A) (k : A -> result B) (b : B) :
  bind c k = Ok b -> exists a, c = Ok a /\ k a = Ok b.
Proof. destruct c as [a| |]; simpl; intros H; try discriminate; eauto. Qed.

Lemma mapM_pure {A B : Type} (f : A -> result B) (g : A -> B) (l : list A) :
  (forall a, In a l -> f a = Ok (g a)) -> mapM f l = Ok (map g l).
Proof.
  induction l as [|a l IH]; intros H; simpl; [reflexivity|].
  rewrite (H a) by (left; reflexivity). simpl.
  rewrite IH by (intros x Hx; apply H; right; exact Hx). reflexivity.
Qed.

(** ** C1: multi-dose superposition *)

Section Superposition.

Variable self : PK.PKModel.
Variable t : R.

Let dose_time (i : Z) : R := IZR i * num_val (PK.tau self).
Let step (acc c : result R) : result R :=
  let* a := acc in let* x := c in Ok (a + x).

Lemma fold_step_Raise (cs : list (result R)) (e : exn) :
  fold_left step cs (Raise e) = Raise e.
Proof. induction cs as [|c cs IH]; simpl; auto. Qed.

Lemma fold_step_NonReal (cs : list (result R)) :
  fold_left step cs NonReal = NonReal.
Proof. induction cs as [|c cs IH]; simpl; auto. Qed.

Lemma C_multiple_loop_fold (idx : list Z) (total : R) :
  PK.C_multiple_loop self t idx total =
  fold_left step
    (map (fun i => PK.C_single self (t - dose_time i))
         (filter (fun i => dose_time i <= t) idx))
    (Ok total).
Proof.
  revert total. induction idx as [|i idx IH]; intros total; simpl.
  - reflexivity.
  - rewrite filter_cons. fold (dose_time i).
    destruct (decide (t >= dose_time i)) as [Hge|Hlt];
      destruct (decide (dose_time i <= t)) as [Hle|Hnle]; try lra.
    + simpl. destruct (PK.C_single self (t - dose_time i)) as [c|e|]; simpl.
      * apply IH.
      * symmetry. apply fold_step_Raise.
      * symmetry. apply fold_step_NonReal.
    + apply IH.
Qed.

Lemma C_single_bateman (s : R) :
  PK.Vd self * (PK.ka self - PK.ke self) <> 0 -> 0 <= s ->
  PK.C_single self s = Ok (PK.bateman self s).
Proof.
  intros Hden Hs. unfold PK.C_single, PK.bateman, py_div.
  destruct (decide (s < 0)) as [Hneg|_]; [lra|].
  destruct (decide (PK.Vd self * (PK.ka self - PK.ke self) = 0)); [contradiction|].
  reflexivity.
Qed.

Lemma C_multiple_loop_Rsum (idx : list Z) (total : R) :
  PK.Vd self * (PK.ka self - PK.ke self) <> 0 ->
  PK.C_multiple_loop self t idx total =
  Ok (total + PK.Rsum (map (fun i => PK.bateman self (t - dose_time i))
                           (filter (fun i => dose_time i <= t) idx))).
Proof.
  intros Hden. revert total. induction idx as [|i idx IH]; intros total; simpl.
  - f_equal. lra.
  - rewrite filter_cons. fold (dose_time i).
    destruct (decide (t >= dose_time i)) as [Hge|Hlt];
      destruct (decide (dose_time i <= t)) as [Hle|Hnle]; try lra.
    + rewrite C_single_bateman by (auto; lra). simpl.
      rewrite IH. f_equal. lra.
    + apply IH.
Qed.

End Superposition.

Lemma elem_of_range (n i : Z) : i ∈ range n <-> (0 <= i < n)%Z.
Proof.
  unfold range. rewrite list_elem_of_fmap. split.
  - intros (k & -> & Hk). apply list_elem_of_In, in_seq in Hk. lia.
  - intros Hi. exists (Z.to_nat i). split; [lia|].
    apply list_elem_of_In, in_seq. lia.
Qed.

(** C1.  For every engine, time [t] and dose count [n_doses],
    [C_multiple t n_doses] is the sum of the single-dose curve
    [C_single (t - i * tau)] over exactly the dose indices [i] of
    [[0, n_doses)] with [i * tau <= t]; doses given after [t] are not in
    the sum.  When the Bateman quotient is defined the sum is the plain
    real sum of the shifted Bateman curves. *)
Theorem C1_C_multiple_superposition (self : PK.PKModel) (t : R) (n_doses : Z) :
  PK.C_multiple self t n_doses = PK.superposition self t n_doses
  /\ (forall i : Z, i ∈ PK.administered self t n_doses <->
        (0 <= i < n_doses)%Z /\ IZR i * num_val (PK.tau self) <= t)
  /\ (PK.Vd self * (PK.ka self - PK.ke self) <> 0 ->
      PK.C_multiple self t n_doses =
      Ok (PK.Rsum (map (fun i => PK.bateman self (t - IZR i * num_val (PK.tau self)))
                       (PK.administered self t n_doses)))).
Proof.
  split; [|split].
  - unfold PK.C_multiple, PK.superposition, PK.sum_results, PK.administered.
    apply C_multiple_loop_fold.
  - intros i. unfold PK.administered.
    rewrite list_elem_of_filter, elem_of_range. tauto.
  - intros Hden. unfold PK.C_multiple, PK.administered.
    rewrite C_multiple_loop_Rsum by exact Hden. f_equal. lra.
Qed.

Ltac decide_reals :=
  repeat match goal with
         | |- context [decide ?P] => destruct (decide P); try lra; try lia
         end.

Lemma C1_witness :
  PK.C_multiple metoprolol_50 13 14 =
  Ok (PK.Rsum (map (fun i => PK.bateman metoprolol_50
                                (13 - IZR i * num_val (PK.tau metoprolol_50)))
                   (PK.administered metoprolol_50 13 14))).
Proof.
  apply (proj2 (proj2 (C1_C_multiple_superposition metoprolol_50 13 14))).
  simpl. lra.
Defined.

(** At hour 13 of that regimen only the doses of hours 0 and 12 count. *)
Example administered_at_13 : PK.administered metoprolol_50 13 14 = [0%Z; 1%Z].
Proof.
  unfold PK.administered.
  change (range 14) with [0; 1; 2; 3; 4; 5; 6; 7; 8; 9; 10; 11; 12; 13]%Z.
  simpl num_val.
  repeat (rewrite filter_cons; decide_reals).
  reflexivity.
Qed.

(** ** C2: unknown drug names in the PK engine *)

Lemma DRUG_PARAMS_keys (k : string) :
  is_Some (PK.DRUG_PARAMS !! k) <-> k = "metoprolol" \/ k = "atenolol".
Proof.
  unfold PK.DRUG_PARAMS. split.
  - intros [p Hp].
    destruct (decide (k = "metoprolol")) as [->|Hm]; [left; reflexivity|].
    destruct (decide (k = "atenolol")) as [->|Ha]; [right; reflexivity|].
    rewrite lookup_insert_ne, lookup_insert_ne, lookup_empty in Hp by congruence.
    discriminate.
  - intros [->| ->].
    + rewrite lookup_insert_eq. eauto.
    + rewrite lookup_insert_ne by discriminate. rewrite lookup_insert_eq. eauto.
Qed.

Lemma PK_init_unknown (name : string) (dose_mg w : R) (tau0 nd : pynum) :
  PK.DRUG_PARAMS !! lower name = None ->
  PK.init name dose_mg w tau0 nd = Raise (ValueError ("Unknown drug: " ++ name)).
Proof. intros H. unfold PK.init. rewrite H. reflexivity. Qed.

Lemma PK_init_known (name : string) (dose_mg w : R) (tau0 nd : pynum) p :
  PK.DRUG_PARAMS !! lower name = Some p ->
  PK.init name dose_mg w tau0 nd =
  Ok {| PK.drug_name := lower name; PK.dose := dose_mg; PK.weight := w;
        PK.tau := tau0; PK.n_days := nd;
        PK.ka := PK.p_ka p; PK.ke := PK.p_ke p;
        PK.Vd := PK.p_Vd p * w; PK.F := PK.p_F p |}.
Proof. intros H. unfold PK.init. rewrite H. reflexivity. Qed.

Lemma PK_init_Ok_iff (name : string) (dose_mg w : R) (tau0 nd : pynum) :
  (exists pk, PK.init name dose_mg w tau0 nd = Ok pk) <->
  lower name = "metoprolol" \/ lower name = "atenolol".
Proof.
  rewrite <- DRUG_PARAMS_keys. split.
  - intros [pk Hpk]. destruct (PK.DRUG_PARAMS !! lower name) as [p|] eqn:E; [eauto|].
    rewrite (PK_init_unknown _ _ _ _ _ E) in Hpk. discriminate.
  - intros [p Hp]. rewrite (PK_init_known _ _ _ _ _ _ Hp). eauto.
Qed.

Lemma not_a_key (k : string) :
  ~ (k = "metoprolol" \/ k = "atenolol") -> PK.DRUG_PARAMS !! k = None.
Proof.
  intros H. destruct (PK.DRUG_PARAMS !! k) as [p|] eqn:E; [|reflexivity].
  exfalso. apply H, DRUG_PARAMS_keys. eauto.
Qed.

(** C2, as the code has it.  The engine looks the name up after lower-casing
    it.  For every drug name whose lower-cased form is not a key of the PK
    registry (such as [fakedrug]), construction raises [ValueError]; no
    engine exists afterwards, so nothing that needs one (the simulation and
    its arrays) runs.  Construction succeeds exactly for the names whose
    lower-cased form is [metoprolol] or [atenolol]. *)
Theorem C2_unknown_drug_rejected (name : string) (dose_mg w : R) (tau0 nd : pynum) :
  (PK.DRUG_PARAMS !! lower name = None ->
     PK.init name dose_mg w tau0 nd = Raise (ValueError ("Unknown drug: " ++ name))
     /\ forall duration_hours,
          (let* pk := PK.init name dose_mg w tau0 nd in PK.simulate pk duration_hours)
          = Raise (ValueError ("Unknown drug: " ++ name)))
  /\ ((exists pk, PK.init name dose_mg w tau0 nd = Ok pk) <->
      lower name = "metoprolol" \/ lower name = "atenolol")
  /\ PK.init "fakedrug" dose_mg w tau0 nd = Raise (ValueError "Unknown drug: fakedrug")
  /\ (exists pk, PK.init "metoprolol" dose_mg w tau0 nd = Ok pk)
  /\ (exists pk, PK.init "atenolol" dose_mg w tau0 nd = Ok pk).
Proof.
  split; [|split; [|split; [|split]]].
  - intros H. split.
    + apply PK_init_unknown; assumption.
    + intros d. rewrite PK_init_unknown by assumption. reflexivity.
  - apply PK_init_Ok_iff.
  - apply PK_init_unknown, not_a_key; intros [H|H]; discriminate H.
  - apply PK_init_Ok_iff. left. reflexivity.
  - apply PK_init_Ok_iff. right. reflexivity.
Qed.

Lemma C2_witness :
  PK.init "Aspirin" 50 70 (PyInt 12) (PyInt 7)
  = Raise (ValueError "Unknown drug: Aspirin").
Proof.
  apply (proj1 (C2_unknown_drug_rejected "Aspirin" 50 70 (PyInt 12) (PyInt 7))).
  apply not_a_key. intros [H|H]; discriminate H.
Defined.

(** Read on the registry keys themselves the property fails: [METOPROLOL]
    is not a key of the registry, yet the engine is constructed. *)
Lemma C2_counterexample :
  PK.DRUG_PARAMS !! "METOPROLOL" = None
  /\ exists pk, PK.init "METOPROLOL" 50 70 (PyInt 12) (PyInt 7) = Ok pk.
Proof.
  split.
  - apply not_a_key. intros [H|H]; discriminate H.
  - apply PK_init_Ok_iff. left. reflexivity.
Qed.

(** ** C3: the Hill equation is monotone and bounded *)

Section Hill.

Variables Emax0 EC500 gamma0 : R.
Hypothesis Emax_nonneg : 0 <= Emax0.
Hypothesis EC50_pos : 0 < EC500.
Hypothesis gamma_pos : 0 < gamma0.

Lemma Rpower_pos (x g : R) : 0 < Rpower x g.
Proof. unfold Rpower. apply exp_pos. Qed.

Lemma conc_pow_nonneg (c : R) : 0 <= PD.conc_pow gamma0 c.
Proof.
  unfold PD.conc_pow. destruct (decide (c = 0)); [lra|].
  left. apply Rpower_pos.
Qed.

Lemma conc_pow_mono (c1 c2 : R) : 0 <= c1 <= c2 -> PD.conc_pow gamma0 c1 <= PD.conc_pow gamma0 c2.
Proof.
  intros [H1 H12]. unfold PD.conc_pow.
  destruct (decide (c1 = 0)) as [->|Hn1].
  - destruct (decide (c2 = 0)); [lra|]. left. apply Rpower_pos.
  - destruct (decide (c2 = 0)); [lra|].
    apply Rle_Rpower_l; lra.
Qed.

Lemma np_pow_conc (c : R) : 0 <= c -> np_pow c gamma0 = Ok (PD.conc_pow gamma0 c).
Proof.
  intros Hc. unfold np_pow, real_pow, PD.conc_pow.
  destruct (decide (0 < c)) as [Hpos|Hnpos].
  - destruct (decide (c = 0)); [lra|reflexivity].
  - destruct (decide (c = 0)); [|lra].
    destruct (decide (0 < gamma0)); [reflexivity|lra].
Qed.

Lemma py_pow_EC50 : py_pow EC500 gamma0 = Ok (Rpower EC500 gamma0).
Proof.
  unfold py_pow, real_pow. destruct (decide (0 < EC500)); [reflexivity|lra].
Qed.

Lemma hill_elem_curve (c : R) :
  0 <= c ->
  PD.hill_elem Emax0 (Rpower EC500 gamma0) gamma0 c = Ok (PD.hill_curve Emax0 EC500 gamma0 c).
Proof.
  intros Hc. unfold PD.hill_elem. rewrite np_pow_conc by exact Hc. simpl.
  unfold np_div.
  pose proof (Rpower_pos EC500 gamma0). pose proof (conc_pow_nonneg c).
  destruct (decide (Rpower EC500 gamma0 + PD.conc_pow gamma0 c = 0)); [lra|].
  reflexivity.
Qed.

Lemma hill_equation_curve (C : list R) :
  Forall (fun c => 0 <= c) C ->
  PD.hill_equation C Emax0 EC500 gamma0 = Ok (map (PD.hill_curve Emax0 EC500 gamma0) C).
Proof.
  intros HC. unfold PD.hill_equation. rewrite py_pow_EC50. simpl.
  apply mapM_pure. intros c Hin. apply hill_elem_curve.
  rewrite Forall_forall in HC. apply HC, list_elem_of_In, Hin.
Qed.

Lemma np_clip_bounds (x hi : R) : 0 <= hi -> 0 <= np_clip x 0 hi <= hi.
Proof.
  intros Hhi. unfold np_clip, Rmin, Rmax.
  destruct (Rle_dec x 0); destruct (Rle_dec hi _); lra.
Qed.

Lemma np_clip_mono (x y lo hi : R) : x <= y -> np_clip x lo hi <= np_clip y lo hi.
Proof.
  intros Hxy. unfold np_clip, Rmin, Rmax.
  destruct (Rle_dec x lo); destruct (Rle_dec y lo);
    repeat match goal with |- context [Rle_dec ?a ?b] => destruct (Rle_dec a b) end;
    lra.
Qed.

Lemma saturation_mono (k u v : R) :
  0 < k -> 0 <= u <= v -> Emax0 * u / (k + u) <= Emax0 * v / (k + v).
Proof.
  intros Hk [Hu Huv].
  assert (Hd : Emax0 * v / (k + v) - Emax0 * u / (k + u)
               = Emax0 * k * (v - u) / ((k + v) * (k + u))) by (field; lra).
  assert (0 <= Emax0 * k * (v - u) / ((k + v) * (k + u))).
  { apply Rmult_le_pos.
    - apply Rmult_le_pos; [apply Rmult_le_pos|]; lra.
    - left. apply Rinv_0_lt_compat. apply Rmult_lt_0_compat; lra. }
  lra.
Qed.

Lemma hill_curve_bounds (c : R) : 0 <= PD.hill_curve Emax0 EC500 gamma0 c <= 1.1 * Emax0.
Proof.
  unfold PD.hill_curve.
  pose proof (np_clip_bounds
    (Emax0 * PD.conc_pow gamma0 c / (Rpower EC500 gamma0 + PD.conc_pow gamma0 c)) (Emax0 * 1.1)).
  lra.
Qed.

Lemma hill_curve_mono (c1 c2 : R) :
  0 <= c1 <= c2 -> PD.hill_curve Emax0 EC500 gamma0 c1 <= PD.hill_curve Emax0 EC500 gamma0 c2.
Proof.
  intros H. unfold PD.hill_curve. apply np_clip_mono.
  apply saturation_mono; [apply Rpower_pos|].
  split; [apply conc_pow_nonneg | apply conc_pow_mono; exact H].
Qed.

End Hill.

(** C3.  For Hill parameters with [Emax >= 0], [EC50 > 0] and [gamma > 0]
    and an array of non-negative concentrations, [hill_equation] returns an
    array of the same length whose every value lies in [[0, 1.1 * Emax]],
    and a larger concentration never gets a smaller effect. *)
Theorem C3_hill_monotone_bounded (Emax0 EC500 gamma0 : R) (C : list R) :
  0 <= Emax0 -> 0 < EC500 -> 0 < gamma0 ->
  Forall (fun c => 0 <= c) C ->
  exists E,
    PD.hill_equation C Emax0 EC500 gamma0 = Ok E
    /\ length E = length C
    /\ (forall i e, E !! i = Some e -> 0 <= e <= 1.1 * Emax0)
    /\ (forall i j ci cj ei ej,
          C !! i = Some ci -> C !! j = Some cj ->
          E !! i = Some ei -> E !! j = Some ej ->
          ci <= cj -> ei <= ej).
Proof.
  intros HE HK Hg HC.
  exists (map (PD.hill_curve Emax0 EC500 gamma0) C).
  split; [apply hill_equation_curve; assumption|].
  split; [apply length_map|].
  split.
  - intros i e Hi. rewrite list_lookup_fmap in Hi.
    destruct (C !! i) as [c|]; simpl in Hi; [|discriminate].
    inversion Hi; subst. apply hill_curve_bounds; assumption.
  - intros i j ci cj ei ej Hci Hcj Hei Hej Hle.
    rewrite list_lookup_fmap, Hci in Hei. rewrite list_lookup_fmap, Hcj in Hej.
    simpl in *. inversion Hei; inversion Hej; subst.
    apply hill_curve_mono; try assumption.
    split; [|exact Hle].
    rewrite Forall_forall in HC. apply HC. eapply list_elem_of_lookup_2, Hci.
Qed.

Lemma C3_witness :
  exists E,
    PD.hill_equation [0; 50; 100] 25 50 1.5 = Ok E
    /\ length E = length [0; 50; 100]
    /\ (forall i e, E !! i = Some e -> 0 <= e <= 1.1 * 25)
    /\ (forall i j ci cj ei ej,
          [0; 50; 100] !! i = Some ci -> [0; 50; 100] !! j = Some cj ->
          E !! i = Some ei -> E !! j = Some ej ->
          ci <= cj -> ei <= ej).
Proof.
  apply (C3_hill_monotone_bounded 25 50 1.5 [0; 50; 100]); try lra.
  repeat constructor; lra.
Defined.

(** ** C4: safety flags of the PD engine *)

Import Schemas.

Lemma hill_with_curve (p : PD.hill_params) (C : list R) :
  valid_hill p -> Forall (fun c => 0 <= c) C ->
  PD.hill_with C p = Ok (map (PD.hill_curve (PD.Emax p) (PD.EC50 p) (PD.gamma p)) C).
Proof.
  intros [HK Hg] HC. unfold PD.hill_with. apply hill_equation_curve; assumption.
Qed.

Lemma last_item_nonempty (l : list R) :
  l <> [] -> exists x, last l = Some x /\ last_item l = Ok x.
Proof.
  intros Hl. unfold last_item. destruct (last l) as [x|] eqn:E; [eauto|].
  apply last_None in E. contradiction.
Qed.

Lemma last_item_Ok (l : list R) (x : R) : last_item l = Ok x -> last l = Some x.
Proof.
  unfold last_item. destruct (last l); intros H; inversion H; reflexivity.
Qed.

Lemma delta_of_nonempty (p : PD.hill_params) (conc : list R) :
  conc <> [] -> delta_of p conc <> [].
Proof. destruct conc; [congruence|discriminate]. Qed.

(** On non-negative concentrations and valid parameters the PD engine
    returns the five delta series in closed form. *)
Lemma compute_effects_closed (self : PD.PDModel) (b : PatientBaseline)
    (dc : DrugConcentration) :
  valid_params (PD.params self) ->
  Forall (fun c => 0 <= c) (concentration_mg_L dc) ->
  concentration_mg_L dc <> [] ->
  exists e,
    PD.compute_effects self b dc = Ok e
    /\ delta_hr e = delta_of (PD.HR (PD.params self)) (concentration_mg_L dc)
    /\ delta_sbp e = delta_of (PD.SBP (PD.params self)) (concentration_mg_L dc)
    /\ delta_dbp e = delta_of (PD.DBP (PD.params self)) (concentration_mg_L dc)
    /\ delta_contractility e =
       delta_of (PD.contractility (PD.params self)) (concentration_mg_L dc)
    /\ delta_vascular_resistance e =
       delta_of (PD.vascular_resistance (PD.params self)) (concentration_mg_L dc)
    /\ pe_time_hours e = dc_time_hours dc.
Proof.
  intros (H1 & H2 & H3 & H4 & H5) Hpos Hne.
  assert (Hng : Forall (fun c => 0 <= c)
                  (map (fun c => c * 1000.0) (concentration_mg_L dc))).
  { rewrite Forall_forall in Hpos |- *. intros x Hx.
    apply list_elem_of_fmap in Hx as (c & -> & Hc). specialize (Hpos c Hc). lra. }
  unfold PD.compute_effects.
  rewrite !hill_with_curve by assumption. simpl.
  destruct (last_item_nonempty _ (delta_of_nonempty (PD.HR (PD.params self)) _ Hne))
    as (x & _ & Hx).
  destruct (last_item_nonempty _ (delta_of_nonempty (PD.SBP (PD.params self)) _ Hne))
    as (y & _ & Hy).
  unfold delta_of in Hx, Hy. rewrite Hx. simpl. rewrite Hy. simpl.
  eexists. split; [reflexivity|]. simpl. repeat split; reflexivity.
Qed.

(** C4.  Whenever [compute_effects] returns, [bradycardia_risk] is true
    exactly when baseline HR plus the last [delta_hr] is below 60 and
    [hypotension_risk] exactly when baseline SBP plus the last [delta_sbp]
    is below 90; with baseline HR 75 and a final [delta_hr] of -20 the final
    HR is 55 and [bradycardia_risk] is true.  It does return on every
    non-empty series of non-negative concentrations with valid Hill
    parameters. *)
Theorem C4_safety_flags (self : PD.PDModel) (b : PatientBaseline)
    (dc : DrugConcentration) :
  (forall e, PD.compute_effects self b dc = Ok e ->
     exists dhr dsbp,
       last (delta_hr e) = Some dhr /\ last (delta_sbp e) = Some dsbp
       /\ (bradycardia_risk e = true <-> hr_baseline b + dhr < 60)
       /\ (hypotension_risk e = true <-> sbp_baseline b + dsbp < 90)
       /\ (hr_baseline b = 75 -> dhr = -20 ->
           hr_baseline b + dhr = 55 /\ bradycardia_risk e = true))
  /\ (valid_params (PD.params self) ->
      Forall (fun c => 0 <= c) (concentration_mg_L dc) ->
      concentration_mg_L dc <> [] ->
      exists e, PD.compute_effects self b dc = Ok e).
Proof.
  split.
  - intros e He. unfold PD.compute_effects in He.
    apply bind_Ok_inv in He as (hr_red & _ & He).
    apply bind_Ok_inv in He as (sbp_red & _ & He).
    apply bind_Ok_inv in He as (dbp_red & _ & He).
    apply bind_Ok_inv in He as (c_red & _ & He).
    apply bind_Ok_inv in He as (vr_red & _ & He).
    apply bind_Ok_inv in He as (dhr & Hhr & He).
    apply bind_Ok_inv in He as (dsbp & Hsbp & He).
    inversion He; subst; clear He. simpl.
    apply last_item_Ok in Hhr, Hsbp.
    exists dhr, dsbp.
    split; [exact Hhr|]. split; [exact Hsbp|].
    split; [apply bool_decide_eq_true|].
    split; [apply bool_decide_eq_true|].
    intros H75 H20. split; [lra|]. apply bool_decide_eq_true. lra.
  - intros Hv Hpos Hne.
    destruct (compute_effects_closed self b dc Hv Hpos Hne) as (e & He & _). eauto.
Qed.

Lemma hill_curve_scenario2 : PD.hill_curve 25 50 1 (0.2 * 1000.0) = 20.
Proof.
  unfold PD.hill_curve, PD.conc_pow.
  destruct (decide (0.2 * 1000.0 = 0)); [lra|].
  rewrite !Rpower_1 by lra.
  replace (25 * (0.2 * 1000.0) / (50 + 0.2 * 1000.0)) with 20 by lra.
  unfold np_clip, Rmin, Rmax.
  destruct (Rle_dec 20 0); [lra|]. destruct (Rle_dec (25 * 1.1) 20); lra.
Qed.

Lemma scenario2_delta_hr :
  delta_of (PD.HR (PD.params scenario2_engine))
           (concentration_mg_L scenario2_concentration) = [-20; -20; -20].
Proof.
  unfold delta_of. simpl. rewrite hill_curve_scenario2. reflexivity.
Qed.

Lemma C4_witness :
  exists e,
    PD.compute_effects scenario2_engine scenario2_baseline scenario2_concentration
    = Ok e
    /\ last (delta_hr e) = Some (-20)
    /\ hr_baseline scenario2_baseline + -20 = 55
    /\ bradycardia_risk e = true.
Proof.
  assert (Hv : valid_params (PD.params scenario2_engine)).
  { unfold valid_params, valid_hill; simpl; lra. }
  assert (Hpos : Forall (fun c => 0 <= c) (concentration_mg_L scenario2_concentration)).
  { simpl. repeat constructor; lra. }
  assert (Hne : concentration_mg_L scenario2_concentration <> []) by discriminate.
  destruct (proj2 (C4_safety_flags scenario2_engine scenario2_baseline
                     scenario2_concentration) Hv Hpos Hne) as (e & He).
  destruct (compute_effects_closed scenario2_engine scenario2_baseline
              scenario2_concentration Hv Hpos Hne) as (e' & He' & Hd & _).
  rewrite He in He'. inversion He'; subst e'; clear He'.
  rewrite scenario2_delta_hr in Hd.
  destruct (proj1 (C4_safety_flags scenario2_engine scenario2_baseline
                     scenario2_concentration) e He)
    as (dhr & dsbp & Hl & _ & _ & _ & H55).
  rewrite Hd in Hl. simpl in Hl. inversion Hl; subst dhr.
  exists e. split; [exact He|]. split; [rewrite Hd; reflexivity|].
  apply H55; reflexivity.
Defined.

(** ** Arrays: the first index of a least element *)

Lemma argmin_from_spec (a : list R) (i : nat) (best : R) (best_i : nat) :
  (argmin_from a i best best_i = best_i /\ Forall (fun x => best <= x) a)
  \/ (exists k x,
        argmin_from a i best best_i = (i + k)%nat
        /\ a !! k = Some x /\ x < best
        /\ Forall (fun y => x <= y) a
        /\ forall k' y, (k' < k)%nat -> a !! k' = Some y -> x < y).
Proof.
  revert i best best_i. induction a as [|x a IH]; intros i best best_i; simpl.
  - left. split; [reflexivity|constructor].
  - destruct (decide (x < best)) as [Hlt|Hge].
    + right. destruct (IH (S i) x i) as [[Hj Hall]|(k & x' & Hj & Hk & Hx' & Hall & Hfirst)].
      * exists 0%nat, x. rewrite Hj. split; [lia|]. split; [reflexivity|].
        split; [exact Hlt|]. split; [constructor; [lra|exact Hall]|].
        intros k' y Hk'. lia.
      * exists (S k), x'. rewrite Hj. split; [lia|]. split; [exact Hk|].
        split; [lra|]. split; [constructor; [lra|exact Hall]|].
        intros [|k'] y Hk' Hy; simpl in Hy.
        -- inversion Hy; subst. exact Hx'.
        -- apply (Hfirst k'); [lia|exact Hy].
    + destruct (IH (S i) best best_i) as [[Hj Hall]|(k & x' & Hj & Hk & Hx' & Hall & Hfirst)].
      * left. split; [exact Hj|]. constructor; [lra|exact Hall].
      * right. exists (S k), x'. rewrite Hj. split; [lia|]. split; [exact Hk|].
        split; [exact Hx'|]. split; [constructor; [lra|exact Hall]|].
        intros [|k'] y Hk' Hy; simpl in Hy.
        -- inversion Hy; subst. lra.
        -- apply (Hfirst k'); [lia|exact Hy].
Qed.

(** [np_argmin] returns the first index of a least element. *)
Lemma np_argmin_spec (a : list R) :
  a <> [] ->
  exists j m,
    np_argmin a = Ok j /\ a !! j = Some m
    /\ (forall k y, a !! k = Some y -> m <= y)
    /\ (forall k y, (k < j)%nat -> a !! k = Some y -> m < y).
Proof.
  destruct a as [|x a]; [congruence|]. intros _. simpl.
  destruct (argmin_from_spec a 1 x 0) as [[-> Hall]|(k & x' & -> & Hk & Hx' & Hall & Hfirst)].
  - exists 0%nat, x. split; [reflexivity|]. split; [reflexivity|]. split.
    + intros [|k] y Hy; simpl in Hy; [inversion Hy; lra|].
      rewrite Forall_forall in Hall. apply Hall.
      eapply list_elem_of_lookup_2, Hy.
    + intros k y Hk. lia.
  - exists (S k), x'. split; [reflexivity|]. split; [exact Hk|]. split.
    + intros [|k'] y Hy; simpl in Hy; [inversion Hy; lra|].
      rewrite Forall_forall in Hall. apply Hall.
      eapply list_elem_of_lookup_2, Hy.
    + intros [|k'] y Hk' Hy; simpl in Hy; [inversion Hy; lra|].
      apply (Hfirst k'); [lia|exact Hy].
Qed.

Lemma mapM_Forall2 {A B : Type} (f : A -> result B) (P : A -> B -> Prop)
    (l : list A) :
  (forall a, In a l -> exists b, f a = Ok b /\ P a b) ->
  exists out, mapM f l = Ok out /\ Forall2 P l out.
Proof.
  induction l as [|a l IH]; intros H; simpl.
  - exists []. split; [reflexivity|constructor].
  - destruct (H a) as (b & Hb & HP); [left; reflexivity|].
    destruct IH as (out & Hout & HF); [intros x Hx; apply H; right; exact Hx|].
    exists (b :: out). rewrite Hb. simpl. rewrite Hout. simpl.
    split; [reflexivity|constructor; assumption].
Qed.

(** The nearest-sample lookup: [nearest_index t x] is the first index whose
    time is nearest to [x], and a series that covers the time axis has a
    sample there. *)
Lemma nearest_sample (t hr : list R) (x : R) :
  t <> [] -> (length t <= length hr)%nat ->
  exists idx tn v,
    nearest_index t x = Ok idx
    /\ t !! idx = Some tn /\ hr !! idx = Some v
    /\ get_item hr idx = Ok v
    /\ (forall k tk, t !! k = Some tk -> Rabs (tn - x) <= Rabs (tk - x))
    /\ (forall k tk, (k < idx)%nat -> t !! k = Some tk ->
                     Rabs (tn - x) < Rabs (tk - x)).
Proof.
  intros Hne Hlen. unfold nearest_index.
  set (d := map (fun v => Rabs (v - x)) t).
  assert (Hd : d <> []) by (unfold d; destruct t; [congruence|discriminate]).
  destruct (np_argmin_spec d Hd) as (j & m & Hj & Hm & Hmin & Hfirst).
  unfold d in Hm. rewrite list_lookup_fmap in Hm.
  destruct (t !! j) as [tn|] eqn:Etn; simpl in Hm; [|discriminate].
  inversion Hm; subst m; clear Hm.
  assert (Hjlt : (j < length hr)%nat).
  { apply lookup_lt_Some in Etn. lia. }
  destruct (lookup_lt_is_Some_2 hr j Hjlt) as (v & Hv).
  exists j, tn, v. split; [exact Hj|]. split; [exact Etn|]. split; [exact Hv|].
  split; [unfold get_item; rewrite Hv; reflexivity|]. split.
  - intros k tk Hk. apply (Hmin k). unfold d.
    rewrite list_lookup_fmap, Hk. reflexivity.
  - intros k tk Hlt Hk. apply (Hfirst k); [exact Hlt|]. unfold d.
    rewrite list_lookup_fmap, Hk. reflexivity.
Qed.

(** ** Effect propagation: closed forms of the series *)

Section Propagation.

Variable b : PatientBaseline.
Variable e : PhysiologicalEffects.

Lemma scale_by_contractility_closed (x : R) :
  contractility b <> 0 ->
  ODE.scale_by_contractility x b e =
  Ok (map (fun d => x * (contractility b * (1.0 + d) / contractility b))
          (delta_contractility e)).
Proof.
  intros Hk. unfold ODE.scale_by_contractility, ODE.contractility_series.
  rewrite (mapM_pure _ (fun c => c / contractility b)).
  - simpl. rewrite !map_map. reflexivity.
  - intros c _. unfold np_div.
    destruct (decide (contractility b = 0)); [contradiction|reflexivity].
Qed.

Lemma hr_safe_nonzero (hrs : list R) (h : R) : In h (ODE.hr_safe hrs) -> h <> 0.
Proof.
  unfold ODE.hr_safe. rewrite in_map_iff. intros (x & <- & _).
  destruct (decide (x <= 0)); lra.
Qed.

Lemma broadcast2_same_length (f : R -> R -> result R) (g : R -> R -> R)
    (xs ys : list R) :
  length xs = length ys ->
  (forall x y, In (x, y) (zip xs ys) -> f x y = Ok (g x y)) ->
  broadcast2 f xs ys = Ok (zip_with g xs ys).
Proof.
  intros Hlen Hf. unfold broadcast2.
  destruct (decide (length xs = length ys)); [|contradiction].
  rewrite (mapM_pure _ (fun p => g p.1 p.2)).
  - f_equal. clear. revert ys.
    induction xs as [|x xs IH]; intros [|y ys]; simpl; try reflexivity.
    f_equal. apply IH.
  - intros [x y] Hin. simpl. apply Hf. exact Hin.
Qed.

Lemma zip_In_r (xs ys : list R) (x y : R) : In (x, y) (zip xs ys) -> In y ys.
Proof.
  revert ys. induction xs as [|x' xs IH]; intros [|y' ys]; simpl; try tauto.
  intros [H|H]; [inversion H; auto | right; eapply IH; eauto].
Qed.

Lemma stroke_volume_series_closed (cos hrs : list R) :
  length cos = length hrs ->
  ODE.stroke_volume_series cos hrs =
  Ok (zip_with (fun c h => c * 1000.0 / h) cos (ODE.hr_safe hrs)).
Proof.
  intros Hlen. unfold ODE.stroke_volume_series.
  apply broadcast2_same_length.
  - unfold ODE.hr_safe. rewrite length_map. exact Hlen.
  - intros c h Hin. apply zip_In_r, hr_safe_nonzero in Hin.
    unfold np_div. destruct (decide (h = 0)); [contradiction|reflexivity].
Qed.

Lemma map_series_closed (sbps dbps : list R) :
  length sbps = length dbps ->
  ODE.map_series sbps dbps =
  Ok (zip_with (fun d p => d + p) dbps
               (zip_with (fun s d => (s - d) / 3.0) sbps dbps)).
Proof.
  intros Hlen. unfold ODE.map_series.
  rewrite (broadcast2_same_length _ (fun s d => (s - d) / 3.0)); auto.
  simpl. apply broadcast2_same_length; auto.
  rewrite length_zip_with. lia.
Qed.

Lemma percent_change_closed (series : list R) (base final : R) :
  last series = Some final -> base <> 0 ->
  ODE.percent_change series base = Ok ((final - base) / base * 100.0).
Proof.
  intros Hl Hb. unfold ODE.percent_change, last_item. rewrite Hl. simpl.
  unfold np_div. destruct (decide (base = 0)); [contradiction|reflexivity].
Qed.

Lemma adverse_total (flag : bool) (series : list R) (limit : R)
    (msg : R -> adverse_event) :
  series <> [] -> exists l, ODE.adverse flag series limit msg = Ok l.
Proof.
  intros Hne. unfold ODE.adverse.
  destruct series as [|x xs]; [congruence|]. simpl.
  destruct flag; simpl; [eauto|].
  destruct (bool_decide _); eauto.
Qed.

Lemma daily_summary_total (t hrs sbps cos : list R) :
  t <> [] ->
  (length t <= length hrs)%nat -> (length t <= length sbps)%nat ->
  (length t <= length cos)%nat ->
  ODE.daily_summary t hrs sbps cos = Ok tt.
Proof.
  intros Hne Hh Hs Hc. unfold ODE.daily_summary.
  rewrite (mapM_pure _ (fun _ => tt)); [reflexivity|].
  intros day _. cbv zeta.
  destruct (nearest_sample t hrs (24 * (IZR day + 1)) Hne Hh)
    as (idx & tn & v & Hidx & Htn & Hv & _).
  apply lookup_lt_Some in Htn.
  destruct (lookup_lt_is_Some_2 sbps idx ltac:(lia)) as (vs & Hvs).
  destruct (lookup_lt_is_Some_2 cos idx ltac:(lia)) as (vc & Hvc).
  rewrite Hidx. cbn [bind]. unfold get_item. rewrite Hv, Hvs, Hvc. reflexivity.
Qed.

(** Whenever the baseline divisors are non-zero and the delta series share
    one non-empty time axis, [simulate_with_effects] returns the trajectory
    built from the closed forms above. *)
Lemma simulate_with_effects_closed :
  contractility b <> 0 -> hr_baseline b <> 0 -> sbp_baseline b <> 0 ->
  delta_hr e <> [] ->
  length (pe_time_hours e) = length (delta_hr e) ->
  length (delta_sbp e) = length (delta_hr e) ->
  length (delta_dbp e) = length (delta_hr e) ->
  length (delta_contractility e) = length (delta_hr e) ->
  exists traj final_hr final_sbp,
    ODE.simulate_with_effects b e = Ok traj
    /\ heart_rate traj = ODE.hr_series b e
    /\ systolic_bp traj = ODE.sbp_series b e
    /\ diastolic_bp traj = ODE.dbp_series b e
    /\ st_cardiac_output traj =
       map (fun d => cardiac_output b * (contractility b * (1.0 + d) / contractility b))
           (delta_contractility e)
    /\ st_ejection_fraction traj =
       map (fun d => ejection_fraction b * (contractility b * (1.0 + d) / contractility b))
           (delta_contractility e)
    /\ stroke_volume traj =
       zip_with (fun c h => c * 1000.0 / h) (st_cardiac_output traj)
                (ODE.hr_safe (heart_rate traj))
    /\ last (ODE.hr_series b e) = Some final_hr
    /\ last (ODE.sbp_series b e) = Some final_sbp
    /\ hr_percent_change traj = (final_hr - hr_baseline b) / hr_baseline b * 100.0
    /\ bp_percent_change traj = (final_sbp - sbp_baseline b) / sbp_baseline b * 100.0.
Proof.
  intros Hk Hhr Hsbp Hne Hl0 Hl1 Hl2 Hl3.
  assert (Hne_t : pe_time_hours e <> []).
  { intros E. rewrite E in Hl0. destruct (delta_hr e); [congruence|discriminate]. }
  assert (Hne_hr : ODE.hr_series b e <> []).
  { unfold ODE.hr_series. destruct (delta_hr e); [congruence|discriminate]. }
  assert (Hne_sbp : ODE.sbp_series b e <> []).
  { unfold ODE.sbp_series. destruct (delta_sbp e), (delta_hr e);
      simpl in *; try congruence; discriminate. }
  destruct (last_item_nonempty _ Hne_hr) as (fh & Hfh & _).
  destruct (last_item_nonempty _ Hne_sbp) as (fs & Hfs & _).
  destruct (adverse_total (bradycardia_risk e) _ 60 BradycardiaRisk Hne_hr) as (l1 & Hl1').
  destruct (adverse_total (hypotension_risk e) _ 90 HypotensionRisk Hne_sbp) as (l2 & Hl2').
  unfold ODE.simulate_with_effects, ODE.co_series, ODE.ef_series.
  rewrite !scale_by_contractility_closed by assumption. simpl.
  rewrite stroke_volume_series_closed
    by (unfold ODE.hr_series; rewrite !length_map; assumption).
  simpl.
  rewrite map_series_closed
    by (unfold ODE.sbp_series, ODE.dbp_series; rewrite !length_map; congruence).
  simpl.
  rewrite (percent_change_closed _ _ fh) by assumption. simpl.
  rewrite (percent_change_closed _ _ fs) by assumption. simpl.
  rewrite Hl1'. simpl. rewrite Hl2'. simpl.
  rewrite daily_summary_total;
    try assumption;
    try (unfold ODE.hr_series, ODE.sbp_series; rewrite ?length_map; lia).
  simpl. eexists. exists fh, fs. split; [reflexivity|]. simpl.
  repeat split; auto.
Qed.

End Propagation.

(** ** C5: the null effect reproduces the baseline *)

Lemma map_replicate_const (f : R -> R) (n : nat) (x y : R) :
  f x = y -> map f (replicate n x) = replicate n y.
Proof. intros <-. induction n; simpl; congruence. Qed.

Lemma last_replicate (n : nat) (x : R) : (0 < n)%nat -> last (replicate n x) = Some x.
Proof.
  intros Hn. destruct n as [|n]; [lia|]. clear Hn.
  induction n as [|n IH]; [reflexivity|]. exact IH.
Qed.

Lemma null_ratio (x k : R) : k <> 0 -> x * (k * (1.0 + 0) / k) = x.
Proof. intros Hk. replace (1.0 + 0) with 1 by lra. field. exact Hk. Qed.

Lemma null_percent (h : R) : (h - h) / h * 100.0 = 0.
Proof.
  replace (h - h) with 0 by lra. unfold Rdiv. rewrite Rmult_0_l. lra.
Qed.

(** C5, as the code has it.  For every baseline whose HR, SBP and
    contractility are not zero, and five delta series that are identically
    zero on a shared non-empty time axis of [n] points, the propagated
    heart rate, systolic and diastolic pressure, contractility, vascular
    resistance, cardiac output and ejection fraction equal their baseline
    values at every timestep, and both percent-change scalars are 0. *)
Theorem C5_null_effect_reproduces_baseline (b : PatientBaseline)
    (e : PhysiologicalEffects) (n : nat) :
  (0 < n)%nat ->
  length (pe_time_hours e) = n ->
  delta_hr e = replicate n 0 ->
  delta_sbp e = replicate n 0 ->
  delta_dbp e = replicate n 0 ->
  delta_contractility e = replicate n 0 ->
  delta_vascular_resistance e = replicate n 0 ->
  contractility b <> 0 -> hr_baseline b <> 0 -> sbp_baseline b <> 0 ->
  ODE.contractility_series b e = replicate n (contractility b)
  /\ ODE.vr_series b e = replicate n (vascular_resistance b)
  /\ exists traj,
       ODE.simulate_with_effects b e = Ok traj
       /\ heart_rate traj = replicate n (hr_baseline b)
       /\ systolic_bp traj = replicate n (sbp_baseline b)
       /\ diastolic_bp traj = replicate n (dbp_baseline b)
       /\ st_cardiac_output traj = replicate n (cardiac_output b)
       /\ st_ejection_fraction traj = replicate n (ejection_fraction b)
       /\ hr_percent_change traj = 0
       /\ bp_percent_change traj = 0.
Proof.
  intros Hn Ht Hhr Hsbp Hdbp Hc Hvr Hk Hh Hs.
  assert (Hne : delta_hr e <> []).
  { rewrite Hhr. destruct n; [lia|discriminate]. }
  destruct (simulate_with_effects_closed b e Hk Hh Hs Hne)
    as (traj & fh & fs & Hsim & H1 & H2 & H3 & H4 & H5 & _ & Hfh & Hfs & H6 & H7);
    try (rewrite ?Ht, ?Hhr, ?Hsbp, ?Hdbp, ?Hc, !length_replicate; reflexivity).
  unfold ODE.hr_series in H1, Hfh. unfold ODE.sbp_series in H2, Hfs.
  unfold ODE.dbp_series in H3.
  rewrite Hhr in H1, Hfh. rewrite Hsbp in H2, Hfs. rewrite Hdbp in H3.
  rewrite Hc in H4, H5.
  rewrite (map_replicate_const _ n 0 (hr_baseline b)) in H1, Hfh by lra.
  rewrite (map_replicate_const _ n 0 (sbp_baseline b)) in H2, Hfs by lra.
  rewrite (map_replicate_const _ n 0 (dbp_baseline b)) in H3 by lra.
  rewrite (map_replicate_const _ n 0 (cardiac_output b)) in H4 by (apply null_ratio; exact Hk).
  rewrite (map_replicate_const _ n 0 (ejection_fraction b)) in H5 by (apply null_ratio; exact Hk).
  rewrite last_replicate in Hfh, Hfs by exact Hn.
  inversion Hfh; subst fh. inversion Hfs; subst fs.
  split; [|split].
  - unfold ODE.contractility_series. rewrite Hc.
    apply map_replicate_const. lra.
  - unfold ODE.vr_series. rewrite Hvr. apply map_replicate_const. lra.
  - exists traj. repeat split; try assumption.
    + rewrite H6. apply null_percent.
    + rewrite H7. apply null_percent.
Qed.

Lemma C5_witness :
  ODE.contractility_series default_baseline (zero_effects 3)
  = replicate 3 (contractility default_baseline)
  /\ ODE.vr_series default_baseline (zero_effects 3)
     = replicate 3 (vascular_resistance default_baseline)
  /\ exists traj,
       ODE.simulate_with_effects default_baseline (zero_effects 3) = Ok traj
       /\ heart_rate traj = replicate 3 (hr_baseline default_baseline)
       /\ systolic_bp traj = replicate 3 (sbp_baseline default_baseline)
       /\ diastolic_bp traj = replicate 3 (dbp_baseline default_baseline)
       /\ st_cardiac_output traj = replicate 3 (cardiac_output default_baseline)
       /\ st_ejection_fraction traj = replicate 3 (ejection_fraction default_baseline)
       /\ hr_percent_change traj = 0
       /\ bp_percent_change traj = 0.
Proof.
  apply (C5_null_effect_reproduces_baseline default_baseline (zero_effects 3) 3);
    try reflexivity; try lia; simpl; lra.
Defined.

(** Not every baseline qualifies: with a baseline HR of 0 the percent
    change is 0/0, so no trajectory with a percent change of 0 is
    produced. *)
Lemma C5_counterexample :
  ODE.simulate_with_effects baseline_hr0 (zero_effects 3) = NonReal
  /\ ~ (exists traj,
          ODE.simulate_with_effects baseline_hr0 (zero_effects 3) = Ok traj
          /\ hr_percent_change traj = 0).
Proof.
  assert (H : ODE.simulate_with_effects baseline_hr0 (zero_effects 3) = NonReal).
  { unfold ODE.simulate_with_effects, ODE.co_series, ODE.ef_series.
    rewrite !scale_by_contractility_closed by (simpl; lra). simpl.
    rewrite stroke_volume_series_closed by reflexivity. simpl.
    unfold ODE.percent_change at 1. simpl.
    unfold np_div at 1. destruct (decide (0 = 0)); [reflexivity|congruence]. }
  split; [exact H|]. intros (traj & Ht & _). rewrite H in Ht. discriminate.
Qed.

(** ** Lists of samples: maximum, last element, trapezoid rule *)

Lemma fold_left_Rmax_ge_init (l : list R) (x : R) : x <= fold_left Rmax l x.
Proof.
  revert x. induction l as [|y l IH]; intros x; simpl; [lra|].
  eapply Rle_trans; [apply Rmax_l | apply IH].
Qed.

Lemma fold_left_Rmax_ge (l : list R) (x y : R) : In y l -> y <= fold_left Rmax l x.
Proof.
  revert x. induction l as [|z l IH]; intros x Hin; simpl; [destruct Hin|].
  destruct Hin as [->|Hin]; [|apply IH; exact Hin].
  eapply Rle_trans; [apply Rmax_r | apply fold_left_Rmax_ge_init].
Qed.

Lemma np_max_ge (l : list R) (m y : R) : np_max l = Ok m -> In y l -> y <= m.
Proof.
  destruct l as [|x l]; simpl; intros H Hin; [discriminate|].
  inversion H; subst. destruct Hin as [->|Hin].
  - apply fold_left_Rmax_ge_init.
  - apply fold_left_Rmax_ge. exact Hin.
Qed.

Lemma last_In (l : list R) (x : R) : last l = Some x -> In x l.
Proof.
  intros H. apply list_elem_of_In, last_Some_elem_of, H.
Qed.

Lemma trapezoid_nonneg (ys ts : list R) :
  Forall (fun y => 0 < y) ys -> Sorted Rlt ts -> 0 <= trapezoid ys ts.
Proof.
  revert ts. induction ys as [|y0 ys IH]; intros ts Hpos Hs; simpl; [lra|].
  destruct ys as [|y1 ys]; [lra|].
  destruct ts as [|t0 ts]; [lra|]. destruct ts as [|t1 ts]; [lra|].
  inversion Hpos as [|? ? Hy0 Hpos']; subst.
  inversion Hs as [|? ? Hs' Hhd]; subst.
  inversion Hhd as [|? ? Hlt]; subst.
  specialize (IH (t1 :: ts) Hpos' Hs').
  inversion Hpos' as [|? ? Hy1 _]; subst.
  assert (0 <= (t1 - t0) * (y1 + y0) / 2) by nra.
  lra.
Qed.

Lemma trapezoid_pos (ys ts : list R) :
  Forall (fun y => 0 < y) ys -> Sorted Rlt ts ->
  (2 <= length ys)%nat -> (2 <= length ts)%nat -> 0 < trapezoid ys ts.
Proof.
  intros Hpos Hs Hly Hlt.
  destruct ys as [|y0 [|y1 ys]]; simpl in Hly; try lia.
  destruct ts as [|t0 [|t1 ts]]; simpl in Hlt; try lia.
  inversion Hpos as [|? ? Hy0 Hpos']; subst.
  inversion Hs as [|? ? Hs' Hhd]; subst.
  inversion Hhd as [|? ? Hlt01]; subst.
  pose proof (trapezoid_nonneg (y1 :: ys) (t1 :: ts) Hpos' Hs') as Hrest.
  inversion Hpos' as [|? ? Hy1 _]; subst.
  change (0 < (t1 - t0) * (y1 + y0) / 2 + trapezoid (y1 :: ys) (t1 :: ts)).
  assert (0 < (t1 - t0) * (y1 + y0) / 2) by nra.
  lra.
Qed.

Lemma Sorted_map_seq (f : nat -> R) (a n : nat) :
  (forall k, f k < f (S k)) -> Sorted Rlt (map f (seq a n)).
Proof.
  intros Hf. revert a. induction n as [|n IH]; intros a; simpl; constructor.
  - apply IH.
  - destruct n; simpl; constructor. apply Hf.
Qed.

Lemma linspace_sorted (stop : R) (num : nat) :
  0 < stop -> (2 <= num)%nat -> Sorted Rlt (linspace 0 stop num).
Proof.
  intros Hstop Hnum. unfold linspace. apply Sorted_map_seq. intros k.
  assert (0 < INR (num - 1)) by (apply lt_0_INR; lia).
  assert (0 < (stop - 0) / INR (num - 1)).
  { apply Rdiv_lt_0_compat; lra. }
  rewrite S_INR. nra.
Qed.

Lemma linspace_nonneg (stop : R) (num : nat) (x : R) :
  0 < stop -> (2 <= num)%nat -> In x (linspace 0 stop num) -> 0 <= x.
Proof.
  intros Hstop Hnum. unfold linspace. rewrite in_map_iff. intros (k & <- & Hk).
  apply in_seq in Hk.
  assert (0 < INR (num - 1)) by (apply lt_0_INR; lia).
  assert (0 < (stop - 0) / INR (num - 1)) by (apply Rdiv_lt_0_compat; lra).
  pose proof (pos_INR k).
  assert (0 <= INR k * ((stop - 0) / INR (num - 1))) by (apply Rmult_le_pos; lra).
  lra.
Qed.

Lemma linspace_length (a b : R) (num : nat) : length (linspace a b num) = num.
Proof. unfold linspace. rewrite length_map, length_seq. reflexivity. Qed.

(** ** C6: steady-state summary of the PK engine *)

Lemma np_div_Ok (a b q : R) : np_div a b = Ok q -> b <> 0 /\ q = a / b.
Proof.
  unfold np_div. destruct (decide (b = 0)); intros H; inversion H. auto.
Qed.

Lemma np_div_nonzero (a b : R) : b <> 0 -> np_div a b = Ok (a / b).
Proof. intros H. unfold np_div. destruct (decide (b = 0)); [contradiction|reflexivity]. Qed.

Lemma py_div_nonzero (a b : R) : b <> 0 -> py_div a b = Ok (a / b).
Proof. intros H. unfold py_div. destruct (decide (b = 0)); [contradiction|reflexivity]. Qed.

Lemma exp_neg_lt_1 (k x : R) : 0 < k -> 0 < x -> 0 < exp (- k * x) < 1.
Proof.
  intros Hk Hx. split; [apply exp_pos|].
  rewrite <- exp_0. apply exp_increasing.
  assert (0 < k * x) by (apply Rmult_lt_0_compat; assumption). lra.
Qed.

Lemma accumulation_ge_1 (k x : R) :
  0 < k -> 0 < x -> 1 <= 1 / (1 - exp (- k * x)).
Proof.
  intros Hk Hx. destruct (exp_neg_lt_1 k x Hk Hx) as [H0 H1].
  apply Rmult_le_reg_r with (1 - exp (- k * x)); [lra|].
  unfold Rdiv. rewrite Rmult_assoc, Rinv_l by lra. lra.
Qed.

Lemma exp_le_mono (x y : R) : x <= y -> exp x <= exp y.
Proof.
  intros [H| ->]; [left; apply exp_increasing; exact H | right; reflexivity].
Qed.

(** The bracket of the steady-state formula has the sign of [ka - ke]. *)
Lemma steady_bracket_pos (k1 k2 x tt : R) :
  0 < k1 -> k1 < k2 -> 0 < x -> 0 <= tt ->
  0 < exp (- k1 * tt) / (1 - exp (- k1 * x))
      - exp (- k2 * tt) / (1 - exp (- k2 * x)).
Proof.
  intros H1 H12 Hx Ht.
  destruct (exp_neg_lt_1 k1 x H1 Hx) as [Ha0 Ha1].
  destruct (exp_neg_lt_1 k2 x ltac:(lra) Hx) as [Hb0 Hb1].
  assert (Hab : exp (- k2 * x) < exp (- k1 * x)) by (apply exp_increasing; nra).
  assert (Htt : exp (- k2 * tt) <= exp (- k1 * tt)) by (apply exp_le_mono; nra).
  pose proof (exp_pos (- k2 * tt)) as Hp2.
  assert (Hinv : / (1 - exp (- k2 * x)) < / (1 - exp (- k1 * x))).
  { apply Rinv_lt_contravar; [apply Rmult_lt_0_compat; lra | lra]. }
  assert (Hpos2 : 0 < / (1 - exp (- k2 * x))) by (apply Rinv_0_lt_compat; lra).
  unfold Rdiv.
  set (a := exp (- k1 * tt)) in *. set (b := exp (- k2 * tt)) in *.
  set (u := / (1 - exp (- k1 * x))) in *. set (v := / (1 - exp (- k2 * x))) in *.
  assert (b * v < a * u).
  { apply Rlt_le_trans with (b * u).
    - apply Rmult_lt_compat_l; assumption.
    - apply Rmult_le_compat_r; lra. }
  lra.
Qed.

Section SteadyState.

Variable self : PK.PKModel.
Let tau0 : R := num_val (PK.tau self).

Hypothesis ke_pos : 0 < PK.ke self.
Hypothesis tau_pos : 0 < tau0.

Lemma n_interval_ge_2 : (2 <= PK.n_interval)%nat.
Proof. unfold PK.n_interval. lia. Qed.

Section Positive.

Hypothesis ka_pos : 0 < PK.ka self.
Hypothesis ka_ne_ke : PK.ka self <> PK.ke self.
Hypothesis F_pos : 0 < PK.F self.
Hypothesis dose_pos : 0 < PK.dose self.
Hypothesis Vd_pos : 0 < PK.Vd self.

Lemma bateman_quotient_defined : PK.Vd self * (PK.ka self - PK.ke self) <> 0.
Proof. apply Rmult_integral_contrapositive_currified; lra. Qed.

Lemma C_ss_curve_pos (tt : R) : 0 <= tt -> 0 < C_ss_curve self tau0 tt.
Proof.
  intros Ht. unfold C_ss_curve.
  assert (Hnum : 0 < PK.F self * PK.dose self * PK.ka self * 1000).
  { repeat apply Rmult_lt_0_compat; lra. }
  destruct (Rlt_le_dec (PK.ke self) (PK.ka self)) as [Hlt|Hge].
  - apply Rmult_lt_0_compat.
    + apply Rdiv_lt_0_compat; [exact Hnum|]. apply Rmult_lt_0_compat; lra.
    + apply steady_bracket_pos; assumption.
  - assert (Hlt : PK.ka self < PK.ke self) by lra.
    pose proof (steady_bracket_pos _ _ tau0 tt ka_pos Hlt tau_pos Ht) as Hb.
    set (num := PK.F self * PK.dose self * PK.ka self * 1000) in *.
    set (br := exp (- PK.ke self * tt) / (1 - exp (- PK.ke self * tau0))
               - exp (- PK.ka self * tt) / (1 - exp (- PK.ka self * tau0))).
    assert (Hbr : br < 0) by (unfold br; lra).
    assert (Hden : PK.Vd self * (PK.ka self - PK.ke self) < 0) by nra.
    assert (Hq : num / (PK.Vd self * (PK.ka self - PK.ke self)) < 0).
    { pose proof (Rinv_lt_0_compat _ Hden) as Hinv. unfold Rdiv.
      set (i := / (PK.Vd self * (PK.ka self - PK.ke self))) in *. nra. }
    set (q := num / (PK.Vd self * (PK.ka self - PK.ke self))) in *. nra.
Qed.

End Positive.

Lemma C_ss_at_curve (tt : R) :
  0 < PK.ka self -> PK.Vd self * (PK.ka self - PK.ke self) <> 0 ->
  PK.C_ss_at self tau0 tt = Ok (C_ss_curve self tau0 tt).
Proof.
  intros Hka Hden. unfold PK.C_ss_at, C_ss_curve.
  destruct (exp_neg_lt_1 _ _ ke_pos tau_pos).
  destruct (exp_neg_lt_1 _ _ Hka tau_pos).
  rewrite py_div_nonzero by exact Hden. simpl.
  rewrite !np_div_nonzero by lra. simpl. reflexivity.
Qed.

End SteadyState.

(** What [simulate] stores, read back from a successful run. *)
Lemma simulate_Ok_inv (self : PK.PKModel) (duration_hours : option R)
    (dc : DrugConcentration) :
  PK.simulate self duration_hours = Ok dc ->
  let tau0 := num_val (PK.tau self) in
  exists profile,
    mapM (PK.C_ss_at self tau0) (linspace 0 tau0 PK.n_interval) = Ok profile
    /\ np_max profile = Ok (Cmax_ss dc)
    /\ last profile = Some (Cmin_ss dc)
    /\ AUC_ss dc = trapezoid profile (linspace 0 tau0 PK.n_interval)
    /\ np_div (AUC_ss dc) tau0 = Ok (Cavg_ss dc)
    /\ np_div 1 (1 - exp (- PK.ke self * tau0)) = Ok (accumulation_factor dc)
    /\ exists fl, np_div (Cmax_ss dc - Cmin_ss dc) (Cavg_ss dc) = Ok fl
                  /\ fluctuation_percent dc = fl * 100.
Proof.
  intros H tau0. unfold PK.simulate, PK.accumulation in H. fold tau0 in H.
  apply bind_Ok_inv in H as (per_day & _ & H). cbv zeta in H.
  apply bind_Ok_inv in H as (conc & _ & H).
  apply bind_Ok_inv in H as (profile & Hprof & H).
  apply bind_Ok_inv in H as (Cmax & Hmax & H).
  apply bind_Ok_inv in H as (Cmin & Hmin & H).
  apply bind_Ok_inv in H as (Cavg & Hcavg & H).
  apply bind_Ok_inv in H as (R0 & HR0 & H).
  apply bind_Ok_inv in H as (fl & Hfl & H).
  inversion H; subst dc; clear H.
  cbn [Cmax_ss Cmin_ss Cavg_ss AUC_ss accumulation_factor fluctuation_percent].
  exists profile. apply last_item_Ok in Hmin.
  repeat (split; [assumption || reflexivity|]).
  exists fl. split; [assumption|reflexivity].
Qed.

(** A regimen inside the domain of the model: integer interval and duration
    in days, positive rate constants that differ, positive dose, volume and
    bioavailability. *)
Lemma simulate_total (self : PK.PKModel) (duration_hours : option R) (z d : Z) :
  PK.tau self = PyInt z -> PK.n_days self = PyInt d ->
  0 < PK.ke self -> 0 < num_val (PK.tau self) ->
  0 < PK.ka self -> PK.ka self <> PK.ke self ->
  0 < PK.F self -> 0 < PK.dose self -> 0 < PK.Vd self ->
  exists dc, PK.simulate self duration_hours = Ok dc
             /\ 0 < Cavg_ss dc /\ Cmin_ss dc <= Cmax_ss dc.
Proof.
  intros Htau Hnd Hke Htau_pos Hka Hne HF Hdose HVd.
  pose proof (bateman_quotient_defined self Hne HVd) as Hden.
  set (tau0 := num_val (PK.tau self)) in *.
  set (ts := linspace 0 tau0 PK.n_interval).
  set (profile := map (C_ss_curve self tau0) ts).
  assert (Hz : z <> 0%Z).
  { intros ->. unfold tau0 in Htau_pos. rewrite Htau in Htau_pos.
    simpl in Htau_pos. lra. }
  assert (Hlen : length ts = PK.n_interval) by apply linspace_length.
  pose proof n_interval_ge_2 as Hn2.
  assert (Hprof : mapM (PK.C_ss_at self tau0) ts = Ok profile).
  { apply mapM_pure. intros tt _. apply C_ss_at_curve; assumption. }
  assert (Hpos : Forall (fun y => 0 < y) profile).
  { apply Forall_forall. intros y Hy.
    apply list_elem_of_fmap in Hy as (tt & -> & Htt).
    apply C_ss_curve_pos; try assumption.
    apply (linspace_nonneg tau0 PK.n_interval); try assumption.
    apply list_elem_of_In. exact Htt. }
  assert (Hplen : length profile = PK.n_interval).
  { unfold profile. rewrite length_map. exact Hlen. }
  assert (Hauc : 0 < trapezoid profile ts).
  { apply trapezoid_pos; try assumption; try lia.
    apply linspace_sorted; assumption. }
  assert (Hne_prof : profile <> []).
  { intros E. rewrite E in Hplen. simpl in Hplen. lia. }
  destruct (last_item_nonempty profile Hne_prof) as (Cmin & Hlast & HCmin).
  assert (Hmax : exists Cmax, np_max profile = Ok Cmax).
  { destruct profile; [congruence|]. simpl. eauto. }
  destruct Hmax as (Cmax & HCmax).
  assert (Hle : Cmin <= Cmax).
  { eapply np_max_ge; [exact HCmax|]. apply last_In. exact Hlast. }
  assert (Hcavg : 0 < trapezoid profile ts / tau0).
  { apply Rdiv_lt_0_compat; assumption. }
  destruct (exp_neg_lt_1 _ _ Hke Htau_pos).
  unfold PK.simulate, PK.accumulation. fold tau0. rewrite Htau, Hnd.
  unfold py_floordiv. destruct (decide (z = 0%Z)); [contradiction|].
  cbn [bind py_mul]. cbv zeta.
  erewrite (mapM_pure (fun tt => PK.C_multiple self tt _)
              (fun tt => _)); cycle 1.
  { intros tt _. unfold PK.C_multiple.
    apply C_multiple_loop_Rsum. exact Hden. }
  cbn [bind]. fold ts. rewrite Hprof. cbn [bind].
  rewrite HCmax. cbn [bind]. rewrite HCmin. cbn [bind].
  rewrite (np_div_nonzero _ tau0) by lra. cbn [bind].
  rewrite (np_div_nonzero 1) by lra. cbn [bind].
  rewrite np_div_nonzero by lra. cbn [bind].
  eexists. split; [reflexivity|].
  cbn [Cavg_ss Cmin_ss Cmax_ss]. split; assumption.
Qed.

(** C6, as the code has it.  For every engine with [ke > 0] and [tau > 0]
    the accumulation factor [1 / (1 - exp (- ke * tau))] is defined and at
    least 1.  Whenever [simulate] returns, [accumulation_factor] is that
    value, [fluctuation_percent] is
    [(Cmax_ss - Cmin_ss) / Cavg_ss * 100], and [Cmax_ss] and [Cmin_ss] are the
    maximum and the last sample of the one-interval steady-state profile.
    [simulate] does return, with [fluctuation_percent >= 0], when the
    interval and the number of days are integers, [ka > 0] differs from
    [ke], and dose, bioavailability and volume of distribution are
    positive. *)
Theorem C6_steady_state_summary (self : PK.PKModel) (duration_hours : option R) :
  0 < PK.ke self -> 0 < num_val (PK.tau self) ->
  (PK.accumulation self
   = Ok (1 / (1 - exp (- PK.ke self * num_val (PK.tau self))))
   /\ 1 <= 1 / (1 - exp (- PK.ke self * num_val (PK.tau self))))
  /\
  (forall dc, PK.simulate self duration_hours = Ok dc ->
     accumulation_factor dc = 1 / (1 - exp (- PK.ke self * num_val (PK.tau self)))
     /\ 1 <= accumulation_factor dc
     /\ fluctuation_percent dc = (Cmax_ss dc - Cmin_ss dc) / Cavg_ss dc * 100
     /\ exists profile,
          mapM (PK.C_ss_at self (num_val (PK.tau self)))
               (linspace 0 (num_val (PK.tau self)) PK.n_interval) = Ok profile
          /\ np_max profile = Ok (Cmax_ss dc)
          /\ last profile = Some (Cmin_ss dc))
  /\ ((exists z d, PK.tau self = PyInt z /\ PK.n_days self = PyInt d) ->
      0 < PK.ka self -> PK.ka self <> PK.ke self ->
      0 < PK.F self -> 0 < PK.dose self -> 0 < PK.Vd self ->
      exists dc, PK.simulate self duration_hours = Ok dc
                 /\ 0 <= fluctuation_percent dc).
Proof.
  intros Hke Htau.
  assert (HA : forall dc, PK.simulate self duration_hours = Ok dc ->
     accumulation_factor dc = 1 / (1 - exp (- PK.ke self * num_val (PK.tau self)))
     /\ 1 <= accumulation_factor dc
     /\ fluctuation_percent dc = (Cmax_ss dc - Cmin_ss dc) / Cavg_ss dc * 100
     /\ exists profile,
          mapM (PK.C_ss_at self (num_val (PK.tau self)))
               (linspace 0 (num_val (PK.tau self)) PK.n_interval) = Ok profile
          /\ np_max profile = Ok (Cmax_ss dc)
          /\ last profile = Some (Cmin_ss dc)).
  { intros dc Hdc.
    destruct (simulate_Ok_inv self duration_hours dc Hdc)
      as (profile & Hprof & Hmax & Hlast & _ & _ & HR0 & fl & Hfl & Hfluct).
    apply np_div_Ok in HR0 as [_ HR0]. apply np_div_Ok in Hfl as [_ Hfl].
    split; [exact HR0|]. split; [rewrite HR0; apply accumulation_ge_1; assumption|].
    split; [rewrite Hfluct, Hfl; reflexivity|].
    exists profile. auto. }
  split.
  { destruct (exp_neg_lt_1 _ _ Hke Htau).
    split; [apply np_div_nonzero; lra | apply accumulation_ge_1; assumption]. }
  split; [exact HA|].
  intros (z & d & Hz & Hd) Hka Hne HF Hdose HVd.
  destruct (simulate_total self duration_hours z d Hz Hd Hke Htau Hka Hne HF Hdose HVd)
    as (dc & Hdc & Hcavg & Hle).
  exists dc. split; [exact Hdc|].
  destruct (HA dc Hdc) as (_ & _ & Hfl & _). rewrite Hfl.
  apply Rmult_le_pos; [|lra].
  apply Rmult_le_pos; [lra|]. left. apply Rinv_0_lt_compat. exact Hcavg.
Qed.

Lemma C6_witness :
  exists dc, PK.simulate metoprolol_50 None = Ok dc
             /\ 1 <= accumulation_factor dc
             /\ 0 <= fluctuation_percent dc.
Proof.
  assert (Hke : 0 < PK.ke metoprolol_50) by (simpl; lra).
  assert (Htau : 0 < num_val (PK.tau metoprolol_50)) by (simpl; lra).
  destruct (proj2 (proj2 (C6_steady_state_summary metoprolol_50 None Hke Htau)))
    as (dc & Hdc & Hfl); try (simpl; lra).
  { exists 12%Z, 7%Z. split; reflexivity. }
  exists dc. split; [exact Hdc|]. split; [|exact Hfl].
  apply (proj1 (proj2 (C6_steady_state_summary metoprolol_50 None Hke Htau)) dc Hdc).
Defined.

Lemma trapezoid_zero (ys ts : list R) :
  Forall (fun y => y = 0) ys -> trapezoid ys ts = 0.
Proof.
  revert ts. induction ys as [|y0 ys IH]; intros ts Hz; [reflexivity|].
  inversion Hz as [|? ? Hy0 Hz']; subst.
  destruct ys as [|y1 ys]; [reflexivity|].
  destruct ts as [|t0 [|t1 ts]]; try reflexivity.
  inversion Hz' as [|? ? Hy1 _]; subst.
  change (trapezoid (0 :: 0 :: ys) (t0 :: t1 :: ts))
    with ((t1 - t0) * (0 + 0) / 2 + trapezoid (0 :: ys) (t1 :: ts)).
  rewrite (IH (t1 :: ts) Hz'). lra.
Qed.

(** With a dose of 0 the steady-state profile is identically 0, so
    [Cavg_ss] is 0 and the fluctuation is 0/0. *)
Lemma simulate_zero_dose (self : PK.PKModel) (duration_hours : option R) (z d : Z) :
  PK.tau self = PyInt z -> PK.n_days self = PyInt d ->
  0 < PK.ke self -> 0 < num_val (PK.tau self) -> 0 < PK.ka self ->
  PK.Vd self * (PK.ka self - PK.ke self) <> 0 ->
  PK.dose self = 0 ->
  PK.simulate self duration_hours = NonReal.
Proof.
  intros Htau Hnd Hke Htau_pos Hka Hden Hdose.
  set (tau0 := num_val (PK.tau self)) in *.
  set (ts := linspace 0 tau0 PK.n_interval).
  set (profile := map (C_ss_curve self tau0) ts).
  assert (Hz : z <> 0%Z).
  { intros ->. unfold tau0 in Htau_pos. rewrite Htau in Htau_pos.
    simpl in Htau_pos. lra. }
  pose proof n_interval_ge_2 as Hn2.
  assert (Hprof : mapM (PK.C_ss_at self tau0) ts = Ok profile).
  { apply mapM_pure. intros tt _. apply C_ss_at_curve; assumption. }
  assert (Hzero : Forall (fun y => y = 0) profile).
  { apply Forall_forall. intros y Hy.
    apply list_elem_of_fmap in Hy as (tt & -> & _).
    unfold C_ss_curve. rewrite Hdose. unfold Rdiv. ring. }
  assert (Hne_prof : profile <> []).
  { intros E. apply (f_equal length) in E. unfold profile, ts in E.
    rewrite length_map, linspace_length in E. simpl in E. lia. }
  destruct (last_item_nonempty profile Hne_prof) as (Cmin & _ & HCmin).
  assert (Hmax : exists Cmax, np_max profile = Ok Cmax).
  { destruct profile; [congruence|]. simpl. eauto. }
  destruct Hmax as (Cmax & HCmax).
  destruct (exp_neg_lt_1 _ _ Hke Htau_pos).
  unfold PK.simulate, PK.accumulation. fold tau0. rewrite Htau, Hnd.
  unfold py_floordiv. destruct (decide (z = 0%Z)); [contradiction|].
  cbn [bind py_mul]. cbv zeta.
  erewrite (mapM_pure (fun tt => PK.C_multiple self tt _)
              (fun tt => _)); cycle 1.
  { intros tt _. unfold PK.C_multiple.
    apply C_multiple_loop_Rsum. exact Hden. }
  cbn [bind]. fold ts. rewrite Hprof. cbn [bind].
  rewrite HCmax. cbn [bind]. rewrite HCmin. cbn [bind].
  rewrite (trapezoid_zero profile ts Hzero).
  rewrite (np_div_nonzero _ tau0) by lra. cbn [bind].
  rewrite (np_div_nonzero 1) by lra. cbn [bind].
  unfold np_div. destruct (decide (0 / tau0 = 0)) as [_|Hn]; [reflexivity|].
  exfalso. apply Hn. unfold Rdiv. ring.
Qed.

(** The bound on the fluctuation needs a dose: metoprolol at 0 mg every
    12 h has [ke > 0] and [tau > 0], and no fluctuation value at all. *)
Lemma C6_counterexample :
  0 < PK.ke metoprolol_0 /\ 0 < num_val (PK.tau metoprolol_0)
  /\ PK.simulate metoprolol_0 None = NonReal
  /\ ~ (exists dc, PK.simulate metoprolol_0 None = Ok dc
                   /\ 0 <= fluctuation_percent dc).
Proof.
  assert (H : PK.simulate metoprolol_0 None = NonReal).
  { apply (simulate_zero_dose metoprolol_0 None 12 7); try reflexivity; simpl; lra. }
  split; [simpl; lra|]. split; [simpl; lra|]. split; [exact H|].
  intros (dc & Hdc & _). rewrite H in Hdc. discriminate.
Qed.

(** ** C7: the baseline initializer and its defaults *)

Section Initializer.

Variable int_of_string : string -> result Z.
Variable float_of_string : string -> result R.
Variable py_str : pyval -> string.
Variable patient : gmap string pyval.

Let py_int := ODE.py_int int_of_string.
Let py_float := ODE.py_float float_of_string.

Lemma get_absent (key : string) (dflt : pyval) :
  patient !! key = None -> ODE.get patient key dflt = dflt.
Proof. intros H. unfold ODE.get. rewrite H. reflexivity. Qed.

Lemma get_present (key : string) (dflt v : pyval) :
  patient !! key = Some v -> ODE.get patient key dflt = v.
Proof. intros H. unfold ODE.get. rewrite H. reflexivity. Qed.

Lemma float_field (key : string) (d : R) :
  (forall v, patient !! key = Some v -> exists r, py_float v = Ok r) ->
  exists r, py_float (ODE.get patient key (ODE.vfloat d)) = Ok r
            /\ (patient !! key = None -> r = d)
            /\ (forall v, patient !! key = Some v -> py_float v = Ok r).
Proof.
  intros Hconv. destruct (patient !! key) as [v|] eqn:E.
  - destruct (Hconv v eq_refl) as (r & Hr). exists r.
    rewrite (get_present _ _ v E). split; [exact Hr|].
    split; [discriminate|]. intros v' Hv'. inversion Hv'; subst. exact Hr.
  - exists d. rewrite (get_absent _ _ E). split; [reflexivity|].
    split; [reflexivity|discriminate].
Qed.

Lemma int_field (key : string) (d : Z) :
  (forall v, patient !! key = Some v -> exists z, py_int v = Ok z) ->
  exists z, py_int (ODE.get patient key (VNum (PyInt d))) = Ok z
            /\ (patient !! key = None -> z = d)
            /\ (forall v, patient !! key = Some v -> py_int v = Ok z).
Proof.
  intros Hconv. destruct (patient !! key) as [v|] eqn:E.
  - destruct (Hconv v eq_refl) as (z & Hz). exists z.
    rewrite (get_present _ _ v E). split; [exact Hz|].
    split; [discriminate|]. intros v' Hv'. inversion Hv'; subst. exact Hz.
  - exists d. rewrite (get_absent _ _ E). split; [reflexivity|].
    split; [reflexivity|discriminate].
Qed.

Lemma init_age_invalid (v : pyval) (e : exn) :
  patient !! "age" = Some v -> py_int v = Raise e ->
  ODE.init int_of_string float_of_string py_str patient = Raise e.
Proof.
  intros Hv He. unfold ODE.init. rewrite (get_present _ _ v Hv).
  fold py_int. rewrite He. reflexivity.
Qed.

End Initializer.

(** The values of [partial_patient]: an [int] within the range of a float
    and a float. *)
Lemma partial_patient_convertible : convertible no_int no_float partial_patient.
Proof.
  assert (Hval : forall key v, partial_patient !! key = Some v ->
                   v = VNum (PyInt 95) \/ v = VNum (PyFloat 62.0)).
  { intros key v Hv. unfold partial_patient in Hv.
    apply lookup_insert_Some in Hv as [[_ <-]|[_ Hv]]; [auto|].
    apply lookup_insert_Some in Hv as [[_ <-]|[_ Hv]]; [auto|].
    rewrite lookup_empty in Hv. discriminate. }
  assert (H95 : ODE.float_overflow 95 = false) by reflexivity.
  split.
  - intros v Hv. destruct (Hval _ _ Hv) as [->| ->]; simpl; eauto.
  - intros key v _ Hv. destruct (Hval _ _ Hv) as [->| ->].
    + exists 95. unfold ODE.py_float. rewrite H95. reflexivity.
    + exists 62.0. reflexivity.
Qed.

Section FirstFailure.

Variable int_of_string : string -> result Z.
Variable float_of_string : string -> result R.
Variable py_str : pyval -> string.
Variable patient : gmap string pyval.

Let conv := conversion int_of_string float_of_string.

Let passes := passes int_of_string float_of_string patient.

Lemma passes_age :
  passes "age" ->
  exists z, ODE.py_int int_of_string
              (ODE.get patient "age" (VNum (PyInt 50))) = Ok z.
Proof.
  intros Hp.
  destruct (int_field int_of_string patient "age" 50) as (z & Hz & _); [|eauto].
  intros v Hv. destruct (Hp v Hv) as (r & Hr).
  unfold conv, conversion in Hr. cbn [String.eqb Ascii.eqb] in Hr. simpl in Hr.
  destruct (ODE.py_int int_of_string v) as [z| |]; [eauto|discriminate|discriminate].
Qed.

Lemma passes_float (key : string) (d : R) :
  String.eqb key "age" = false -> passes key ->
  exists r, ODE.py_float float_of_string
              (ODE.get patient key (ODE.vfloat d)) = Ok r.
Proof.
  intros Hkey Hp.
  destruct (float_field float_of_string patient key d) as (r & Hr & _); [|eauto].
  intros v Hv. destruct (Hp v Hv) as (r & Hr).
  unfold conv, conversion in Hr. rewrite Hkey in Hr. eauto.
Qed.

Lemma fails_float (key : string) (d : R) (v : pyval) (e : exn) :
  String.eqb key "age" = false ->
  patient !! key = Some v -> conv key v = Raise e ->
  ODE.py_float float_of_string (ODE.get patient key (ODE.vfloat d)) = Raise e.
Proof.
  intros Hkey Hv He. rewrite (get_present _ _ _ v Hv).
  unfold conv, conversion in He. rewrite Hkey in He. exact He.
Qed.

Lemma fails_age (v : pyval) (e : exn) :
  patient !! "age" = Some v -> conv "age" v = Raise e ->
  ODE.py_int int_of_string (ODE.get patient "age" (VNum (PyInt 50))) = Raise e.
Proof.
  intros Hv He. rewrite (get_present _ _ _ v Hv).
  unfold conv, conversion in He. simpl in He.
  destruct (ODE.py_int int_of_string v); simpl in He; congruence.
Qed.

(** The first field, in the order of the source, whose value is present and
    refused decides the outcome: its error is raised. *)
Lemma first_failure (before after : list string) (key : string) (v : pyval)
    (e : exn) :
  field_order = before ++ key :: after ->
  Forall passes before ->
  patient !! key = Some v -> conv key v = Raise e ->
  ODE.init int_of_string float_of_string py_str patient = Raise e.
Proof.
  intros Horder Hbefore Hv He. unfold field_order, float_keys in Horder.
  unfold ODE.init.
  destruct before as [|k before]; cbn [app] in Horder;
    injection Horder as <- Horder.
  { rewrite (fails_age v e Hv He). reflexivity. }
  apply Forall_cons in Hbefore as [Hp Hbefore].
  destruct (passes_age Hp) as (z & ->). cbn [bind].
  repeat
    (destruct before as [|k before]; cbn [app] in Horder;
     [ injection Horder as <- _;
       match type of Hv with
       | _ !! ?key = _ => rewrite (fails_float key _ v e eq_refl Hv He)
       end;
       reflexivity
     | injection Horder as <- Horder;
       apply Forall_cons in Hbefore as [Hp' Hbefore];
       let r := fresh "r" in
       let Hr := fresh "Hr" in
       match goal with
       | |- context [ODE.py_float float_of_string (ODE.get patient ?key (ODE.vfloat ?d))] =>
           destruct (passes_float key d eq_refl Hp') as (r & Hr); rewrite Hr
       end;
       cbn [bind]; clear Hp' ]).
  destruct before; cbn [app] in Horder; discriminate Horder.
Qed.

(** When the initializer constructs the engine, every present numeric field
    was accepted by its conversion. *)
Lemma init_Ok_convertible (ode : ODE.CardiovascularODE) :
  ODE.init int_of_string float_of_string py_str patient = Ok ode ->
  convertible int_of_string float_of_string patient.
Proof.
  intros H. unfold ODE.init in H.
  apply bind_Ok_inv in H as (a & Ha & H).
  apply bind_Ok_inv in H as (w & Hw & H).
  apply bind_Ok_inv in H as (h & Hh & H).
  apply bind_Ok_inv in H as (hr & Hhr & H).
  apply bind_Ok_inv in H as (sbp & Hsbp & H).
  apply bind_Ok_inv in H as (dbp & Hdbp & H).
  apply bind_Ok_inv in H as (sv & Hsv & H).
  apply bind_Ok_inv in H as (co & Hco & H).
  apply bind_Ok_inv in H as (svr & Hsvr & H).
  apply bind_Ok_inv in H as (risk & Hrisk & _).
  split.
  - intros v Hv. rewrite (get_present _ _ _ v Hv) in Ha. eauto.
  - intros key v Hin Hv. unfold float_keys in Hin. simpl in Hin.
    repeat (destruct Hin as [<-|Hin];
            [ match goal with
              | Hk : ODE.py_float _ (ODE.get patient ?k _) = Ok _ |- _ =>
                  rewrite (get_present _ _ _ v Hv) in Hk; eauto
              end | ]).
    destruct Hin.
Qed.

End FirstFailure.

(** C7, as the code behaves.  For every patient mapping whose present
    numeric fields are convertible, the initializer returns a baseline
    without error and every absent field takes its default (age 50, weight
    70, height 170, HR 75, SBP 120, DBP 80, SV 70, CO 5.0, SVR 18.0, risk
    0.1); and it returns a baseline only for such mappings.  A field that is
    present but not convertible does not fall back, whichever of the ten
    numeric fields it is: the error of the first such field, in the order
    of the source, is raised. *)
Theorem C7_initializer_defaults (int_of_string : string -> result Z)
    (float_of_string : string -> result R) (py_str : pyval -> string)
    (patient : gmap string pyval) :
  (convertible int_of_string float_of_string patient ->
   exists ode,
     ODE.init int_of_string float_of_string py_str patient = Ok ode
     /\ ODE.baseline_initializer int_of_string float_of_string py_str patient
        = Ok (ODE.initialize ode)
     /\ (patient !! "age" = None -> ODE.age ode = 50%Z)
     /\ (patient !! "weight" = None -> ODE.weight ode = 70)
     /\ (patient !! "height" = None -> ODE.height ode = 170)
     /\ (patient !! "hr" = None -> ODE.hr ode = 75)
     /\ (patient !! "sbp" = None -> ODE.sbp ode = 120)
     /\ (patient !! "dbp" = None -> ODE.dbp ode = 80)
     /\ (patient !! "sv" = None -> ODE.sv ode = 70)
     /\ (patient !! "co" = None -> ODE.co ode = 5.0)
     /\ (patient !! "svr" = None -> ODE.svr ode = 18.0)
     /\ (patient !! "ecg_risk" = None -> ODE.arrhythmia_risk ode = 0.1))
  /\ (forall b,
        ODE.baseline_initializer int_of_string float_of_string py_str patient
        = Ok b ->
        convertible int_of_string float_of_string patient)
  /\ (forall before key after v e,
        field_order = before ++ key :: after ->
        Forall (passes int_of_string float_of_string patient) before ->
        patient !! key = Some v ->
        conversion int_of_string float_of_string key v = Raise e ->
        ODE.baseline_initializer int_of_string float_of_string py_str patient
        = Raise e).
Proof.
  split; [|split].
  - intros [Hage Hfl].
    destruct (int_field int_of_string patient "age" 50 Hage) as (a & Ha & Hda & _).
    assert (Hf : forall key d, In key float_keys ->
              exists r, ODE.py_float float_of_string
                          (ODE.get patient key (ODE.vfloat d)) = Ok r
                        /\ (patient !! key = None -> r = d)).
    { intros key d Hin.
      destruct (float_field float_of_string patient key d) as (r & Hr & Hd & _).
      - intros v Hv. exact (Hfl key v Hin Hv).
      - eauto. }
    destruct (Hf "weight" 70.0) as (w & Hw & Hdw); [simpl; tauto|].
    destruct (Hf "height" 170.0) as (h & Hh & Hdh); [simpl; tauto|].
    destruct (Hf "hr" 75.0) as (hr & Hhr & Hdhr); [simpl; tauto|].
    destruct (Hf "sbp" 120.0) as (sbp & Hsbp & Hdsbp); [simpl; tauto|].
    destruct (Hf "dbp" 80.0) as (dbp & Hdbp & Hddbp); [simpl; tauto|].
    destruct (Hf "sv" 70.0) as (sv & Hsv & Hdsv); [simpl; tauto|].
    destruct (Hf "co" 5.0) as (co & Hco & Hdco); [simpl; tauto|].
    destruct (Hf "svr" 18.0) as (svr & Hsvr & Hdsvr); [simpl; tauto|].
    destruct (Hf "ecg_risk" 0.1) as (risk & Hrisk & Hdrisk); [simpl; tauto|].
    unfold ODE.baseline_initializer, ODE.init.
    rewrite Ha, Hw, Hh, Hhr, Hsbp, Hdbp, Hsv, Hco, Hsvr, Hrisk.
    cbn [bind]. eexists. split; [reflexivity|]. split; [reflexivity|].
    cbn [ODE.age ODE.weight ODE.height ODE.hr ODE.sbp ODE.dbp ODE.sv ODE.co
         ODE.svr ODE.arrhythmia_risk].
    repeat split; intros Habs;
      [ apply Hda | rewrite Hdw | rewrite Hdh | rewrite Hdhr | rewrite Hdsbp
      | rewrite Hddbp | rewrite Hdsv | rewrite Hdco | rewrite Hdsvr
      | rewrite Hdrisk ]; auto; lra.
  - intros b Hb. unfold ODE.baseline_initializer in Hb.
    apply bind_Ok_inv in Hb as (ode & Hode & _).
    exact (init_Ok_convertible _ _ _ _ ode Hode).
  - intros before key after v e Horder Hbefore Hv He.
    unfold ODE.baseline_initializer.
    rewrite (first_failure int_of_string float_of_string py_str patient
               before after key v e Horder Hbefore Hv He).
    reflexivity.
Qed.

Lemma C7_witness :
  exists ode,
    ODE.init no_int no_float str_unknown partial_patient = Ok ode
    /\ ODE.baseline_initializer no_int no_float str_unknown partial_patient
       = Ok (ODE.initialize ode)
    /\ ODE.age ode = 50%Z /\ ODE.sbp ode = 120 /\ ODE.co ode = 5.0.
Proof.
  destruct (proj1 (C7_initializer_defaults no_int no_float str_unknown
                     partial_patient) partial_patient_convertible)
    as (ode & Hinit & Hb & Hage & _ & _ & _ & Hsbp & _ & _ & Hco & _).
  exists ode. split; [exact Hinit|]. split; [exact Hb|].
  split; [apply Hage; reflexivity|].
  split; [apply Hsbp; reflexivity | apply Hco; reflexivity].
Defined.

(** A field that is present but invalid is not replaced by its default:
    with [age = None] the initializer raises [TypeError], whatever the
    readers of text do. *)
Lemma baseline_initializer_age_none (int_of_string : string -> result Z)
    (float_of_string : string -> result R) (py_str : pyval -> string) :
  ODE.baseline_initializer int_of_string float_of_string py_str patient_age_none
  = Raise TypeError.
Proof.
  unfold ODE.baseline_initializer.
  rewrite (init_age_invalid int_of_string float_of_string py_str
             patient_age_none VNone TypeError); reflexivity.
Qed.

Lemma C7_counterexample :
  patient_age_none !! "age" = Some VNone
  /\ ODE.baseline_initializer no_int no_float str_unknown patient_age_none
     = Raise TypeError.
Proof. split; [reflexivity | apply baseline_initializer_age_none]. Qed.

(** ** C8: the stroke-volume guard *)

Lemma nde_bind {A B : Type} (c : result A) (k : A -> result B) :
  no_division_error c -> (forall a, no_division_error (k a)) ->
  no_division_error (bind c k).
Proof.
  unfold no_division_error. intros Hc Hk. destruct c as [a|e|]; simpl.
  - apply Hk.
  - intros H. apply Hc. inversion H. reflexivity.
  - discriminate.
Qed.

Lemma nde_Ok {A : Type} (a : A) : no_division_error (Ok a).
Proof. discriminate. Qed.

Lemma nde_np_div (a b : R) : no_division_error (np_div a b).
Proof. unfold np_div. destruct (decide (b = 0)); discriminate. Qed.

Lemma nde_mapM {A B : Type} (f : A -> result B) (l : list A) :
  (forall a, no_division_error (f a)) -> no_division_error (mapM f l).
Proof.
  intros Hf. induction l as [|a l IH]; simpl; [apply nde_Ok|].
  apply nde_bind; [apply Hf|]. intros b.
  apply nde_bind; [exact IH|]. intros bs. apply nde_Ok.
Qed.

Lemma nde_broadcast2 (f : R -> R -> result R) (xs ys : list R) :
  (forall x y, no_division_error (f x y)) -> no_division_error (broadcast2 f xs ys).
Proof.
  intros Hf. unfold broadcast2.
  destruct (decide (length xs = length ys)).
  - apply nde_mapM. intros [x y]. apply Hf.
  - destruct xs as [|x [|x' xs]]; destruct ys as [|y [|y' ys]];
      try discriminate; apply nde_mapM; intros; apply Hf.
Qed.

Lemma nde_last_item (l : list R) : no_division_error (last_item l).
Proof. unfold last_item. destruct (last l); discriminate. Qed.

Lemma nde_np_min (l : list R) : no_division_error (np_min l).
Proof. destruct l; discriminate. Qed.

Lemma nde_percent_change (l : list R) (base : R) :
  no_division_error (ODE.percent_change l base).
Proof.
  unfold ODE.percent_change.
  apply nde_bind; [apply nde_last_item|]. intros x.
  apply nde_bind; [apply nde_np_div|]. intros q. apply nde_Ok.
Qed.

Lemma nde_adverse (flag : bool) (l : list R) (limit : R) msg :
  no_division_error (ODE.adverse flag l limit msg).
Proof.
  unfold ODE.adverse. apply nde_bind.
  - destruct flag; [apply nde_Ok|].
    apply nde_bind; [apply nde_np_min|]. intros m. apply nde_Ok.
  - intros [|]; [|apply nde_Ok].
    apply nde_bind; [apply nde_np_min|]. intros m. apply nde_Ok.
Qed.

Lemma nde_scale (x : R) (b : PatientBaseline) (e : PhysiologicalEffects) :
  no_division_error (ODE.scale_by_contractility x b e).
Proof.
  unfold ODE.scale_by_contractility.
  apply nde_bind; [apply nde_mapM; intros; apply nde_np_div|].
  intros r. apply nde_Ok.
Qed.

Lemma nde_get_item (l : list R) (i : nat) : no_division_error (get_item l i).
Proof. unfold get_item. destruct (l !! i); discriminate. Qed.

Lemma nde_np_argmin (l : list R) : no_division_error (np_argmin l).
Proof. destruct l; discriminate. Qed.

Lemma nde_daily_summary (t hrs sbps cos : list R) :
  no_division_error (ODE.daily_summary t hrs sbps cos).
Proof.
  unfold ODE.daily_summary. cbv zeta.
  apply nde_bind; [|intros; apply nde_Ok].
  apply nde_mapM. intros day.
  apply nde_bind; [apply nde_np_argmin|]. intros idx.
  apply nde_bind; [apply nde_get_item|]. intros h.
  apply nde_bind; [apply nde_get_item|]. intros s.
  apply nde_bind; [apply nde_get_item|]. intros c. apply nde_Ok.
Qed.

Lemma nde_simulate_with_effects (b : PatientBaseline) (e : PhysiologicalEffects) :
  no_division_error (ODE.simulate_with_effects b e).
Proof.
  unfold ODE.simulate_with_effects.
  apply nde_bind; [apply nde_scale|]. intros cos.
  apply nde_bind; [apply nde_scale|]. intros efs.
  apply nde_bind;
    [apply nde_broadcast2; intros; apply nde_np_div|]. intros svs.
  apply nde_bind.
  { unfold ODE.map_series.
    apply nde_bind; [apply nde_broadcast2; intros; apply nde_Ok|].
    intros p. apply nde_broadcast2; intros; apply nde_Ok. }
  intros maps.
  apply nde_bind; [apply nde_percent_change|]. intros hp.
  apply nde_bind; [apply nde_percent_change|]. intros bp.
  apply nde_bind; [apply nde_adverse|]. intros br.
  apply nde_bind; [apply nde_adverse|]. intros hy.
  apply nde_bind; [apply nde_daily_summary|]. intros u.
  apply nde_Ok.
Qed.

(** The guarded quotient never leaves the reals: the only failure left is a
    shape mismatch of the two arrays. *)
Lemma stroke_volume_series_outcome (cos hrs : list R) :
  (exists svs, ODE.stroke_volume_series cos hrs = Ok svs)
  \/ (exists msg, ODE.stroke_volume_series cos hrs = Raise (ValueError msg)).
Proof.
  unfold ODE.stroke_volume_series, broadcast2.
  set (safe := ODE.hr_safe hrs).
  assert (Hsafe : forall c h, In h safe -> np_div (c * 1000.0) h = Ok (c * 1000.0 / h)).
  { intros c h Hin. apply np_div_nonzero. eapply hr_safe_nonzero. exact Hin. }
  destruct (decide (length cos = length safe)).
  - left. eexists. apply (mapM_pure _ (fun p => p.1 * 1000.0 / p.2)).
    intros [c h] Hin. apply Hsafe. eapply zip_In_r. exact Hin.
  - destruct cos as [|c [|c' cos]].
    + destruct safe as [|h [|h' rest]]; try (right; eexists; reflexivity).
      left. eexists. reflexivity.
    + left. eexists. apply (mapM_pure _ (fun h => c * 1000.0 / h)).
      intros h Hin. apply Hsafe. exact Hin.
    + destruct safe as [|h [|h' rest]] eqn:E; try (right; eexists; reflexivity).
      left. eexists. apply (mapM_pure _ (fun x => x * 1000.0 / h)).
      intros x _. apply Hsafe. left. reflexivity.
Qed.

(** C8.  For every baseline and effect input, [simulate_with_effects] never
    raises a division error, and the stroke-volume quotient is defined for
    every pair of arrays (it can only fail on a shape mismatch).  In every
    trajectory it returns, the stroke volume at a timestep is
    [CO * 1000 / HR], with the divisor replaced by 1.0 where [HR <= 0]. *)
Theorem C8_stroke_volume_guard (b : PatientBaseline) (e : PhysiologicalEffects) :
  no_division_error (ODE.simulate_with_effects b e)
  /\ (forall cos hrs,
        no_division_error (ODE.stroke_volume_series cos hrs)
        /\ ODE.stroke_volume_series cos hrs <> NonReal)
  /\ (forall traj,
        ODE.simulate_with_effects b e = Ok traj ->
        heart_rate traj = ODE.hr_series b e
        /\ ODE.co_series b e = Ok (st_cardiac_output traj)
        /\ ODE.stroke_volume_series (st_cardiac_output traj) (heart_rate traj)
           = Ok (stroke_volume traj)
        /\ (length (st_cardiac_output traj) = length (heart_rate traj) ->
            forall i c h,
              st_cardiac_output traj !! i = Some c ->
              heart_rate traj !! i = Some h ->
              stroke_volume traj !! i
              = Some (c * 1000 / (if decide (h <= 0) then 1 else h)))).
Proof.
  split; [apply nde_simulate_with_effects|]. split.
  - intros cos hrs.
    destruct (stroke_volume_series_outcome cos hrs) as [(svs & ->)|(msg & ->)];
      split; discriminate.
  - intros traj H. unfold ODE.simulate_with_effects in H.
    apply bind_Ok_inv in H as (cos & Hco & H).
    apply bind_Ok_inv in H as (efs & _ & H).
    apply bind_Ok_inv in H as (svs & Hsv & H).
    apply bind_Ok_inv in H as (maps & _ & H).
    apply bind_Ok_inv in H as (hp & _ & H).
    apply bind_Ok_inv in H as (bp & _ & H).
    apply bind_Ok_inv in H as (br & _ & H).
    apply bind_Ok_inv in H as (hy & _ & H).
    apply bind_Ok_inv in H as (u & _ & H).
    inversion H; subst traj; clear H.
    cbn [heart_rate st_cardiac_output stroke_volume].
    split; [reflexivity|]. split; [exact Hco|]. split; [exact Hsv|].
    intros Hlen i c h Hc Hh.
    rewrite stroke_volume_series_closed in Hsv by exact Hlen.
    inversion Hsv; subst svs.
    rewrite lookup_zip_with, Hc. simpl.
    unfold ODE.hr_safe. rewrite list_lookup_fmap, Hh. simpl.
    f_equal. destruct (decide (h <= 0)); f_equal; lra.
Qed.

Lemma C8_witness :
  exists traj,
    ODE.simulate_with_effects default_baseline arrest_effects = Ok traj
    /\ heart_rate traj !! 0%nat = Some (75.0 + -80)
    /\ forall c, st_cardiac_output traj !! 0%nat = Some c ->
                 stroke_volume traj !! 0%nat
                 = Some (c * 1000 / (if decide (75.0 + -80 <= 0) then 1 else 75.0 + -80)).
Proof.
  destruct (simulate_with_effects_closed default_baseline arrest_effects)
    as (traj & fh & fs & Hsim & Hhr & _ & _ & Hco & _);
    try (simpl; lra); try reflexivity; try discriminate.
  exists traj.
  assert (Hh : heart_rate traj !! 0%nat = Some (75.0 + -80)).
  { rewrite Hhr. reflexivity. }
  split; [exact Hsim|]. split; [exact Hh|].
  intros c Hc.
  destruct (proj2 (proj2 (C8_stroke_volume_guard default_baseline arrest_effects))
              traj Hsim) as (_ & _ & _ & Hsv).
  apply Hsv; [|exact Hc|exact Hh].
  rewrite Hhr, Hco. reflexivity.
Defined.

(** ** C9: the 24-hour-ahead target *)

(** The target stored in the features is the one the loop computes on the
    time axis and heart rate of the trajectory. *)
Lemma prepare_lstm_features_target
    (np_interp : list R -> list R -> list R -> result (list R))
    (np_gradient : list R -> list R -> result (list R))
    (b : PatientBaseline) (drug : DrugConcentration)
    (traj : SimulationTrajectory) (features : LSTMFeatures) :
  Orchestrator.prepare_lstm_features np_interp np_gradient b drug traj
  = Ok features ->
  Orchestrator.target_hr (st_time_hours traj) (heart_rate traj)
  = Ok (target_hr_next_24h features).
Proof.
  intros H. unfold Orchestrator.prepare_lstm_features in H.
  apply bind_Ok_inv in H as (conc & _ & H).
  apply bind_Ok_inv in H as (hv & _ & H).
  apply bind_Ok_inv in H as (bv & _ & H).
  apply bind_Ok_inv in H as (cg & _ & H).
  apply bind_Ok_inv in H as (target & Ht & H).
  inversion H; subst features. exact Ht.
Qed.

(** The target loop on a heart-rate series that covers the time axis: one
    target per timestep, the sample at the first index nearest to
    [t_i + 24], and the last sample at the last timestep. *)
Lemma target_hr_nearest_sample (t hr : list R) :
  (length t <= length hr)%nat ->
  exists target,
    Orchestrator.target_hr t hr = Ok target
    /\ length target = length t
    /\ (forall i ti, t !! i = Some ti ->
          exists idx v, nearest_to t (ti + 24) idx
                        /\ hr !! idx = Some v /\ target !! i = Some v)
    /\ (forall n tl,
          length t = S n -> t !! n = Some tl ->
          (forall k tk, t !! k = Some tk -> tk <= tl) ->
          exists idx v, t !! idx = Some tl
                        /\ hr !! idx = Some v /\ target !! n = Some v)
    /\ (forall n tl,
          length t = S n -> t !! n = Some tl ->
          (forall k tk, (k < n)%nat -> t !! k = Some tk -> tk < tl) ->
          is_Some (hr !! n) /\ target !! n = hr !! n).
Proof.
  intros Hlen.
  set (P := fun (ti v : R) =>
              exists idx, nearest_to t (ti + 24) idx /\ hr !! idx = Some v).
  destruct (mapM_Forall2
              (fun ti => let* idx := nearest_index t (ti + 24) in
                         get_item hr idx) P t) as (target & Ht & HF).
  { intros ti Hin.
    assert (Hne : t <> []) by (intros E; rewrite E in Hin; destruct Hin).
    destruct (nearest_sample t hr (ti + 24) Hne Hlen)
      as (idx & tn & v & Hidx & Htn & Hv & Hget & Hmin & Hfirst).
    exists v. rewrite Hidx. simpl. split; [exact Hget|].
    exists idx. split; [|exact Hv]. exists tn. auto. }
  assert (Hpoint : forall i ti, t !! i = Some ti ->
            exists idx v, nearest_to t (ti + 24) idx
                          /\ hr !! idx = Some v /\ target !! i = Some v).
  { intros i ti Hi.
    destruct (Forall2_lookup_l _ _ _ _ _ HF Hi) as (v & Hv & idx & Hn & Hhr).
    exists idx, v. auto. }
  exists target. split; [exact Ht|].
  split; [symmetry; eapply Forall2_length; exact HF|].
  split; [exact Hpoint|]. split.
  { intros n tl Hn Htl Hmax.
    destruct (Hpoint n tl Htl) as (idx & v & (tn & Htn & Hmin & _) & Hv & Htv).
    exists idx, v. split; [|split; assumption].
    pose proof (Hmax idx tn Htn) as Hle. pose proof (Hmin n tl Htl) as Hnear.
    assert (tn = tl) as ->; [|exact Htn].
    unfold Rabs in Hnear.
    destruct (Rcase_abs (tn - (tl + 24))); destruct (Rcase_abs (tl - (tl + 24))); lra. }
  intros n tl Hn Htl Hbefore.
  destruct (Hpoint n tl Htl) as (idx & v & (tn & Htn & Hmin & _) & Hv & Htv).
  assert (Hidx : idx = n).
  { pose proof (lookup_lt_Some _ _ _ Htn) as Hlt. rewrite Hn in Hlt.
    destruct (decide (idx = n)) as [|Hneq]; [assumption|]. exfalso.
    assert (Hk : (idx < n)%nat) by lia.
    pose proof (Hbefore idx tn Hk Htn) as Hless.
    pose proof (Hmin n tl Htl) as Hnear.
    unfold Rabs in Hnear.
    destruct (Rcase_abs (tn - (tl + 24))); destruct (Rcase_abs (tl - (tl + 24))); lra. }
  subst idx. rewrite Hv, Htv. split; [eauto|reflexivity].
Qed.

(** numpy's interpolation and gradient return an array. *)
Lemma prepare_lstm_features_returns
    (np_interp : list R -> list R -> list R -> result (list R))
    (np_gradient : list R -> list R -> result (list R))
    (b : PatientBaseline) (drug : DrugConcentration)
    (traj : SimulationTrajectory) :
  (length (st_time_hours traj) <= length (heart_rate traj))%nat ->
  (forall x xp fp, exists out, np_interp x xp fp = Ok out) ->
  (forall f x, exists out, np_gradient f x = Ok out) ->
  exists features,
    Orchestrator.prepare_lstm_features np_interp np_gradient b drug traj
    = Ok features.
Proof.
  intros Hlen Hinterp Hgrad.
  destruct (Hinterp (st_time_hours traj) (dc_time_hours drug)
              (concentration_mg_L drug)) as (conc & Hconc).
  destruct (Hgrad (heart_rate traj) (st_time_hours traj)) as (hv & Hhv).
  destruct (Hgrad (systolic_bp traj) (st_time_hours traj)) as (bv & Hbv).
  destruct (Hgrad conc (st_time_hours traj)) as (cg & Hcg).
  destruct (target_hr_nearest_sample _ _ Hlen) as (target & Htarget & _).
  unfold Orchestrator.prepare_lstm_features.
  rewrite Hconc. cbn [bind]. rewrite Hhv. cbn [bind]. rewrite Hbv. cbn [bind].
  rewrite Hcg. cbn [bind]. rewrite Htarget. cbn [bind].
  eexists. reflexivity.
Qed.

(** C9.  On a trajectory whose heart-rate series covers its time axis, the
    feature extractor returns whenever numpy's interpolation and gradient
    do, and in the features it returns [target_hr_next_24h] has one value
    per timestep of the trajectory: the target of timestep [t_i] is the
    heart-rate sample at the index whose time is nearest to [t_i + 24] by
    absolute difference.  At the last timestep, where [t_i + 24] lies beyond
    an axis that ends at its largest time, the target is a sample taken at
    that last time; when the last time lies after all earlier ones that is
    the last heart-rate sample. *)
Theorem C9_target_nearest_sample
    (np_interp : list R -> list R -> list R -> result (list R))
    (np_gradient : list R -> list R -> result (list R))
    (b : PatientBaseline) (drug : DrugConcentration)
    (traj : SimulationTrajectory) :
  (length (st_time_hours traj) <= length (heart_rate traj))%nat ->
  let t := st_time_hours traj in
  let hr := heart_rate traj in
  ((forall x xp fp, exists out, np_interp x xp fp = Ok out) ->
   (forall f x, exists out, np_gradient f x = Ok out) ->
   exists features,
     Orchestrator.prepare_lstm_features np_interp np_gradient b drug traj
     = Ok features)
  /\ forall features,
       Orchestrator.prepare_lstm_features np_interp np_gradient b drug traj
       = Ok features ->
       let target := target_hr_next_24h features in
       length target = length t
       /\ (forall i ti, t !! i = Some ti ->
             exists idx v, nearest_to t (ti + 24) idx
                           /\ hr !! idx = Some v /\ target !! i = Some v)
       /\ (forall n tl,
             length t = S n -> t !! n = Some tl ->
             (forall k tk, t !! k = Some tk -> tk <= tl) ->
             exists idx v, t !! idx = Some tl
                           /\ hr !! idx = Some v /\ target !! n = Some v)
       /\ (forall n tl,
             length t = S n -> t !! n = Some tl ->
             (forall k tk, (k < n)%nat -> t !! k = Some tk -> tk < tl) ->
             is_Some (hr !! n) /\ target !! n = hr !! n).
Proof.
  intros Hlen t hr. split.
  - intros Hinterp Hgrad.
    exact (prepare_lstm_features_returns np_interp np_gradient b drug traj
             Hlen Hinterp Hgrad).
  - intros features Hfeat target.
    pose proof (prepare_lstm_features_target _ _ _ _ _ _ Hfeat) as Htarget.
    destruct (target_hr_nearest_sample t hr Hlen)
      as (target0 & Ht0 & Hl & Hpoint & Hlast & Hlast').
    fold t hr in Htarget. rewrite Htarget in Ht0.
    injection Ht0 as <-. fold target.
    split; [exact Hl|]. split; [exact Hpoint|]. split; assumption.
Qed.

Lemma sample_interp_total :
  forall x xp fp, exists out, interp_samples x xp fp = Ok out.
Proof. intros x xp fp. eexists. reflexivity. Qed.

Lemma sample_gradient_total :
  forall f x, exists out, gradient_zero f x = Ok out.
Proof. intros f x. eexists. reflexivity. Qed.

Lemma C9_witness :
  exists features,
    Orchestrator.prepare_lstm_features interp_samples gradient_zero
      default_baseline scenario2_concentration sample_trajectory = Ok features
    /\ length (target_hr_next_24h features) = 4%nat
    /\ target_hr_next_24h features !! 3%nat = Some 64.
Proof.
  assert (Hlen : (length (st_time_hours sample_trajectory)
                  <= length (heart_rate sample_trajectory))%nat)
    by (simpl; lia).
  destruct (proj1 (C9_target_nearest_sample interp_samples gradient_zero
                     default_baseline scenario2_concentration
                     sample_trajectory Hlen)
              sample_interp_total sample_gradient_total) as (features & Hfeat).
  exists features. split; [exact Hfeat|].
  destruct (proj2 (C9_target_nearest_sample interp_samples gradient_zero
                     default_baseline scenario2_concentration
                     sample_trajectory Hlen) features Hfeat)
    as (Hl & _ & _ & Hlast).
  split; [exact Hl|].
  destruct (Hlast 3%nat 36) as [_ ->]; try reflexivity.
  intros k tk Hk Htk.
  destruct k as [|[|[|k]]]; simpl in Htk; try lia; inversion Htk; lra.
Defined.

Ltac decide_abs :=
  repeat match goal with
         | |- context [decide (?a < ?b)] =>
             let Hd := fresh "Hd" in
             destruct (decide (a < b)) as [Hd|Hd];
             try (exfalso; unfold Rabs in Hd;
                  repeat match type of Hd with
                         | context [Rcase_abs ?x] => destruct (Rcase_abs x)
                         end; lra)
         end.

(** The whole target of that trajectory: the sample 24 hours ahead where
    there is one, the last sample otherwise. *)
Example target_hr_sample :
  Orchestrator.target_hr sample_times sample_hr = Ok [66; 64; 64; 64].
Proof.
  unfold Orchestrator.target_hr, nearest_index, sample_times, sample_hr.
  cbn [mapM map np_argmin argmin_from bind].
  decide_abs. reflexivity.
Qed.

(** ** C10: unknown drug names in the PD engine *)

Lemma default_params_keys (k : string) :
  is_Some (PD.default_params !! k) <-> k = "metoprolol" \/ k = "atenolol".
Proof.
  unfold PD.default_params. split.
  - intros [p Hp].
    destruct (decide (k = "metoprolol")) as [->|Hm]; [left; reflexivity|].
    destruct (decide (k = "atenolol")) as [->|Ha]; [right; reflexivity|].
    rewrite lookup_insert_ne, lookup_insert_ne, lookup_empty in Hp by congruence.
    discriminate.
  - intros [->| ->].
    + rewrite lookup_insert_eq. eauto.
    + rewrite lookup_insert_ne by discriminate. rewrite lookup_insert_eq. eauto.
Qed.

Lemma default_params_metoprolol :
  PD.default_params !! "metoprolol" = Some PD.metoprolol_defaults.
Proof. unfold PD.default_params. apply lookup_insert_eq. Qed.

Lemma default_params_atenolol :
  PD.default_params !! "atenolol" = Some PD.atenolol_defaults.
Proof.
  unfold PD.default_params. rewrite lookup_insert_ne by discriminate.
  apply lookup_insert_eq.
Qed.

Lemma use_defaults_Ok (name : string) :
  PD.use_defaults name =
  Ok {| PD.drug_name := name;
        PD.params := default PD.metoprolol_defaults (PD.default_params !! name) |}.
Proof. unfold PD.use_defaults. rewrite default_params_metoprolol. reflexivity. Qed.

Lemma PD_init_no_dataset (path_exists : string -> bool)
    (fit_from_csv : string -> result PD.pd_params)
    (name : string) (csv_path : option string) :
  no_dataset path_exists csv_path ->
  PD.init path_exists fit_from_csv name csv_path = PD.use_defaults (lower name).
Proof.
  unfold PD.init, no_dataset. destruct csv_path as [path|]; [|reflexivity].
  intros [->|Hex]; [reflexivity|]. rewrite Hex, andb_false_r. reflexivity.
Qed.

(** C10, as the code has it.  The engine looks the name up after
    lower-casing it.  Constructed without a calibration dataset it never
    raises; for every drug name whose lower-cased form is not a key of the
    default table it takes the metoprolol defaults for all five endpoints,
    and otherwise the defaults of that key. *)
Theorem C10_unknown_drug_gets_metoprolol (path_exists : string -> bool)
    (fit_from_csv : string -> result PD.pd_params)
    (name : string) (csv_path : option string) :
  no_dataset path_exists csv_path ->
  exists pd,
    PD.init path_exists fit_from_csv name csv_path = Ok pd
    /\ PD.drug_name pd = lower name
    /\ (PD.default_params !! lower name = None ->
        PD.params pd = PD.metoprolol_defaults
        /\ PD.HR (PD.params pd) = PD.hp 25.0 50.0 1.5 (Some 75.0)
        /\ PD.SBP (PD.params pd) = PD.hp 15.0 80.0 1.5 (Some 120.0)
        /\ PD.DBP (PD.params pd) = PD.hp 10.0 80.0 1.5 (Some 80.0)
        /\ PD.contractility (PD.params pd) = PD.hp 0.2 50.0 1.5 None
        /\ PD.vascular_resistance (PD.params pd) = PD.hp 0.15 80.0 1.5 None)
    /\ (forall p, PD.default_params !! lower name = Some p -> PD.params pd = p).
Proof.
  intros Hno. rewrite (PD_init_no_dataset _ _ _ _ Hno), use_defaults_Ok.
  eexists. split; [reflexivity|]. split; [reflexivity|]. simpl. split.
  - intros ->. simpl. repeat split; reflexivity.
  - intros p ->. reflexivity.
Qed.

Lemma C10_witness :
  exists pd,
    PD.init no_file no_fit "Fakedrug" None = Ok pd
    /\ PD.params pd = PD.metoprolol_defaults.
Proof.
  destruct (C10_unknown_drug_gets_metoprolol no_file no_fit "Fakedrug" None I)
    as (pd & Hpd & _ & Hunknown & _).
  exists pd. split; [exact Hpd|]. apply Hunknown.
  destruct (PD.default_params !! lower "Fakedrug") as [p|] eqn:E; [|reflexivity].
  assert (Hs : is_Some (PD.default_params !! lower "Fakedrug")) by eauto.
  apply default_params_keys in Hs. destruct Hs as [Hs|Hs]; discriminate Hs.
Defined.

(** Read on the keys of the table themselves the property fails: [ATENOLOL]
    is not a key, yet the engine takes the atenolol defaults, which differ
    from the metoprolol ones. *)
Lemma C10_counterexample :
  PD.default_params !! "ATENOLOL" = None
  /\ PD.init no_file no_fit "ATENOLOL" None
     = Ok {| PD.drug_name := "atenolol"; PD.params := PD.atenolol_defaults |}
  /\ PD.Emax (PD.HR PD.atenolol_defaults) = 20
  /\ PD.Emax (PD.HR PD.metoprolol_defaults) = 25.
Proof.
  split; [|split; [|split]].
  - destruct (PD.default_params !! "ATENOLOL") as [p|] eqn:E; [|reflexivity].
    assert (Hs : is_Some (PD.default_params !! "ATENOLOL")) by eauto.
    apply default_params_keys in Hs. destruct Hs as [Hs|Hs]; discriminate Hs.
  - rewrite (PD_init_no_dataset no_file no_fit "ATENOLOL" None I).
    rewrite use_defaults_Ok. change (lower "ATENOLOL") with "atenolol".
    rewrite default_params_atenolol. reflexivity.
  - simpl. lra.
  - simpl. lra.
Qed.

(** * Further properties of the pipeline *)

(** ** The single-dose curve *)

Lemma Ok_inj {A : Type} (a b : A) : Ok a = Ok b -> a = b.
Proof. intros H. injection H as ->. reflexivity. Qed.

Lemma bateman_at_0 (self : PK.PKModel) : PK.bateman self 0 = 0.
Proof.
  unfold PK.bateman. rewrite !Rmult_0_r, exp_0. lra.
Qed.

Lemma bateman_pos (self : PK.PKModel) (t : R) :
  0 < PK.ka self -> 0 < PK.ke self -> PK.ka self <> PK.ke self ->
  0 < PK.F self -> 0 < PK.dose self -> 0 < PK.Vd self ->
  0 < t -> 0 < PK.bateman self t.
Proof.
  intros Hka Hke Hne HF Hd HV Ht. unfold PK.bateman.
  assert (Hnum : 0 < PK.F self * PK.dose self * PK.ka self).
  { repeat apply Rmult_lt_0_compat; assumption. }
  apply Rmult_lt_0_compat; [|lra].
  destruct (Rlt_le_dec (PK.ke self) (PK.ka self)) as [Hlt|Hge].
  - apply Rmult_lt_0_compat.
    + apply Rdiv_lt_0_compat; [exact Hnum|]. apply Rmult_lt_0_compat; lra.
    + assert (exp (- PK.ka self * t) < exp (- PK.ke self * t))
        by (apply exp_increasing; nra).
      lra.
  - assert (Hlt : PK.ka self < PK.ke self) by lra.
    assert (Hb : exp (- PK.ke self * t) < exp (- PK.ka self * t))
      by (apply exp_increasing; nra).
    assert (Hden : PK.Vd self * (PK.ka self - PK.ke self) < 0) by nra.
    pose proof (Rinv_lt_0_compat _ Hden) as Hinv. unfold Rdiv.
    set (i := / (PK.Vd self * (PK.ka self - PK.ke self))) in *.
    set (num := PK.F self * PK.dose self * PK.ka self) in *.
    set (br := exp (- PK.ke self * t) - exp (- PK.ka self * t)).
    assert (br < 0) by (unfold br; lra).
    assert (num * i < 0) by nra. nra.
Qed.

(** X1.  The single-dose curve is 0 before the dose (whatever the
    parameters) and 0 at the time of the dose; where the Bateman quotient
    has a zero divisor ([ka = ke] or a zero volume) every [t >= 0] raises
    [ZeroDivisionError]; with positive dose, bioavailability, volume and
    distinct positive rate constants the curve is strictly positive at every
    [t > 0]. *)
Theorem X1_C_single_profile (self : PK.PKModel) :
  (forall t, t < 0 -> PK.C_single self t = Ok 0)
  /\ (PK.Vd self * (PK.ka self - PK.ke self) <> 0 -> PK.C_single self 0 = Ok 0)
  /\ (PK.Vd self * (PK.ka self - PK.ke self) = 0 ->
      forall t, 0 <= t -> PK.C_single self t = Raise ZeroDivisionError)
  /\ (0 < PK.ka self -> 0 < PK.ke self -> PK.ka self <> PK.ke self ->
      0 < PK.F self -> 0 < PK.dose self -> 0 < PK.Vd self ->
      forall t, 0 < t -> exists c, PK.C_single self t = Ok c /\ 0 < c).
Proof.
  split; [|split; [|split]].
  - intros t Ht. unfold PK.C_single. destruct (decide (t < 0)); [reflexivity|lra].
  - intros Hden. rewrite C_single_bateman by (auto; lra).
    rewrite bateman_at_0. reflexivity.
  - intros Hden t Ht. unfold PK.C_single, py_div.
    destruct (decide (t < 0)); [lra|].
    destruct (decide (PK.Vd self * (PK.ka self - PK.ke self) = 0));
      [reflexivity|contradiction].
  - intros Hka Hke Hne HF Hd HV t Ht.
    exists (PK.bateman self t). split.
    + apply C_single_bateman; [|lra].
      apply bateman_quotient_defined; assumption.
    + apply bateman_pos; assumption.
Qed.

Lemma X1_witness :
  PK.C_single metoprolol_50 0 = Ok 0
  /\ exists c, PK.C_single metoprolol_50 2 = Ok c /\ 0 < c.
Proof.
  split.
  - apply (proj1 (proj2 (X1_C_single_profile metoprolol_50))). simpl. lra.
  - apply (proj2 (proj2 (proj2 (X1_C_single_profile metoprolol_50))));
      simpl; lra.
Defined.

(** ** Superposition around the first dose *)

Lemma C_multiple_loop_skip (self : PK.PKModel) (t : R) (idx : list Z) (total : R) :
  Forall (fun i => t < IZR i * num_val (PK.tau self)) idx ->
  PK.C_multiple_loop self t idx total = Ok total.
Proof.
  induction 1 as [|i idx Hi _ IH]; simpl; [reflexivity|].
  destruct (decide (t >= IZR i * num_val (PK.tau self))); [lra|exact IH].
Qed.

Lemma range_nonneg (n i : Z) : In i (range n) -> (0 <= i)%Z.
Proof. intros H. apply list_elem_of_In, elem_of_range in H. lia. Qed.

Lemma range_pos (n : Z) :
  (1 <= n)%Z ->
  exists rest, range n = 0%Z :: rest /\ Forall (fun i => (1 <= i)%Z) rest.
Proof.
  intros Hn. unfold range.
  destruct (Z.to_nat n) as [|m] eqn:E; [lia|].
  exists (map Z.of_nat (seq 1 m)). split; [reflexivity|].
  apply Forall_forall. intros i Hi.
  apply list_elem_of_fmap in Hi as (k & -> & Hk).
  apply list_elem_of_In, in_seq in Hk. lia.
Qed.

(** X2.  With a positive dosing interval, the multi-dose concentration is 0
    before the first dose, is 0 at every time when the dose count is not
    positive, and during the first interval [0 <= t < tau] it is the
    single-dose curve itself, however many doses are scheduled. *)
Theorem X2_C_multiple_first_interval (self : PK.PKModel) (t : R) (n_doses : Z) :
  0 < num_val (PK.tau self) ->
  (t < 0 -> PK.C_multiple self t n_doses = Ok 0)
  /\ ((n_doses <= 0)%Z -> PK.C_multiple self t n_doses = Ok 0)
  /\ ((1 <= n_doses)%Z -> 0 <= t < num_val (PK.tau self) ->
      PK.C_multiple self t n_doses = PK.C_single self t).
Proof.
  intros Htau. split; [|split].
  - intros Ht. unfold PK.C_multiple. apply C_multiple_loop_skip.
    apply Forall_forall. intros i Hi.
    apply list_elem_of_In, range_nonneg, IZR_le in Hi.
    assert (0 <= IZR i * num_val (PK.tau self)) by (apply Rmult_le_pos; lra).
    lra.
  - intros Hn. unfold PK.C_multiple, range.
    replace (Z.to_nat n_doses) with 0%nat by lia. reflexivity.
  - intros Hn [Ht0 Ht1]. unfold PK.C_multiple.
    destruct (range_pos n_doses Hn) as (rest & -> & Hrest).
    cbn [PK.C_multiple_loop].
    destruct (decide (t >= 0 * num_val (PK.tau self))) as [_|Hn0]; [|lra].
    replace (t - 0 * num_val (PK.tau self)) with t by lra.
    destruct (PK.C_single self t) as [c|e|]; cbn [bind]; try reflexivity.
    rewrite C_multiple_loop_skip.
    + f_equal. lra.
    + apply Forall_forall. intros i Hi.
      rewrite Forall_forall in Hrest. apply Hrest, IZR_le in Hi. nra.
Qed.

Lemma X2_witness :
  PK.C_multiple metoprolol_50 (-1) 14 = Ok 0
  /\ PK.C_multiple metoprolol_50 5 14 = PK.C_single metoprolol_50 5.
Proof.
  assert (Htau : 0 < num_val (PK.tau metoprolol_50)) by (simpl; lra).
  split.
  - apply (proj1 (X2_C_multiple_first_interval metoprolol_50 (-1) 14 Htau)). lra.
  - apply (proj2 (proj2 (X2_C_multiple_first_interval metoprolol_50 5 14 Htau)));
      [lia | simpl; lra].
Defined.

(** ** Failures of the PK simulation *)

Lemma mapM_Raise_head {A B : Type} (f : A -> result B) (a : A) (l : list A) (e : exn) :
  f a = Raise e -> mapM f (a :: l) = Raise e.
Proof. intros H. simpl. rewrite H. reflexivity. Qed.

Lemma n_time_pos : (1 <= PK.n_time)%nat.
Proof. unfold PK.n_time. lia. Qed.

Lemma linspace_head (stop : R) (num : nat) :
  (1 <= num)%nat -> exists x rest, linspace 0 stop num = x :: rest /\ x = 0.
Proof.
  intros Hn. unfold linspace. destruct num as [|m]; [lia|].
  eexists. eexists. split; [reflexivity|]. simpl. lra.
Qed.

Lemma C_multiple_at_0_raises (self : PK.PKModel) (n : Z) :
  (1 <= n)%Z -> PK.Vd self * (PK.ka self - PK.ke self) = 0 ->
  PK.C_multiple self 0 n = Raise ZeroDivisionError.
Proof.
  intros Hn Hden. unfold PK.C_multiple.
  destruct (range_pos n Hn) as (rest & -> & _). cbn [PK.C_multiple_loop].
  destruct (decide (0 >= 0 * num_val (PK.tau self))); [|lra].
  unfold PK.C_single, py_div.
  destruct (decide (0 - 0 * num_val (PK.tau self) < 0)); [lra|].
  destruct (decide (PK.Vd self * (PK.ka self - PK.ke self) = 0)); [|contradiction].
  reflexivity.
Qed.

Lemma C_ss_at_raises (self : PK.PKModel) (tau0 tt : R) :
  PK.Vd self * (PK.ka self - PK.ke self) = 0 ->
  PK.C_ss_at self tau0 tt = Raise ZeroDivisionError.
Proof.
  intros Hden. unfold PK.C_ss_at, py_div.
  destruct (decide (PK.Vd self * (PK.ka self - PK.ke self) = 0)); [|contradiction].
  reflexivity.
Qed.

(** A float dosing interval makes the dose count a float, which [range]
    refuses at the first sample. *)
Lemma simulate_float_interval (self : PK.PKModel) (duration_hours : option R)
    (r : R) :
  PK.tau self = PyFloat r -> r <> 0 ->
  PK.simulate self duration_hours = Raise TypeError.
Proof.
  intros Hr Hr0. unfold PK.simulate, py_floordiv. rewrite Hr.
  destruct (decide (num_val (PyFloat r) = 0)) as [H0|_]; [contradiction|].
  cbn [bind]. cbv zeta.
  set (T := match duration_hours with Some d => d | None => _ end).
  destruct (linspace_head T PK.n_time n_time_pos) as (x & rest & -> & _).
  rewrite (mapM_Raise_head _ _ _ TypeError); [reflexivity|].
  destruct (PK.n_days self); reflexivity.
Qed.

(** X3.  How the PK simulation fails.  An interval of 0 raises
    [ZeroDivisionError] (from [24 // tau]); a non-zero interval or a number
    of days given as a float raises [TypeError] (the dose count is then a
    float and [range] refuses it); equal absorption and elimination rates,
    or a zero volume of distribution, raise [ZeroDivisionError]. *)
Theorem X3_simulate_failures (self : PK.PKModel) (duration_hours : option R) :
  (num_val (PK.tau self) = 0 ->
   PK.simulate self duration_hours = Raise ZeroDivisionError)
  /\ (forall r, PK.tau self = PyFloat r -> r <> 0 ->
                PK.simulate self duration_hours = Raise TypeError)
  /\ (forall z x, PK.tau self = PyInt z -> z <> 0%Z -> PK.n_days self = PyFloat x ->
                  PK.simulate self duration_hours = Raise TypeError)
  /\ (forall z d, PK.tau self = PyInt z -> z <> 0%Z -> PK.n_days self = PyInt d ->
                  PK.Vd self * (PK.ka self - PK.ke self) = 0 ->
                  PK.simulate self duration_hours = Raise ZeroDivisionError).
Proof.
  pose proof n_time_pos as Hnt.
  split; [|split; [|split]].
  - intros H0. unfold PK.simulate, py_floordiv.
    destruct (PK.tau self) as [z|r] eqn:E; simpl in H0.
    + apply eq_IZR_R0 in H0. subst z.
      destruct (decide (0%Z = 0%Z)); [reflexivity|congruence].
    + destruct (decide (num_val (PyFloat r) = 0)) as [_|Hn]; [reflexivity|].
      exfalso. apply Hn. exact H0.
  - intros r Hr Hr0. apply (simulate_float_interval self duration_hours r Hr Hr0).
  - intros z x Hz Hz0 Hd. unfold PK.simulate, py_floordiv. rewrite Hz, Hd.
    destruct (decide (z = 0%Z)); [contradiction|].
    cbn [bind]. cbv zeta.
    set (T := match duration_hours with Some d => d | None => _ end).
    destruct (linspace_head T PK.n_time Hnt) as (x0 & rest & -> & _).
    rewrite (mapM_Raise_head _ _ _ TypeError); reflexivity.
  - intros z d Hz Hz0 Hd Hden. unfold PK.simulate, py_floordiv. rewrite Hz, Hd.
    destruct (decide (z = 0%Z)); [contradiction|].
    cbn [bind py_mul]. cbv zeta.
    set (T := match duration_hours with Some d => d | None => _ end).
    set (count := (d * (24 / z))%Z).
    destruct (Z_le_gt_dec 1 count) as [Hn|Hn].
    + destruct (linspace_head T PK.n_time Hnt) as (x & rest & -> & ->).
      rewrite (mapM_Raise_head _ _ _ ZeroDivisionError); [reflexivity|].
      apply C_multiple_at_0_raises; assumption.
    + rewrite (mapM_pure _ (fun _ => 0)).
      2:{ intros tt _. unfold PK.C_multiple, range.
          replace (Z.to_nat count) with 0%nat by lia. reflexivity. }
      cbn [bind].
      destruct (linspace_head (IZR z) PK.n_interval) as (x & rest & Hl & _).
      { pose proof n_interval_ge_2. lia. }
      cbn [num_val]. rewrite Hl.
      rewrite (mapM_Raise_head _ _ _ ZeroDivisionError); [reflexivity|].
      apply C_ss_at_raises. exact Hden.
Qed.

Lemma X3_witness :
  PK.simulate (pk_sample (PyInt 0) (PyInt 7) 1.5) None = Raise ZeroDivisionError
  /\ PK.simulate (pk_sample (PyFloat 12) (PyInt 7) 1.5) None = Raise TypeError
  /\ PK.simulate (pk_sample (PyInt 12) (PyFloat 7) 1.5) None = Raise TypeError
  /\ PK.simulate (pk_sample (PyInt 12) (PyInt 7) 0.20) None = Raise ZeroDivisionError.
Proof.
  split; [|split; [|split]].
  - apply (proj1 (X3_simulate_failures _ None)). simpl. lra.
  - apply (proj1 (proj2 (X3_simulate_failures _ None)) 12); [reflexivity|lra].
  - apply (proj1 (proj2 (proj2 (X3_simulate_failures _ None))) 12%Z 7);
      [reflexivity|lia|reflexivity].
  - apply (proj2 (proj2 (proj2 (X3_simulate_failures _ None))) 12%Z 7%Z);
      [reflexivity|lia|reflexivity|simpl; lra].
Defined.

(** ** The concentration record *)

Lemma mapM_length {A B : Type} (f : A -> result B) (l : list A) (out : list B) :
  mapM f l = Ok out -> length out = length l.
Proof.
  revert out. induction l as [|a l IH]; simpl; intros out H.
  - inversion H. reflexivity.
  - apply bind_Ok_inv in H as (b & _ & H).
    apply bind_Ok_inv in H as (bs & Hbs & H). inversion H; subst.
    simpl. f_equal. apply IH. exact Hbs.
Qed.

Lemma mapM_Ok_elem {A B : Type} (f : A -> result B) (l : list A) (out : list B) :
  mapM f l = Ok out -> forall b, In b out -> exists a, In a l /\ f a = Ok b.
Proof.
  revert out. induction l as [|a l IH]; simpl; intros out H b Hb.
  - inversion H; subst. destruct Hb.
  - apply bind_Ok_inv in H as (b0 & Hb0 & H).
    apply bind_Ok_inv in H as (bs & Hbs & H). inversion H; subst.
    destruct Hb as [<-|Hb]; [eauto|].
    destruct (IH bs Hbs b Hb) as (a' & Ha' & Hf). eauto.
Qed.

Lemma Rsum_nonneg (l : list R) : Forall (fun x => 0 <= x) l -> 0 <= PK.Rsum l.
Proof. induction 1; simpl; lra. Qed.

Lemma bateman_nonneg (self : PK.PKModel) (t : R) :
  0 < PK.ka self -> 0 < PK.ke self -> PK.ka self <> PK.ke self ->
  0 < PK.F self -> 0 < PK.dose self -> 0 < PK.Vd self ->
  0 <= t -> 0 <= PK.bateman self t.
Proof.
  intros Hka Hke Hne HF Hd HV [Ht| <-].
  - left. apply bateman_pos; assumption.
  - rewrite bateman_at_0. lra.
Qed.

Lemma C_multiple_nonneg (self : PK.PKModel) (t : R) (n : Z) (c : R) :
  0 < PK.ka self -> 0 < PK.ke self -> PK.ka self <> PK.ke self ->
  0 < PK.F self -> 0 < PK.dose self -> 0 < PK.Vd self ->
  PK.C_multiple self t n = Ok c -> 0 <= c.
Proof.
  intros Hka Hke Hne HF Hd HV H. unfold PK.C_multiple in H.
  rewrite C_multiple_loop_Rsum in H by (apply bateman_quotient_defined; assumption).
  inversion H; subst c; clear H.
  assert (0 <= PK.Rsum
            (map (fun i => PK.bateman self (t - IZR i * num_val (PK.tau self)))
                 (filter (fun i => IZR i * num_val (PK.tau self) <= t) (range n)))).
  { apply Rsum_nonneg, Forall_forall. intros x Hx.
    apply list_elem_of_fmap in Hx as (i & -> & Hi).
    apply list_elem_of_filter in Hi as [Hi _].
    apply bateman_nonneg; try assumption. lra. }
  lra.
Qed.

Lemma last_map_seq (g : nat -> R) (a m : nat) :
  last (map g (seq a (S m))) = Some (g (a + m)%nat).
Proof. rewrite seq_S, map_app. simpl. apply last_snoc. Qed.

Lemma linspace_last (stop : R) (num : nat) :
  (2 <= num)%nat -> last (linspace 0 stop num) = Some stop.
Proof.
  intros Hn. unfold linspace. destruct num as [|m]; [lia|].
  rewrite last_map_seq. f_equal. simpl Nat.add.
  replace (S m - 1)%nat with m by lia.
  assert (0 < INR m) by (apply lt_0_INR; lia).
  field. lra.
Qed.

Lemma n_time_is_5000 : Z.of_nat PK.n_time = 5000%Z.
Proof. unfold PK.n_time. lia. Qed.

(** The profile of a returned record: the time grid, one concentration per
    grid point, none negative for positive parameters. *)
Lemma simulate_profile (self : PK.PKModel) (duration_hours : option R)
    (dc : DrugConcentration) :
  PK.simulate self duration_hours = Ok dc ->
  dc_time_hours dc
  = linspace 0 match duration_hours with
               | None => num_val (py_mul (PK.n_days self) (PyInt 24))
               | Some d => d
               end PK.n_time
  /\ length (concentration_mg_L dc) = PK.n_time
  /\ absorption_rate dc = PK.ka self /\ elimination_rate dc = PK.ke self
  /\ volume_distribution dc = PK.Vd self /\ bioavailability dc = PK.F self
  /\ (0 < PK.ka self -> 0 < PK.ke self -> PK.ka self <> PK.ke self ->
      0 < PK.F self -> 0 < PK.dose self -> 0 < PK.Vd self ->
      Forall (fun c => 0 <= c) (concentration_mg_L dc)).
Proof.
  intros H. unfold PK.simulate in H.
  apply bind_Ok_inv in H as (per_day & _ & H). cbv zeta in H.
  apply bind_Ok_inv in H as (conc & Hconc & H).
  apply bind_Ok_inv in H as (profile & _ & H).
  apply bind_Ok_inv in H as (Cmax & _ & H).
  apply bind_Ok_inv in H as (Cmin & _ & H).
  apply bind_Ok_inv in H as (Cavg & _ & H).
  apply bind_Ok_inv in H as (R0 & _ & H).
  apply bind_Ok_inv in H as (fl & _ & H).
  apply Ok_inj in H. subst dc.
  cbn [dc_time_hours concentration_mg_L absorption_rate elimination_rate
       volume_distribution bioavailability].
  split; [reflexivity|].
  split.
  { rewrite length_map, (mapM_length _ _ _ Hconc), linspace_length. reflexivity. }
  repeat (split; [reflexivity|]).
  intros Hka Hke Hne HF Hd HV. apply Forall_forall. intros c Hc.
  apply list_elem_of_fmap in Hc as (c0 & -> & Hc0).
  apply list_elem_of_In in Hc0.
  destruct (mapM_Ok_elem _ _ _ Hconc c0 Hc0) as (tt & _ & Htt).
  destruct (py_mul (PK.n_days self) per_day) as [n|x]; [|discriminate].
  pose proof (C_multiple_nonneg self tt n c0 Hka Hke Hne HF Hd HV Htt).
  apply Rmult_le_pos; [assumption|]. left. apply Rinv_0_lt_compat. lra.
Qed.

(** X4.  Every record the PK simulation returns has a time axis of 5000
    points that starts at 0 and ends at the total time (strictly increasing
    when that time is positive), a concentration series of the same length,
    and the rate constants of the engine.  With positive dose,
    bioavailability, volume and distinct positive rate constants no
    concentration is negative. *)
Theorem X4_simulate_record (self : PK.PKModel) (duration_hours : option R)
    (dc : DrugConcentration) :
  PK.simulate self duration_hours = Ok dc ->
  let total_time :=
    match duration_hours with
    | None => num_val (py_mul (PK.n_days self) (PyInt 24))
    | Some d => d
    end in
  dc_time_hours dc = linspace 0 total_time PK.n_time
  /\ Z.of_nat (length (dc_time_hours dc)) = 5000%Z
  /\ Z.of_nat (length (concentration_mg_L dc)) = 5000%Z
  /\ dc_time_hours dc !! 0%nat = Some 0
  /\ last (dc_time_hours dc) = Some total_time
  /\ (0 < total_time -> Sorted Rlt (dc_time_hours dc))
  /\ absorption_rate dc = PK.ka self /\ elimination_rate dc = PK.ke self
  /\ volume_distribution dc = PK.Vd self /\ bioavailability dc = PK.F self
  /\ (0 < PK.ka self -> 0 < PK.ke self -> PK.ka self <> PK.ke self ->
      0 < PK.F self -> 0 < PK.dose self -> 0 < PK.Vd self ->
      Forall (fun c => 0 <= c) (concentration_mg_L dc)).
Proof.
  intros H total_time.
  destruct (simulate_profile self duration_hours dc H)
    as (Ht & Hlen & Hka & Hke & HVd & HF & Hpos).
  fold total_time in Ht.
  pose proof n_time_is_5000 as H5000.
  assert (Hn2 : (2 <= PK.n_time)%nat) by lia.
  split; [exact Ht|]. rewrite Ht, Hlen.
  split; [rewrite linspace_length; exact H5000|].
  split; [exact H5000|].
  split.
  { destruct (linspace_head total_time PK.n_time) as (x & rest & -> & ->);
      [lia|reflexivity]. }
  split; [apply linspace_last; exact Hn2|].
  split; [intros HT; apply linspace_sorted; assumption|].
  auto 10.
Qed.

Lemma X4_witness :
  exists dc, PK.simulate metoprolol_50 None = Ok dc
             /\ Z.of_nat (length (concentration_mg_L dc)) = 5000%Z
             /\ last (dc_time_hours dc) = Some 168
             /\ Forall (fun c => 0 <= c) (concentration_mg_L dc).
Proof.
  destruct (simulate_total metoprolol_50 None 12 7) as (dc & Hdc & _);
    try reflexivity; try (simpl; lra).
  exists dc. split; [exact Hdc|].
  destruct (X4_simulate_record metoprolol_50 None dc Hdc)
    as (_ & _ & Hlen & _ & Hlast & _ & _ & _ & _ & _ & Hpos).
  split; [exact Hlen|]. split.
  - rewrite Hlast. reflexivity.
  - apply Hpos; simpl; lra.
Defined.

(** ** Dosing less than once a day *)

Lemma C_multiple_no_doses (self : PK.PKModel) (t : R) (n : Z) :
  (n <= 0)%Z -> PK.C_multiple self t n = Ok 0.
Proof.
  intros Hn. unfold PK.C_multiple, range.
  replace (Z.to_nat n) with 0%nat by lia. reflexivity.
Qed.

(** X5.  The dose count is [n_days * (24 // tau)] with integer floor
    division, so an interval longer than 24 h gives no dose at all: with
    positive parameters the simulation still returns a record, every
    concentration of its profile is 0, and yet the steady-state average it
    reports is positive. *)
Theorem X5_interval_over_a_day_gives_no_dose (self : PK.PKModel)
    (duration_hours : option R) (z d : Z) :
  PK.tau self = PyInt z -> PK.n_days self = PyInt d -> (24 < z)%Z ->
  0 < PK.ka self -> 0 < PK.ke self -> PK.ka self <> PK.ke self ->
  0 < PK.F self -> 0 < PK.dose self -> 0 < PK.Vd self ->
  exists dc, PK.simulate self duration_hours = Ok dc
             /\ Forall (fun c => c = 0) (concentration_mg_L dc)
             /\ 0 < Cavg_ss dc.
Proof.
  intros Htau Hdays Hz Hka Hke Hne HF Hd HV.
  assert (Htau0 : 0 < num_val (PK.tau self)).
  { rewrite Htau. simpl. apply IZR_lt. lia. }
  destruct (simulate_total self duration_hours z d Htau Hdays Hke Htau0
              Hka Hne HF Hd HV) as (dc & Hdc & HCavg & _).
  exists dc. split; [exact Hdc|]. split; [|exact HCavg].
  unfold PK.simulate in Hdc. rewrite Htau, Hdays in Hdc.
  unfold py_floordiv in Hdc.
  destruct (decide (z = 0%Z)) as [Hz0|_]; [lia|].
  rewrite (Z.div_small 24 z) in Hdc by lia.
  cbn [bind py_mul] in Hdc. cbv zeta in Hdc.
  apply bind_Ok_inv in Hdc as (conc & Hconc & H).
  apply bind_Ok_inv in H as (profile & _ & H).
  apply bind_Ok_inv in H as (Cmax & _ & H).
  apply bind_Ok_inv in H as (Cmin & _ & H).
  apply bind_Ok_inv in H as (Cavg & _ & H).
  apply bind_Ok_inv in H as (R0 & _ & H).
  apply bind_Ok_inv in H as (fl & _ & H).
  inversion H; subst dc; clear H. cbn [concentration_mg_L].
  apply Forall_forall. intros c Hc.
  apply list_elem_of_fmap in Hc as (c0 & -> & Hc0).
  apply list_elem_of_In in Hc0.
  destruct (mapM_Ok_elem _ _ _ Hconc c0 Hc0) as (tt & _ & Htt).
  rewrite C_multiple_no_doses in Htt by lia.
  inversion Htt. lra.
Qed.

Lemma X5_witness :
  exists dc, PK.simulate metoprolol_q48 None = Ok dc
             /\ Forall (fun c => c = 0) (concentration_mg_L dc)
             /\ 0 < Cavg_ss dc.
Proof.
  apply (X5_interval_over_a_day_gives_no_dose metoprolol_q48 None 48 7);
    try reflexivity; try lia; simpl; lra.
Defined.

(** ** Steady state and superposition *)

Lemma exp_shift (k x tau0 : R) :
  0 < k -> 0 < tau0 ->
  exp (- k * x) / (1 - exp (- k * tau0))
  - exp (- k * (x + tau0)) / (1 - exp (- k * tau0)) = exp (- k * x).
Proof.
  intros Hk Htau. destruct (exp_neg_lt_1 k tau0 Hk Htau) as [H0 H1].
  replace (- k * (x + tau0)) with (- k * x + - k * tau0) by ring.
  rewrite exp_plus. field. lra.
Qed.

(** One dose is the difference of the steady-state curve one interval
    apart. *)
Lemma bateman_telescopes (self : PK.PKModel) (tau0 x : R) :
  0 < PK.ka self -> 0 < PK.ke self -> 0 < tau0 ->
  PK.bateman self x = C_ss_curve self tau0 x - C_ss_curve self tau0 (x + tau0).
Proof.
  intros Hka Hke Htau. unfold PK.bateman, C_ss_curve.
  rewrite <- (exp_shift (PK.ke self) x tau0 Hke Htau) at 1.
  rewrite <- (exp_shift (PK.ka self) x tau0 Hka Htau) at 1.
  unfold Rdiv. ring.
Qed.

Lemma C_ss_curve_closes (self : PK.PKModel) (tau0 : R) :
  0 < PK.ka self -> 0 < PK.ke self -> 0 < tau0 ->
  C_ss_curve self tau0 tau0 = C_ss_curve self tau0 0.
Proof.
  intros Hka Hke Htau.
  pose proof (bateman_telescopes self tau0 0 Hka Hke Htau) as H.
  rewrite bateman_at_0, Rplus_0_l in H. lra.
Qed.

Lemma last_map_Some {A B : Type} (f : A -> B) (l : list A) (x : A) :
  last l = Some x -> last (map f l) = Some (f x).
Proof.
  induction l as [|a [|b l] IH]; intros H.
  - discriminate.
  - inversion H. reflexivity.
  - apply IH. exact H.
Qed.

(** X6.  In every record the simulation returns for positive rate constants
    and interval (and a defined Bateman quotient), the reported trough
    [Cmin_ss] is the steady-state curve at the end of the interval, which is
    also its value at the moment of the dose: the one-interval profile closes
    on itself.  The trough never exceeds the reported peak. *)
Theorem X6_trough_is_value_at_dose (self : PK.PKModel)
    (duration_hours : option R) (dc : DrugConcentration) :
  PK.simulate self duration_hours = Ok dc ->
  0 < PK.ka self -> 0 < PK.ke self -> 0 < num_val (PK.tau self) ->
  PK.Vd self * (PK.ka self - PK.ke self) <> 0 ->
  let tau0 := num_val (PK.tau self) in
  Cmin_ss dc = C_ss_curve self tau0 tau0
  /\ Cmin_ss dc = C_ss_curve self tau0 0
  /\ Cmin_ss dc <= Cmax_ss dc.
Proof.
  intros H Hka Hke Htau Hden tau0.
  destruct (simulate_Ok_inv self duration_hours dc H)
    as (profile & Hprof & Hmax & Hlast & _).
  fold tau0 in Hprof.
  rewrite (mapM_pure _ (C_ss_curve self tau0)) in Hprof
    by (intros tt _; apply C_ss_at_curve; assumption).
  apply Ok_inj in Hprof. subst profile.
  assert (Hend : Cmin_ss dc = C_ss_curve self tau0 tau0).
  { rewrite (last_map_Some _ _ tau0) in Hlast
      by (apply linspace_last, n_interval_ge_2).
    congruence. }
  split; [exact Hend|]. split.
  - rewrite Hend. apply C_ss_curve_closes; assumption.
  - eapply np_max_ge; [exact Hmax|]. apply last_In. exact Hlast.
Qed.

Lemma X6_witness :
  exists dc, PK.simulate metoprolol_50 None = Ok dc
             /\ Cmin_ss dc = C_ss_curve metoprolol_50 12 0.
Proof.
  destruct (simulate_total metoprolol_50 None 12 7) as (dc & Hdc & _);
    try reflexivity; try (simpl; lra).
  exists dc. split; [exact Hdc|].
  apply (X6_trough_is_value_at_dose metoprolol_50 None dc Hdc); simpl; lra.
Defined.

Lemma C_multiple_loop_telescope (self : PK.PKModel) (t : R) (k a : nat) (total : R) :
  0 < PK.ka self -> 0 < PK.ke self -> 0 < num_val (PK.tau self) ->
  PK.Vd self * (PK.ka self - PK.ke self) <> 0 ->
  INR (a + k) * num_val (PK.tau self) <= t + num_val (PK.tau self) ->
  PK.C_multiple_loop self t (map Z.of_nat (seq a k)) total =
  Ok (total
      + C_ss_curve self (num_val (PK.tau self))
          (t - INR (a + k) * num_val (PK.tau self) + num_val (PK.tau self))
      - C_ss_curve self (num_val (PK.tau self))
          (t - INR a * num_val (PK.tau self) + num_val (PK.tau self))).
Proof.
  intros Hka Hke Htau Hden. set (tau0 := num_val (PK.tau self)) in *.
  revert a total. induction k as [|k IH]; intros a total Hle.
  - simpl. rewrite Nat.add_0_r. f_equal. ring.
  - cbn [seq map PK.C_multiple_loop]. fold tau0.
    rewrite <- INR_IZR_INZ.
    rewrite plus_INR, S_INR in Hle.
    assert (Hk : 0 <= INR k * tau0).
    { apply Rmult_le_pos; [apply pos_INR|lra]. }
    assert (Ha : INR a * tau0 <= t) by nra.
    destruct (decide (t >= INR a * tau0)) as [_|Hn]; [|lra].
    rewrite C_single_bateman by (assumption || lra). cbn [bind].
    rewrite IH by (rewrite plus_INR, S_INR; nra).
    rewrite (bateman_telescopes self tau0 _ Hka Hke Htau).
    f_equal.
    replace (t - INR (S a) * tau0 + tau0) with (t - INR a * tau0)
      by (rewrite S_INR; ring).
    replace (INR (S a + k)) with (INR (a + S k)) by (f_equal; lia).
    ring.
Qed.

(** X7.  Once all [n_doses >= 1] doses have been given
    ([t >= (n_doses - 1) * tau]) the multiple-dose concentration is the
    steady-state curve, taken at the time since the last dose, minus the
    steady-state curve one interval after [t]; so it is non-negative and
    strictly below the steady-state curve. *)
Theorem X7_multiple_dose_below_steady_state (self : PK.PKModel) (t : R) (n_doses : Z) :
  0 < PK.ka self -> 0 < PK.ke self -> PK.ka self <> PK.ke self ->
  0 < PK.F self -> 0 < PK.dose self -> 0 < PK.Vd self ->
  0 < num_val (PK.tau self) ->
  (1 <= n_doses)%Z -> IZR (n_doses - 1) * num_val (PK.tau self) <= t ->
  let tau0 := num_val (PK.tau self) in
  let since_last := t - IZR (n_doses - 1) * tau0 in
  exists c, PK.C_multiple self t n_doses = Ok c
            /\ c = C_ss_curve self tau0 since_last - C_ss_curve self tau0 (t + tau0)
            /\ 0 <= c < C_ss_curve self tau0 since_last.
Proof.
  intros Hka Hke Hne HF Hd HV Htau Hn Ht tau0 since_last.
  pose proof (bateman_quotient_defined self Hne HV) as Hden.
  assert (HINR : INR (Z.to_nat n_doses) = IZR n_doses).
  { rewrite INR_IZR_INZ, Z2Nat.id by lia. reflexivity. }
  rewrite minus_IZR in Ht.
  assert (Hloop := C_multiple_loop_telescope self t (Z.to_nat n_doses) 0 0
                     Hka Hke Htau Hden).
  fold tau0 in Hloop, Ht. simpl Nat.add in Hloop. rewrite HINR in Hloop.
  specialize (Hloop ltac:(lra)).
  assert (Htau0 : 0 < tau0) by exact Htau.
  eexists. split; [exact Hloop|].
  assert (Hsince : t - IZR n_doses * tau0 + tau0 = since_last).
  { unfold since_last. rewrite minus_IZR. ring. }
  rewrite Hsince. simpl INR.
  replace (t - 0 * tau0 + tau0) with (t + tau0) by ring.
  split; [ring|].
  assert (H1 : 0 <= IZR n_doses - 1).
  { apply IZR_le in Hn. lra. }
  assert (Hprod : 0 <= (IZR n_doses - 1) * tau0) by (apply Rmult_le_pos; lra).
  assert (Hpos : 0 < C_ss_curve self tau0 (t + tau0)).
  { apply C_ss_curve_pos; try assumption. lra. }
  split; [|lra].
  eapply (C_multiple_nonneg self t n_doses); try eassumption.
  unfold PK.C_multiple, range. rewrite Hloop. f_equal.
  rewrite Hsince. simpl INR.
  replace (t - 0 * tau0 + tau0) with (t + tau0) by ring. reflexivity.
Qed.

Lemma X7_witness :
  exists c, PK.C_multiple metoprolol_50 168 14 = Ok c
            /\ c = C_ss_curve metoprolol_50 12 12 - C_ss_curve metoprolol_50 12 180
            /\ 0 <= c < C_ss_curve metoprolol_50 12 12.
Proof.
  assert (Hlast : IZR (14 - 1) * num_val (PK.tau metoprolol_50) <= 168).
  { change (IZR (14 - 1)) with 13. simpl. lra. }
  pose proof (X7_multiple_dose_below_steady_state metoprolol_50 168 14) as H.
  cbv zeta in H.
  destruct H as (c & Hc & Heq & Hb);
    [simpl; lra|simpl; lra|simpl; lra|simpl; lra|simpl; lra|simpl; lra
    |simpl; lra|lia|exact Hlast|].
  exists c. split; [exact Hc|].
  replace (168 - IZR (14 - 1) * num_val (PK.tau metoprolol_50)) with 12 in *
    by (change (IZR (14 - 1)) with 13; simpl; lra).
  replace (168 + num_val (PK.tau metoprolol_50)) with 180 in * by (simpl; lra).
  simpl in Heq, Hb. split; assumption.
Defined.

(** ** The Hill curve and the PD engine *)

Section HillRange.

Variables Emax0 EC500 gamma0 : R.
Hypothesis Emax_nonneg : 0 <= Emax0.
Hypothesis EC50_pos : 0 < EC500.
Hypothesis gamma_pos : 0 < gamma0.

Lemma hill_raw_range (c : R) : 0 <= hill_raw Emax0 EC500 gamma0 c <= Emax0.
Proof.
  unfold hill_raw.
  pose proof (Rpower_pos EC500 gamma0) as Hk.
  pose proof (conc_pow_nonneg gamma0 c) as Hu.
  set (k := Rpower EC500 gamma0) in *. set (u := PD.conc_pow gamma0 c) in *.
  assert (Hinv : 0 < / (k + u)) by (apply Rinv_0_lt_compat; lra).
  split.
  - apply Rmult_le_pos; [apply Rmult_le_pos; lra|lra].
  - assert (Hd : Emax0 - Emax0 * u / (k + u) = Emax0 * k * / (k + u))
      by (field; lra).
    assert (0 <= Emax0 * k * / (k + u)).
    { apply Rmult_le_pos; [apply Rmult_le_pos; lra|lra]. }
    lra.
Qed.

(** The clip at [1.1 * Emax] never binds. *)
Lemma hill_curve_raw (c : R) :
  PD.hill_curve Emax0 EC500 gamma0 c = hill_raw Emax0 EC500 gamma0 c.
Proof.
  pose proof (hill_raw_range c) as Hr. unfold PD.hill_curve.
  fold (hill_raw Emax0 EC500 gamma0 c).
  unfold np_clip, Rmin, Rmax.
  destruct (Rle_dec (hill_raw Emax0 EC500 gamma0 c) 0);
    match goal with |- context [Rle_dec ?a ?b] => destruct (Rle_dec a b) end; lra.
Qed.

Lemma hill_raw_at_0 : hill_raw Emax0 EC500 gamma0 0 = 0.
Proof.
  unfold hill_raw, PD.conc_pow.
  destruct (decide (0 = 0)) as [_|Hn]; [|lra].
  unfold Rdiv. ring.
Qed.

Lemma hill_raw_at_EC50 : hill_raw Emax0 EC500 gamma0 EC500 = Emax0 / 2.
Proof.
  unfold hill_raw, PD.conc_pow.
  destruct (decide (EC500 = 0)) as [Hz|_]; [lra|].
  pose proof (Rpower_pos EC500 gamma0). field. lra.
Qed.

End HillRange.

(** X8.  For [Emax >= 0], [EC50 > 0], [gamma > 0] and non-negative
    concentrations every effect [hill_equation] returns is the unclipped Hill
    value [Emax * C^γ / (EC50^γ + C^γ)] and lies in [[0, Emax]]: the clip at
    [1.1 * Emax] never changes a value.  The effect is 0 at concentration 0
    and half of [Emax] at [C = EC50]. *)
Theorem X8_hill_clip_never_binds (Emax0 EC500 gamma0 : R) (C : list R) :
  0 <= Emax0 -> 0 < EC500 -> 0 < gamma0 -> Forall (fun c => 0 <= c) C ->
  exists E,
    PD.hill_equation C Emax0 EC500 gamma0 = Ok E
    /\ Forall2 (fun c e => e = hill_raw Emax0 EC500 gamma0 c
                           /\ 0 <= e <= Emax0
                           /\ (c = 0 -> e = 0)
                           /\ (c = EC500 -> e = Emax0 / 2)) C E.
Proof.
  intros HE HK Hg HC.
  exists (map (PD.hill_curve Emax0 EC500 gamma0) C). split.
  - apply hill_equation_curve; assumption.
  - clear HC. induction C as [|c C IH]; simpl; constructor; [|exact IH].
    rewrite hill_curve_raw by assumption.
    split; [reflexivity|]. split; [apply hill_raw_range; assumption|].
    split; intros ->.
    + apply hill_raw_at_0.
    + apply hill_raw_at_EC50; assumption.
Qed.

Lemma X8_witness :
  exists E,
    PD.hill_equation [0; 50; 200] 25 50 1 = Ok E
    /\ Forall2 (fun c e => e = hill_raw 25 50 1 c
                           /\ 0 <= e <= 25
                           /\ (c = 0 -> e = 0)
                           /\ (c = 50 -> e = 25 / 2)) [0; 50; 200] E.
Proof.
  apply (X8_hill_clip_never_binds 25 50 1 [0; 50; 200]); try lra.
  repeat constructor; lra.
Defined.

Lemma delta_of_length (p : PD.hill_params) (conc : list R) :
  length (delta_of p conc) = length conc.
Proof. unfold delta_of. rewrite !length_map. reflexivity. Qed.

Lemma delta_of_range (p : PD.hill_params) (conc : list R) :
  valid_hill p -> 0 <= PD.Emax p ->
  Forall (fun d => - PD.Emax p <= d <= 0) (delta_of p conc).
Proof.
  intros [HK Hg] HE. unfold delta_of. apply Forall_forall. intros d Hd.
  apply list_elem_of_fmap in Hd as (x & -> & Hx).
  apply list_elem_of_fmap in Hx as (c & -> & _).
  rewrite hill_curve_raw by assumption.
  assert (0 <= hill_raw (PD.Emax p) (PD.EC50 p) (PD.gamma p) c
          <= PD.Emax p) by (apply hill_raw_range; assumption).
  lra.
Qed.

(** X9.  On a non-empty series of non-negative concentrations, with valid
    Hill parameters and non-negative maximal effects, the PD engine returns
    effects on the time axis of the concentration record; each of the five
    delta series has one value per concentration sample, and every delta is
    a reduction bounded by its endpoint's [Emax]: it lies in [[-Emax, 0]]. *)
Theorem X9_effects_shape_and_range (self : PD.PDModel) (b : PatientBaseline)
    (dc : DrugConcentration) :
  valid_params (PD.params self) -> nonneg_Emax (PD.params self) ->
  Forall (fun c => 0 <= c) (concentration_mg_L dc) ->
  concentration_mg_L dc <> [] ->
  let p := PD.params self in
  let n := length (concentration_mg_L dc) in
  let within (h : PD.hill_params) (series : list R) :=
    length series = n /\ Forall (fun d => - PD.Emax h <= d <= 0) series in
  exists e,
    PD.compute_effects self b dc = Ok e
    /\ pe_time_hours e = dc_time_hours dc
    /\ within (PD.HR p) (delta_hr e)
    /\ within (PD.SBP p) (delta_sbp e)
    /\ within (PD.DBP p) (delta_dbp e)
    /\ within (PD.contractility p) (delta_contractility e)
    /\ within (PD.vascular_resistance p) (delta_vascular_resistance e).
Proof.
  intros Hv HE Hpos Hne p n within.
  destruct (compute_effects_closed self b dc Hv Hpos Hne)
    as (e & He & D1 & D2 & D3 & D4 & D5 & Ht).
  destruct Hv as (V1 & V2 & V3 & V4 & V5).
  destruct HE as (E1 & E2 & E3 & E4 & E5).
  exists e. split; [exact He|]. split; [exact Ht|].
  unfold within, n, p. rewrite D1, D2, D3, D4, D5.
  repeat split; try apply delta_of_length; apply delta_of_range; assumption.
Qed.

Lemma scenario2_valid : valid_params (PD.params scenario2_engine).
Proof. repeat split; simpl; lra. Qed.

Lemma scenario2_nonneg : nonneg_Emax (PD.params scenario2_engine).
Proof. repeat split; simpl; lra. Qed.

Lemma scenario2_conc_nonneg :
  Forall (fun c => 0 <= c) (concentration_mg_L scenario2_concentration).
Proof. repeat constructor; lra. Qed.

Lemma X9_witness :
  exists e,
    PD.compute_effects scenario2_engine scenario2_baseline scenario2_concentration
    = Ok e
    /\ length (delta_hr e) = 3%nat
    /\ Forall (fun d => - 25 <= d <= 0) (delta_hr e).
Proof.
  destruct (X9_effects_shape_and_range scenario2_engine scenario2_baseline
              scenario2_concentration scenario2_valid scenario2_nonneg
              scenario2_conc_nonneg ltac:(discriminate))
    as (e & He & _ & [Hlen Hr] & _).
  exists e. split; [exact He|]. split; [exact Hlen|exact Hr].
Defined.

Lemma compute_effects_flags (self : PD.PDModel) (b : PatientBaseline)
    (dc : DrugConcentration) (e : PhysiologicalEffects) :
  PD.compute_effects self b dc = Ok e ->
  exists dhr dsbp,
    last (delta_hr e) = Some dhr /\ last (delta_sbp e) = Some dsbp
    /\ bradycardia_risk e = bool_decide (hr_baseline b + dhr < 60)
    /\ hypotension_risk e = bool_decide (sbp_baseline b + dsbp < 90).
Proof.
  intros H. unfold PD.compute_effects in H.
  apply bind_Ok_inv in H as (r1 & _ & H).
  apply bind_Ok_inv in H as (r2 & _ & H).
  apply bind_Ok_inv in H as (r3 & _ & H).
  apply bind_Ok_inv in H as (r4 & _ & H).
  apply bind_Ok_inv in H as (r5 & _ & H). cbv zeta in H.
  apply bind_Ok_inv in H as (dhr & Hdhr & H).
  apply bind_Ok_inv in H as (dsbp & Hdsbp & H).
  apply Ok_inj in H. subst e. cbn.
  exists dhr, dsbp. apply last_item_Ok in Hdhr, Hdsbp. auto.
Qed.

Lemma compute_effects_deltas (self : PD.PDModel) (b : PatientBaseline)
    (dc : DrugConcentration) (e : PhysiologicalEffects) :
  valid_params (PD.params self) ->
  Forall (fun c => 0 <= c) (concentration_mg_L dc) ->
  PD.compute_effects self b dc = Ok e ->
  delta_hr e = delta_of (PD.HR (PD.params self)) (concentration_mg_L dc)
  /\ delta_sbp e = delta_of (PD.SBP (PD.params self)) (concentration_mg_L dc).
Proof.
  intros (H1 & H2 & H3 & H4 & H5) Hpos H.
  assert (Hng : Forall (fun c => 0 <= c)
                  (map (fun c => c * 1000.0) (concentration_mg_L dc))).
  { rewrite Forall_forall in Hpos |- *. intros x Hx.
    apply list_elem_of_fmap in Hx as (c & -> & Hc). specialize (Hpos c Hc). lra. }
  unfold PD.compute_effects in H.
  rewrite !hill_with_curve in H by assumption. cbn [bind] in H. cbv zeta in H.
  apply bind_Ok_inv in H as (dhr & _ & H).
  apply bind_Ok_inv in H as (dsbp & _ & H).
  apply Ok_inj in H. subst e. split; reflexivity.
Qed.

Lemma last_Forall (P : R -> Prop) (l : list R) (x : R) :
  Forall P l -> last l = Some x -> P x.
Proof.
  intros HP Hl. rewrite Forall_forall in HP.
  apply HP, list_elem_of_In, last_In, Hl.
Qed.

(** X10.  Because every delta is a reduction of at most [Emax], the safety
    flags of the PD engine are decided by the baseline alone outside a band
    of width [Emax]: a baseline heart rate below 60 is always flagged as
    bradycardia and one of at least [60 + Emax_HR] never is; a baseline
    systolic pressure below 90 is always flagged as hypotension and one of
    at least [90 + Emax_SBP] never is. *)
Theorem X10_flags_follow_baseline (self : PD.PDModel) (b : PatientBaseline)
    (dc : DrugConcentration) (e : PhysiologicalEffects) :
  valid_params (PD.params self) -> nonneg_Emax (PD.params self) ->
  Forall (fun c => 0 <= c) (concentration_mg_L dc) ->
  PD.compute_effects self b dc = Ok e ->
  (hr_baseline b < 60 -> bradycardia_risk e = true)
  /\ (60 + PD.Emax (PD.HR (PD.params self)) <= hr_baseline b ->
      bradycardia_risk e = false)
  /\ (sbp_baseline b < 90 -> hypotension_risk e = true)
  /\ (90 + PD.Emax (PD.SBP (PD.params self)) <= sbp_baseline b ->
      hypotension_risk e = false).
Proof.
  intros Hv HE Hpos He.
  destruct (compute_effects_flags self b dc e He)
    as (dhr & dsbp & Hdhr & Hdsbp & -> & ->).
  destruct (compute_effects_deltas self b dc e Hv Hpos He) as (Hhr & Hsbp).
  destruct Hv as (V1 & V2 & _). destruct HE as (E1 & E2 & _).
  rewrite Hhr in Hdhr. rewrite Hsbp in Hdsbp.
  pose proof (last_Forall _ _ dhr
                (delta_of_range _ (concentration_mg_L dc) V1 E1) Hdhr) as R1.
  pose proof (last_Forall _ _ dsbp
                (delta_of_range _ (concentration_mg_L dc) V2 E2) Hdsbp) as R2.
  cbv beta in R1, R2.
  repeat split; intros Hb.
  - apply bool_decide_eq_true. lra.
  - apply bool_decide_eq_false. lra.
  - apply bool_decide_eq_true. lra.
  - apply bool_decide_eq_false. lra.
Qed.

Lemma X10_witness :
  exists e,
    PD.compute_effects scenario2_engine scenario2_baseline scenario2_concentration
    = Ok e
    /\ hypotension_risk e = false.
Proof.
  destruct (compute_effects_closed scenario2_engine scenario2_baseline
              scenario2_concentration scenario2_valid scenario2_conc_nonneg
              ltac:(discriminate)) as (e & He & _).
  exists e. split; [exact He|].
  apply (X10_flags_follow_baseline scenario2_engine scenario2_baseline
           scenario2_concentration e scenario2_valid scenario2_nonneg
           scenario2_conc_nonneg He).
  simpl. lra.
Defined.

Lemma hill_with_nil (p : PD.hill_params) (r : list R) :
  PD.hill_with [] p = Ok r -> r = [].
Proof.
  unfold PD.hill_with, PD.hill_equation. intros H.
  apply bind_Ok_inv in H as (k & _ & H). simpl in H.
  apply Ok_inj in H. congruence.
Qed.

(** X11.  A concentration record without samples has no final timestep:
    the PD engine never returns effects for it, and with valid Hill
    parameters the failure is the [IndexError] of [delta_hr[-1]]. *)
Theorem X11_empty_profile_has_no_effects (self : PD.PDModel) (b : PatientBaseline)
    (dc : DrugConcentration) :
  concentration_mg_L dc = [] ->
  (forall e, PD.compute_effects self b dc <> Ok e)
  /\ (valid_params (PD.params self) ->
      PD.compute_effects self b dc = Raise IndexError).
Proof.
  intros Hnil. split.
  - intros e He. unfold PD.compute_effects in He. rewrite Hnil in He.
    apply bind_Ok_inv in He as (r1 & Hr1 & He).
    apply hill_with_nil in Hr1. subst r1.
    apply bind_Ok_inv in He as (r2 & _ & He).
    apply bind_Ok_inv in He as (r3 & _ & He).
    apply bind_Ok_inv in He as (r4 & _ & He).
    apply bind_Ok_inv in He as (r5 & _ & He).
    discriminate He.
  - intros (H1 & H2 & H3 & H4 & H5).
    unfold PD.compute_effects. rewrite Hnil.
    rewrite !hill_with_curve by (assumption || constructor). reflexivity.
Qed.

Lemma X11_witness :
  PD.compute_effects scenario2_engine scenario2_baseline empty_concentration
  = Raise IndexError.
Proof.
  apply (X11_empty_profile_has_no_effects scenario2_engine scenario2_baseline
           empty_concentration eq_refl).
  exact scenario2_valid.
Defined.

(** ** Fitting the PD parameters *)

Lemma np_clip_within (a lo hi : R) : lo <= hi -> lo <= np_clip a lo hi <= hi.
Proof.
  intros H. unfold np_clip, Rmin, Rmax.
  destruct (Rle_dec a lo);
    match goal with |- context [Rle_dec ?x ?y] => destruct (Rle_dec x y) end; lra.
Qed.

Lemma fold_left_Rmin_In (l : list R) (x : R) : In (fold_left Rmin l x) (x :: l).
Proof.
  revert x. induction l as [|y l IH]; intros x; simpl.
  - left. reflexivity.
  - destruct (IH (Rmin x y)) as [H|H].
    + rewrite <- H. unfold Rmin. destruct (Rle_dec x y); auto.
    + right. right. exact H.
Qed.

Lemma filter_nonempty {A : Type} (P : A -> Prop) `{forall a, Decision (P a)}
    (l : list A) (a : A) :
  In a l -> P a -> filter P l <> [].
Proof.
  intros Hin HP Hnil.
  assert (Ha : a ∈ filter P l).
  { apply list_elem_of_filter. split; [exact HP|]. apply list_elem_of_In, Hin. }
  rewrite Hnil in Ha. inversion Ha.
Qed.

Lemma baseline_rows_nonempty (df : list PDFit.observation) :
  df <> [] -> PDFit.baseline_rows df <> [].
Proof.
  intros Hdf. unfold PDFit.baseline_rows.
  destruct (decide (length (filter (fun r => PDFit.Concentration_ng_mL r < 10) df)
                    = 0%nat)) as [_|Hlow].
  - destruct df as [|r df]; [congruence|]. simpl PDFit.series_min.
    destruct (fold_left_Rmin_In (map PDFit.Concentration_ng_mL df)
                (PDFit.Concentration_ng_mL r)) as [Hm|Hm].
    + apply (filter_nonempty _ _ r); [left; reflexivity|exact Hm].
    + apply in_map_iff in Hm as (r' & Hr' & Hin).
      apply (filter_nonempty _ _ r'); [right; exact Hin|exact Hr'].
  - intros Hnil. rewrite Hnil in Hlow. simpl in Hlow. congruence.
Qed.

Lemma mean_nonempty (l : list R) :
  l <> [] -> PDFit.mean l = Ok (PK.Rsum l / INR (length l)).
Proof.
  intros Hl. unfold PDFit.mean. apply np_div_nonzero.
  apply not_0_INR. destruct l; [congruence|discriminate].
Qed.

Section FitBounds.

Variable np_median : list R -> R.
Variable curve_fit : list R -> list R -> R * R * R -> option (R * R * R).
Hypothesis fit_within : PDFit.within_bounds curve_fit.

Lemma fit_hill_equation_bounds (C y : list R) :
  length C = length y -> y <> [] ->
  exists p, PDFit.fit_hill_equation np_median curve_fit C y = Ok p
            /\ 0 <= PD.Emax p <= 300 /\ 0.1 <= PD.EC50 p <= 2000
            /\ 0.1 <= PD.gamma p <= 10 /\ PD.baseline p = None.
Proof.
  intros Hlen Hy. unfold PDFit.fit_hill_equation.
  destruct y as [|y0 y]; [congruence|].
  cbn [np_max bind]. unfold PDFit.mask.
  rewrite length_map.
  destruct (decide (length C = length (y0 :: y))) as [_|Hn]; [|contradiction].
  cbn [bind]. cbv zeta.
  match goal with
  | |- context [curve_fit ?a ?b ?c] => destruct (curve_fit a b c) as [[[E K] g]|] eqn:Hfit
  end.
  - destruct (fit_within _ _ _ _ _ _ Hfit) as (HE & HK & Hg).
    eexists. split; [reflexivity|]. simpl. auto.
  - eexists. split; [reflexivity|]. cbn [PD.hp PD.Emax PD.EC50 PD.gamma PD.baseline].
    match goal with
    | |- (0 <= np_clip ?a ?lo ?hi <= _) /\ (_ <= np_clip ?b ?lo' ?hi' <= _) /\ _ =>
        pose proof (np_clip_within a lo hi ltac:(lra));
        pose proof (np_clip_within b lo' hi' ltac:(lra))
    end.
    repeat split; try lra.
Qed.

Lemma fit_endpoint_bounds (C column : list R) (b : R) :
  length C = length column -> column <> [] ->
  exists p, PDFit.fit_endpoint np_median curve_fit C (Ok b) column = Ok p
            /\ 0 <= PD.Emax p <= 300 /\ 0.1 <= PD.EC50 p <= 2000
            /\ 0.1 <= PD.gamma p <= 10 /\ PD.baseline p = Some b.
Proof.
  intros Hlen Hcol. unfold PDFit.fit_endpoint.
  rewrite (mapM_pure _ (fun v => Rmax (b - v) 0)) by reflexivity.
  cbn [bind].
  destruct (fit_hill_equation_bounds C (map (fun v => Rmax (b - v) 0) column))
    as (p & -> & HE & HK & Hg & _).
  - rewrite length_map. exact Hlen.
  - destruct column; [congruence|discriminate].
  - cbn [bind]. eexists. split; [reflexivity|]. simpl. auto.
Qed.

Lemma fit_endpoint_empty (baseline0 : result R) :
  exists msg, PDFit.fit_endpoint np_median curve_fit [] baseline0 []
              = Raise (ValueError msg).
Proof. eexists. reflexivity. Qed.

End FitBounds.

Section Calibration.

Variable read_csv : string -> result (list PDFit.observation).
Variable np_median : list R -> R.
Variable curve_fit : list R -> list R -> R * R * R -> option (R * R * R).
Variable csv_path : string.
Variable df : list PDFit.observation.
Hypothesis fit_within : PDFit.within_bounds curve_fit.
Hypothesis file_rows : read_csv csv_path = Ok df.

Lemma fit_from_csv_no_rows :
  df = [] ->
  exists msg, PDFit.fit_from_csv read_csv np_median curve_fit csv_path
              = Raise (ValueError msg).
Proof.
  intros Hnil. unfold PDFit.fit_from_csv. rewrite file_rows, Hnil.
  cbn [bind]. cbv zeta. cbn [map].
  destruct (fit_endpoint_empty np_median curve_fit
              (PDFit.mean (map PDFit.Heart_Rate_bpm (PDFit.baseline_rows []))))
    as (msg & ->).
  exists msg. reflexivity.
Qed.

Lemma fit_from_csv_rows :
  df <> [] ->
  exists p,
    PDFit.fit_from_csv read_csv np_median curve_fit csv_path = Ok p
    /\ valid_params p /\ nonneg_Emax p
    /\ Forall (fun h => PD.Emax h <= 300 /\ 0.1 <= PD.EC50 h <= 2000
                        /\ 0.1 <= PD.gamma h <= 10)
              [PD.HR p; PD.SBP p; PD.DBP p]
    /\ PD.contractility p
       = PD.hp (PD.Emax (PD.HR p) / 100.0) (PD.EC50 (PD.HR p))
               (PD.gamma (PD.HR p)) None
    /\ PD.vascular_resistance p
       = PD.hp (PD.Emax (PD.SBP p) / 100.0) (PD.EC50 (PD.SBP p))
               (PD.gamma (PD.SBP p)) None.
Proof.
  intros Hdf. unfold PDFit.fit_from_csv. rewrite file_rows. cbn [bind]. cbv zeta.
  pose proof (baseline_rows_nonempty df Hdf) as Hb.
  assert (Hcol : forall f : PDFit.observation -> R, map f df <> []).
  { intros f. destruct df; [congruence|discriminate]. }
  assert (Hbcol : forall f : PDFit.observation -> R,
             map f (PDFit.baseline_rows df) <> []).
  { intros f. destruct (PDFit.baseline_rows df); [congruence|discriminate]. }
  rewrite !mean_nonempty by apply Hbcol.
  destruct (fit_endpoint_bounds np_median curve_fit fit_within
              (map PDFit.Concentration_ng_mL df) (map PDFit.Heart_Rate_bpm df)
              (PK.Rsum (map PDFit.Heart_Rate_bpm (PDFit.baseline_rows df))
               / INR (length (map PDFit.Heart_Rate_bpm (PDFit.baseline_rows df)))))
    as (p1 & -> & E1 & K1 & G1 & _); [rewrite !length_map; reflexivity|apply Hcol|].
  cbn [bind].
  destruct (fit_endpoint_bounds np_median curve_fit fit_within
              (map PDFit.Concentration_ng_mL df) (map PDFit.Systolic_BP_mmHg df)
              (PK.Rsum (map PDFit.Systolic_BP_mmHg (PDFit.baseline_rows df))
               / INR (length (map PDFit.Systolic_BP_mmHg (PDFit.baseline_rows df)))))
    as (p2 & -> & E2 & K2 & G2 & _); [rewrite !length_map; reflexivity|apply Hcol|].
  cbn [bind].
  destruct (fit_endpoint_bounds np_median curve_fit fit_within
              (map PDFit.Concentration_ng_mL df) (map PDFit.Diastolic_BP_mmHg df)
              (PK.Rsum (map PDFit.Diastolic_BP_mmHg (PDFit.baseline_rows df))
               / INR (length (map PDFit.Diastolic_BP_mmHg (PDFit.baseline_rows df)))))
    as (p3 & -> & E3 & K3 & G3 & _); [rewrite !length_map; reflexivity|apply Hcol|].
  cbn [bind].
  eexists. split; [reflexivity|].
  cbn [PD.HR PD.SBP PD.DBP PD.contractility PD.vascular_resistance].
  split; [|split; [|split; [|split; reflexivity]]].
  - unfold valid_params, valid_hill; simpl. repeat split; lra.
  - unfold nonneg_Emax; simpl. repeat split; lra.
  - repeat (apply Forall_cons; split; [lra|]). apply Forall_nil. exact I.
Qed.

End Calibration.

(** X12.  Calibration from a dose-response file, with a curve fit that
    respects its bounds: for a file with at least one row [_fit_from_csv]
    returns parameters whatever the fit does (a failed fit falls back to the
    clipped initial guesses), with [0 <= Emax <= 300], [0.1 <= EC50 <= 2000]
    and [0.1 <= gamma <= 10] for heart rate and both pressures, so that they
    are valid Hill parameters; contractility and vascular resistance take
    [EC50] and [gamma] from heart rate and systolic pressure and one
    hundredth of their [Emax].  A file without rows raises [ValueError]. *)
Theorem X12_fit_from_csv_bounds
    (read_csv : string -> result (list PDFit.observation))
    (np_median : list R -> R)
    (curve_fit : list R -> list R -> R * R * R -> option (R * R * R))
    (csv_path : string) (df : list PDFit.observation) :
  PDFit.within_bounds curve_fit -> read_csv csv_path = Ok df ->
  (df = [] ->
   exists msg, PDFit.fit_from_csv read_csv np_median curve_fit csv_path
               = Raise (ValueError msg))
  /\ (df <> [] ->
      exists p,
        PDFit.fit_from_csv read_csv np_median curve_fit csv_path = Ok p
        /\ valid_params p /\ nonneg_Emax p
        /\ Forall (fun h => PD.Emax h <= 300 /\ 0.1 <= PD.EC50 h <= 2000
                            /\ 0.1 <= PD.gamma h <= 10)
                  [PD.HR p; PD.SBP p; PD.DBP p]
        /\ PD.contractility p
           = PD.hp (PD.Emax (PD.HR p) / 100.0) (PD.EC50 (PD.HR p))
                   (PD.gamma (PD.HR p)) None
        /\ PD.vascular_resistance p
           = PD.hp (PD.Emax (PD.SBP p) / 100.0) (PD.EC50 (PD.SBP p))
                   (PD.gamma (PD.SBP p)) None).
Proof.
  intros Hfit Hread. split; intros Hdf.
  - eapply fit_from_csv_no_rows; eassumption.
  - eapply fit_from_csv_rows; eassumption.
Qed.

Lemma fit_fails_within : PDFit.within_bounds fit_fails.
Proof. intros C y p0 E K g H. discriminate H. Qed.

Lemma X12_witness :
  exists p, PDFit.fit_from_csv read_three middle fit_fails "pd.csv" = Ok p
            /\ valid_params p /\ nonneg_Emax p.
Proof.
  destruct (proj2 (X12_fit_from_csv_bounds read_three middle fit_fails "pd.csv"
                     three_rows fit_fails_within eq_refl))
    as (p & Hp & Hv & Hn & _); [discriminate|].
  exists p. split; [exact Hp|]. split; assumption.
Defined.

(** X13.  Constructing the PD engine with a calibration file that exists:
    the drug name is only lower-cased, never looked up, so any name is
    accepted; a file with at least one row always gives an engine, and that
    engine returns effects for every non-empty series of non-negative
    concentrations; a file without rows makes the construction itself raise
    [ValueError], with no fall-back to the default parameters. *)
Theorem X13_calibrated_engine
    (path_exists : string -> bool)
    (read_csv : string -> result (list PDFit.observation))
    (np_median : list R -> R)
    (curve_fit : list R -> list R -> R * R * R -> option (R * R * R))
    (drug_name0 csv_path : string) (df : list PDFit.observation) :
  PDFit.within_bounds curve_fit -> read_csv csv_path = Ok df ->
  csv_path <> "" -> path_exists csv_path = true ->
  let construct :=
    PD.init path_exists (PDFit.fit_from_csv read_csv np_median curve_fit)
            drug_name0 (Some csv_path) in
  (df = [] -> exists msg, construct = Raise (ValueError msg))
  /\ (df <> [] ->
      exists engine,
        construct = Ok engine
        /\ PD.drug_name engine = lower drug_name0
        /\ forall b dc,
             Forall (fun c => 0 <= c) (concentration_mg_L dc) ->
             concentration_mg_L dc <> [] ->
             exists e, PD.compute_effects engine b dc = Ok e).
Proof.
  intros Hfit Hread Hpath Hexists construct. unfold construct, PD.init.
  assert (Hne : String.eqb csv_path "" = false) by (apply String.eqb_neq; exact Hpath).
  rewrite Hne, Hexists. cbn [negb andb]. split; intros Hdf.
  - destruct (fit_from_csv_no_rows read_csv np_median curve_fit csv_path df
                Hread Hdf) as (msg & ->).
    exists msg. reflexivity.
  - destruct (fit_from_csv_rows read_csv np_median curve_fit csv_path df
                Hfit Hread Hdf) as (p & -> & Hv & _).
    cbn [bind]. eexists. split; [reflexivity|]. split; [reflexivity|].
    intros b dc Hpos Hnonempty.
    destruct (compute_effects_closed
                {| PD.drug_name := lower drug_name0; PD.params := p |}
                b dc Hv Hpos Hnonempty) as (e & He & _).
    exists e. exact He.
Qed.

Lemma X13_witness :
  exists engine,
    PD.init any_file (PDFit.fit_from_csv read_three middle fit_fails)
            "NewDrug" (Some "pd.csv") = Ok engine
    /\ PD.drug_name engine = "newdrug".
Proof.
  destruct (proj2 (X13_calibrated_engine any_file read_three middle fit_fails
                     "NewDrug" "pd.csv" three_rows fit_fails_within eq_refl
                     ltac:(discriminate) eq_refl))
    as (engine & Hinit & Hname & _); [discriminate|].
  exists engine. split; [exact Hinit|exact Hname].
Defined.

(** ** Effect propagation: what a returned trajectory contains *)

Lemma simulate_with_effects_inv (b : PatientBaseline) (e : PhysiologicalEffects)
    (traj : SimulationTrajectory) :
  ODE.simulate_with_effects b e = Ok traj ->
  st_time_hours traj = pe_time_hours e
  /\ heart_rate traj = ODE.hr_series b e
  /\ systolic_bp traj = ODE.sbp_series b e
  /\ diastolic_bp traj = ODE.dbp_series b e
  /\ ODE.co_series b e = Ok (st_cardiac_output traj)
  /\ ODE.ef_series b e = Ok (st_ejection_fraction traj)
  /\ ODE.stroke_volume_series (st_cardiac_output traj) (heart_rate traj)
     = Ok (stroke_volume traj)
  /\ ODE.map_series (systolic_bp traj) (diastolic_bp traj)
     = Ok (mean_arterial_pressure traj)
  /\ ODE.percent_change (heart_rate traj) (hr_baseline b)
     = Ok (hr_percent_change traj)
  /\ ODE.percent_change (systolic_bp traj) (sbp_baseline b)
     = Ok (bp_percent_change traj)
  /\ exists brady hypo,
       ODE.adverse (bradycardia_risk e) (heart_rate traj) 60 BradycardiaRisk
       = Ok brady
       /\ ODE.adverse (hypotension_risk e) (systolic_bp traj) 90 HypotensionRisk
          = Ok hypo
       /\ adverse_events traj = brady ++ hypo.
Proof.
  intros H. unfold ODE.simulate_with_effects in H. cbv zeta in H.
  apply bind_Ok_inv in H as (cos & Hco & H).
  apply bind_Ok_inv in H as (efs & Hef & H).
  apply bind_Ok_inv in H as (svs & Hsv & H).
  apply bind_Ok_inv in H as (maps & Hmap & H).
  apply bind_Ok_inv in H as (hpc & Hhpc & H).
  apply bind_Ok_inv in H as (bpc & Hbpc & H).
  apply bind_Ok_inv in H as (brady & Hbrady & H).
  apply bind_Ok_inv in H as (hypo & Hhypo & H).
  apply bind_Ok_inv in H as (summary & _ & H).
  apply Ok_inj in H. subst traj.
  cbn [st_time_hours heart_rate systolic_bp diastolic_bp st_cardiac_output
       st_ejection_fraction stroke_volume mean_arterial_pressure
       hr_percent_change bp_percent_change adverse_events].
  repeat (split; [assumption || reflexivity|]).
  exists brady, hypo. auto.
Qed.

Lemma fold_left_Rmin_le_init (l : list R) (x : R) : fold_left Rmin l x <= x.
Proof.
  revert x. induction l as [|y l IH]; intros x; simpl; [lra|].
  eapply Rle_trans; [apply IH|apply Rmin_l].
Qed.

Lemma fold_left_Rmin_le (l : list R) (x y : R) : In y l -> fold_left Rmin l x <= y.
Proof.
  revert x. induction l as [|z l IH]; intros x Hin; simpl; [destruct Hin|].
  destruct Hin as [->|Hin]; [|apply IH; exact Hin].
  eapply Rle_trans; [apply fold_left_Rmin_le_init|apply Rmin_r].
Qed.

(** [np.min] is a least element of the array. *)
Lemma np_min_spec (l : list R) (m : R) :
  np_min l = Ok m -> In m l /\ forall y, In y l -> m <= y.
Proof.
  destruct l as [|x l]; [discriminate|]. simpl. intros H.
  apply Ok_inj in H. subst m. split; [apply fold_left_Rmin_In|].
  intros y [<-|Hy]; [apply fold_left_Rmin_le_init|apply fold_left_Rmin_le, Hy].
Qed.

Lemma np_min_below (l : list R) (m limit : R) :
  np_min l = Ok m -> (m < limit <-> Exists (fun y => y < limit) l).
Proof.
  intros H. destruct (np_min_spec l m H) as [Hin Hle]. split.
  - intros Hm. apply Exists_exists. exists m. split; [apply list_elem_of_In, Hin|exact Hm].
  - intros Hex. apply Exists_exists in Hex as (y & Hy & Hlt).
    apply list_elem_of_In in Hy. specialize (Hle y Hy). lra.
Qed.

(** The events one check of [simulate_with_effects] appends: none, or one
    message carrying the minimum of the series; one exactly when the PD flag
    is set or some sample is below the limit. *)
Lemma adverse_spec (flag : bool) (series : list R) (limit : R)
    (msg : R -> adverse_event) (events : list adverse_event) :
  ODE.adverse flag series limit msg = Ok events ->
  (events = [] /\ flag = false /\ Forall (fun y => limit <= y) series)
  \/ (exists m, events = [msg m] /\ np_min series = Ok m
                /\ (flag = true \/ Exists (fun y => y < limit) series)).
Proof.
  unfold ODE.adverse. intros H.
  destruct flag.
  - cbn [bind] in H. apply bind_Ok_inv in H as (m & Hm & H).
    apply Ok_inj in H. right. exists m. auto.
  - apply bind_Ok_inv in H as (hit & Hhit & H).
    apply bind_Ok_inv in Hhit as (m & Hm & Hhit). apply Ok_inj in Hhit. subst hit.
    destruct (bool_decide (m < limit)) eqn:Hb.
    + apply bool_decide_eq_true in Hb.
      apply bind_Ok_inv in H as (m' & Hm' & H). apply Ok_inj in H.
      right. exists m'. split; [auto|]. split; [exact Hm'|]. right.
      apply (np_min_below series m limit Hm). exact Hb.
    + apply bool_decide_eq_false in Hb. apply Ok_inj in H. left.
      split; [auto|]. split; [reflexivity|].
      apply Forall_forall. intros y Hy. apply list_elem_of_In in Hy.
      destruct (np_min_spec series m Hm) as [_ Hle]. specialize (Hle y Hy). lra.
Qed.

Lemma adverse_events_nil_iff (b : PatientBaseline) (e : PhysiologicalEffects)
    (traj : SimulationTrajectory) :
  ODE.simulate_with_effects b e = Ok traj ->
  adverse_events traj = [] <->
  bradycardia_risk e = false /\ hypotension_risk e = false
  /\ Forall (fun h => 60 <= h) (heart_rate traj)
  /\ Forall (fun s => 90 <= s) (systolic_bp traj).
Proof.
  intros H.
  destruct (simulate_with_effects_inv b e traj H)
    as (_ & _ & _ & _ & _ & _ & _ & _ & _ & _ & brady & hypo & Hb & Hh & Hev).
  pose proof (adverse_spec _ _ _ _ _ Hb) as Sb.
  pose proof (adverse_spec _ _ _ _ _ Hh) as Sh.
  rewrite Hev. split.
  - intros Hnil. apply app_eq_nil in Hnil as [Hb0 Hh0].
    destruct Sb as [(_ & Fb & Ab)|(m & Hm & _)]; [|congruence].
    destruct Sh as [(_ & Fh & Ah)|(m & Hm & _)]; [|congruence].
    auto.
  - intros (Fb & Fh & Ab & Ah).
    destruct Sb as [(-> & _)|(m & _ & _ & [Hf|Hex])].
    + destruct Sh as [(-> & _)|(m & _ & _ & [Hf|Hex])]; [reflexivity|congruence|].
      exfalso. apply Exists_exists in Hex as (y & Hy & Hlt).
      rewrite Forall_forall in Ah. specialize (Ah y Hy). lra.
    + congruence.
    + exfalso. apply Exists_exists in Hex as (y & Hy & Hlt).
      rewrite Forall_forall in Ab. specialize (Ab y Hy). lra.
Qed.

(** X14.  In every trajectory [simulate_with_effects] returns, the list of
    adverse events holds at most a bradycardia message followed by at most
    a hypotension message, each carrying the minimum of its series.  The
    list is empty exactly when neither PD flag is set, no heart-rate sample
    is below 60 and no systolic sample is below 90. *)
Theorem X14_adverse_events_characterised (b : PatientBaseline)
    (e : PhysiologicalEffects) (traj : SimulationTrajectory) :
  ODE.simulate_with_effects b e = Ok traj ->
  (exists brady hypo,
     adverse_events traj = brady ++ hypo
     /\ (brady = []
         \/ exists m, brady = [BradycardiaRisk m]
                      /\ np_min (heart_rate traj) = Ok m)
     /\ (hypo = []
         \/ exists m, hypo = [HypotensionRisk m]
                      /\ np_min (systolic_bp traj) = Ok m))
  /\ (adverse_events traj = [] <->
      bradycardia_risk e = false /\ hypotension_risk e = false
      /\ Forall (fun h => 60 <= h) (heart_rate traj)
      /\ Forall (fun s => 90 <= s) (systolic_bp traj)).
Proof.
  intros H.
  destruct (simulate_with_effects_inv b e traj H)
    as (_ & _ & _ & _ & _ & _ & _ & _ & _ & _ & brady & hypo & Hb & Hh & Hev).
  pose proof (adverse_spec _ _ _ _ _ Hb) as Sb.
  pose proof (adverse_spec _ _ _ _ _ Hh) as Sh.
  split.
  - exists brady, hypo. split; [exact Hev|]. split.
    + destruct Sb as [(-> & _)|(m & -> & Hm & _)]; [left; reflexivity|].
      right. exists m. auto.
    + destruct Sh as [(-> & _)|(m & -> & Hm & _)]; [left; reflexivity|].
      right. exists m. auto.
  - apply (adverse_events_nil_iff b e traj H).
Qed.

Lemma arrest_trajectory :
  exists traj,
    ODE.simulate_with_effects default_baseline arrest_effects = Ok traj
    /\ heart_rate traj = [75.0 + -80; 75.0 + 0].
Proof.
  destruct (simulate_with_effects_closed default_baseline arrest_effects)
    as (traj & fh & fs & Hsim & Hhr & _);
    try (simpl; lra); try reflexivity; try discriminate.
  exists traj. split; [exact Hsim|]. rewrite Hhr. reflexivity.
Qed.

Lemma X14_witness :
  exists traj,
    ODE.simulate_with_effects default_baseline arrest_effects = Ok traj
    /\ adverse_events traj <> [].
Proof.
  destruct arrest_trajectory as (traj & Hsim & Hhr).
  exists traj. split; [exact Hsim|]. intros Hnil.
  apply (proj2 (X14_adverse_events_characterised default_baseline arrest_effects
                  traj Hsim)) in Hnil as (_ & _ & Hall & _).
  rewrite Hhr in Hall. apply Forall_cons in Hall as [Hfirst _]. lra.
Defined.

(** X15.  In every returned trajectory whose systolic and diastolic series
    have the same length, the mean arterial pressure has one value per
    timestep, equal to the diastolic value plus a third of the pulse
    pressure; wherever the diastolic value does not exceed the systolic one
    it lies between the two. *)
Theorem X15_map_between_pressures (b : PatientBaseline)
    (e : PhysiologicalEffects) (traj : SimulationTrajectory) :
  ODE.simulate_with_effects b e = Ok traj ->
  length (delta_sbp e) = length (delta_dbp e) ->
  length (mean_arterial_pressure traj) = length (systolic_bp traj)
  /\ forall i s d,
       systolic_bp traj !! i = Some s -> diastolic_bp traj !! i = Some d ->
       exists m, mean_arterial_pressure traj !! i = Some m
                 /\ m = d + (s - d) / 3.0
                 /\ (d <= s -> d <= m <= s).
Proof.
  intros H Hlen.
  destruct (simulate_with_effects_inv b e traj H)
    as (_ & _ & Hs & Hd & _ & _ & _ & Hmap & _).
  assert (Hl : length (systolic_bp traj) = length (diastolic_bp traj)).
  { rewrite Hs, Hd. unfold ODE.sbp_series, ODE.dbp_series.
    rewrite !length_map. exact Hlen. }
  rewrite map_series_closed in Hmap by exact Hl.
  apply Ok_inj in Hmap. rewrite <- Hmap. split.
  - rewrite !length_zip_with. lia.
  - intros i s d Hsi Hdi.
    exists (d + (s - d) / 3.0).
    rewrite !lookup_zip_with, Hdi, Hsi. cbn.
    split; [reflexivity|]. split; [reflexivity|]. intros Hle. lra.
Qed.

Lemma X15_witness :
  exists traj,
    ODE.simulate_with_effects default_baseline arrest_effects = Ok traj
    /\ length (mean_arterial_pressure traj) = length (systolic_bp traj).
Proof.
  destruct arrest_trajectory as (traj & Hsim & _).
  exists traj. split; [exact Hsim|].
  apply (X15_map_between_pressures default_baseline arrest_effects traj Hsim).
  reflexivity.
Defined.

(** ** From concentrations to the trajectory *)

Lemma shifted_range (base Emax0 : R) (deltas : list R) :
  Forall (fun d => - Emax0 <= d <= 0) deltas ->
  Forall (fun v => base - Emax0 <= v <= base) (map (fun d => base + d) deltas).
Proof.
  intros H. apply Forall_forall. intros v Hv.
  apply list_elem_of_fmap in Hv as (d & -> & Hd).
  rewrite Forall_forall in H. specialize (H d Hd). cbv beta in H. lra.
Qed.

(** X16.  The PD engine followed by effect propagation, on one baseline
    with non-zero heart rate, systolic pressure and contractility: for valid
    Hill parameters with non-negative [Emax] and a non-empty series of
    non-negative concentrations on a time axis of the same length, both
    stages return; the trajectory is on the time axis of the concentration
    record; every heart-rate, systolic and diastolic sample lies between
    baseline minus [Emax] and baseline; and the PD flags add nothing: there
    is no adverse event exactly when no heart-rate sample is below 60 and no
    systolic sample is below 90. *)
Theorem X16_effects_then_trajectory (self : PD.PDModel) (b : PatientBaseline)
    (dc : DrugConcentration) :
  valid_params (PD.params self) -> nonneg_Emax (PD.params self) ->
  Forall (fun c => 0 <= c) (concentration_mg_L dc) ->
  concentration_mg_L dc <> [] ->
  length (dc_time_hours dc) = length (concentration_mg_L dc) ->
  contractility b <> 0 -> hr_baseline b <> 0 -> sbp_baseline b <> 0 ->
  let p := PD.params self in
  exists e traj,
    PD.compute_effects self b dc = Ok e
    /\ ODE.simulate_with_effects b e = Ok traj
    /\ st_time_hours traj = dc_time_hours dc
    /\ Forall (fun h => hr_baseline b - PD.Emax (PD.HR p) <= h <= hr_baseline b)
              (heart_rate traj)
    /\ Forall (fun s => sbp_baseline b - PD.Emax (PD.SBP p) <= s <= sbp_baseline b)
              (systolic_bp traj)
    /\ Forall (fun d => dbp_baseline b - PD.Emax (PD.DBP p) <= d <= dbp_baseline b)
              (diastolic_bp traj)
    /\ (adverse_events traj = [] <->
        Forall (fun h => 60 <= h) (heart_rate traj)
        /\ Forall (fun s => 90 <= s) (systolic_bp traj)).
Proof.
  intros Hv HE Hpos Hne Hlen Hk Hhr Hsbp p.
  destruct (compute_effects_closed self b dc Hv Hpos Hne)
    as (e & He & D1 & D2 & D3 & D4 & D5 & Ht).
  destruct (simulate_with_effects_closed b e Hk Hhr Hsbp)
    as (traj & fh & fs & Hsim & Thr & Tsbp & Tdbp & _ & _ & _ & Lh & Ls & _).
  { rewrite D1. apply delta_of_nonempty. exact Hne. }
  { rewrite Ht, D1, delta_of_length. exact Hlen. }
  { rewrite D1, D2, !delta_of_length. reflexivity. }
  { rewrite D1, D3, !delta_of_length. reflexivity. }
  { rewrite D1, D4, !delta_of_length. reflexivity. }
  destruct Hv as (V1 & V2 & V3 & _). destruct HE as (E1 & E2 & E3 & _).
  exists e, traj. split; [exact He|]. split; [exact Hsim|].
  split.
  { destruct (simulate_with_effects_inv b e traj Hsim) as (Htt & _). congruence. }
  split.
  { rewrite Thr. unfold ODE.hr_series. rewrite D1.
    apply shifted_range, delta_of_range; assumption. }
  split.
  { rewrite Tsbp. unfold ODE.sbp_series. rewrite D2.
    apply shifted_range, delta_of_range; assumption. }
  split.
  { rewrite Tdbp. unfold ODE.dbp_series. rewrite D3.
    apply shifted_range, delta_of_range; assumption. }
  rewrite (adverse_events_nil_iff b e traj Hsim). split; [tauto|].
  intros [Ah As]. split; [|split; [|split; assumption]].
  - destruct (compute_effects_flags self b dc e He)
      as (dhr & dsbp & Hdhr & _ & -> & _).
    apply bool_decide_eq_false.
    assert (Hin : last (heart_rate traj) = Some (hr_baseline b + dhr)).
    { rewrite Thr. unfold ODE.hr_series. apply last_map_Some. exact Hdhr. }
    pose proof (last_Forall _ _ _ Ah Hin) as Hge. cbv beta in Hge. lra.
  - destruct (compute_effects_flags self b dc e He)
      as (dhr & dsbp & _ & Hdsbp & _ & ->).
    apply bool_decide_eq_false.
    assert (Hin : last (systolic_bp traj) = Some (sbp_baseline b + dsbp)).
    { rewrite Tsbp. unfold ODE.sbp_series. apply last_map_Some. exact Hdsbp. }
    pose proof (last_Forall _ _ _ As Hin) as Hge. cbv beta in Hge. lra.
Qed.

Lemma X16_witness :
  exists e traj,
    PD.compute_effects scenario2_engine scenario2_baseline scenario2_concentration
    = Ok e
    /\ ODE.simulate_with_effects scenario2_baseline e = Ok traj
    /\ Forall (fun h => 75 - 25 <= h <= 75) (heart_rate traj).
Proof.
  destruct (X16_effects_then_trajectory scenario2_engine scenario2_baseline
              scenario2_concentration scenario2_valid scenario2_nonneg
              scenario2_conc_nonneg)
    as (e & traj & He & Hsim & _ & Hrange & _);
    try discriminate; try reflexivity; try (simpl; lra).
  exists e, traj. split; [exact He|]. split; [exact Hsim|exact Hrange].
Defined.

(** ** Effect propagation on malformed effects *)

Lemma broadcast2_mismatch (f : R -> R -> result R) (xs ys : list R) :
  length xs <> length ys -> length xs <> 1%nat -> length ys <> 1%nat ->
  exists msg, broadcast2 f xs ys = Raise (ValueError msg).
Proof.
  intros Hne Hx Hy. unfold broadcast2.
  destruct (decide (length xs = length ys)); [contradiction|].
  destruct xs as [|x [|x' xs]]; destruct ys as [|y [|y' ys]];
    simpl in *; try congruence; eexists; reflexivity.
Qed.

(** X17.  Two ways effect propagation fails without a trajectory.  Effects
    with no timestep raise the [IndexError] of [hr_series[-1]].  With a
    non-zero baseline contractility, a contractility series whose length
    differs from that of the heart-rate series (neither of length 1) raises
    the [ValueError] of numpy broadcasting at the stroke volume. *)
Theorem X17_propagation_failures (b : PatientBaseline) (e : PhysiologicalEffects) :
  (delta_hr e = [] -> delta_sbp e = [] -> delta_dbp e = [] ->
   delta_contractility e = [] ->
   ODE.simulate_with_effects b e = Raise IndexError)
  /\ (contractility b <> 0 ->
      length (delta_contractility e) <> length (delta_hr e) ->
      length (delta_contractility e) <> 1%nat -> length (delta_hr e) <> 1%nat ->
      exists msg, ODE.simulate_with_effects b e = Raise (ValueError msg)).
Proof.
  split.
  - intros H1 H2 H3 H4.
    unfold ODE.simulate_with_effects, ODE.co_series, ODE.ef_series,
      ODE.scale_by_contractility, ODE.contractility_series,
      ODE.hr_series, ODE.sbp_series, ODE.dbp_series.
    rewrite H1, H2, H3, H4. reflexivity.
  - intros Hk Hlen Hc1 Hh1.
    unfold ODE.simulate_with_effects, ODE.co_series, ODE.ef_series.
    rewrite !scale_by_contractility_closed by exact Hk. cbn [bind].
    unfold ODE.stroke_volume_series.
    destruct (broadcast2_mismatch (fun c h => np_div (c * 1000.0) h)
                (map (fun d => cardiac_output b
                               * (contractility b * (1.0 + d) / contractility b))
                     (delta_contractility e))
                (ODE.hr_safe (ODE.hr_series b e))) as (msg & ->).
    + unfold ODE.hr_safe, ODE.hr_series. rewrite !length_map. exact Hlen.
    + rewrite length_map. exact Hc1.
    + unfold ODE.hr_safe, ODE.hr_series. rewrite !length_map. exact Hh1.
    + exists msg. reflexivity.
Qed.

Lemma X17_witness :
  ODE.simulate_with_effects default_baseline empty_effects = Raise IndexError
  /\ exists msg,
       ODE.simulate_with_effects default_baseline ragged_effects
       = Raise (ValueError msg).
Proof.
  split.
  - apply (proj1 (X17_propagation_failures default_baseline empty_effects));
      reflexivity.
  - apply (proj2 (X17_propagation_failures default_baseline ragged_effects));
      simpl; (lra || lia).
Defined.

(** ** The look-ahead of the 24-hour target *)

Lemma target_hr_pointwise (t hr : list R) :
  (length t <= length hr)%nat ->
  exists target,
    Orchestrator.target_hr t hr = Ok target
    /\ forall i ti, t !! i = Some ti ->
         exists idx v, nearest_to t (ti + 24) idx
                       /\ hr !! idx = Some v /\ target !! i = Some v.
Proof.
  intros Hlen.
  set (P := fun (ti v : R) =>
              exists idx, nearest_to t (ti + 24) idx /\ hr !! idx = Some v).
  destruct (mapM_Forall2
              (fun ti => let* idx := nearest_index t (ti + 24) in
                         get_item hr idx) P t) as (target & Ht & HF).
  { intros ti Hin.
    assert (Hne : t <> []) by (intros E; rewrite E in Hin; destruct Hin).
    destruct (nearest_sample t hr (ti + 24) Hne Hlen)
      as (idx & tn & v & Hidx & Htn & Hv & Hget & Hmin & Hfirst).
    exists v. rewrite Hidx. simpl. split; [exact Hget|].
    exists idx. split; [|exact Hv]. exists tn. auto. }
  exists target. split; [exact Ht|].
  intros i ti Hi.
  destruct (Forall2_lookup_l _ _ _ _ _ HF Hi) as (v & Hv & idx & Hn & Hhr).
  exists idx, v. auto.
Qed.

(** X18.  The target of a timestep is never a sample from the past and
    never one from more than 48 hours ahead: the sample chosen for [t_i] is
    taken at a time in [[t_i, t_i + 48]].  On an axis whose last time lies
    after all earlier ones, every timestep within 24 hours of the end gets
    the same target, the last heart-rate sample. *)
Theorem X18_target_window (t hr : list R) :
  (length t <= length hr)%nat ->
  exists target,
    Orchestrator.target_hr t hr = Ok target
    /\ (forall i ti, t !! i = Some ti ->
          exists idx tn v,
            t !! idx = Some tn /\ hr !! idx = Some v /\ target !! i = Some v
            /\ ti <= tn <= ti + 48)
    /\ (forall n tl,
          length t = S n -> t !! n = Some tl ->
          (forall k tk, (k < n)%nat -> t !! k = Some tk -> tk < tl) ->
          forall i ti, t !! i = Some ti -> tl <= ti + 24 ->
                       target !! i = hr !! n).
Proof.
  intros Hlen.
  destruct (target_hr_pointwise t hr Hlen) as (target & Ht & Hpoint).
  exists target. split; [exact Ht|]. split.
  - intros i ti Hi.
    destruct (Hpoint i ti Hi) as (idx & v & (tn & Htn & Hmin & _) & Hv & Htv).
    exists idx, tn, v. split; [exact Htn|]. split; [exact Hv|]. split; [exact Htv|].
    pose proof (Hmin i ti Hi) as Hnear. unfold Rabs in Hnear.
    destruct (Rcase_abs (tn - (ti + 24))); destruct (Rcase_abs (ti - (ti + 24))); lra.
  - intros n tl Hn Htl Hbefore i ti Hi Hend.
    destruct (Hpoint i ti Hi) as (idx & v & (tn & Htn & Hmin & _) & Hv & Htv).
    assert (Hidx : idx = n).
    { pose proof (lookup_lt_Some _ _ _ Htn) as Hlt. rewrite Hn in Hlt.
      destruct (decide (idx = n)) as [|Hneq]; [assumption|]. exfalso.
      assert (Hk : (idx < n)%nat) by lia.
      pose proof (Hbefore idx tn Hk Htn) as Hless.
      pose proof (Hmin n tl Htl) as Hnear. unfold Rabs in Hnear.
      destruct (Rcase_abs (tn - (ti + 24))); destruct (Rcase_abs (tl - (ti + 24))); lra. }
    subst idx. rewrite Hv, Htv. reflexivity.
Qed.

Lemma X18_witness :
  exists target,
    Orchestrator.target_hr sample_times sample_hr = Ok target
    /\ length target = length sample_times.
Proof.
  destruct (X18_target_window sample_times sample_hr) as (target & Ht & _).
  { simpl. lia. }
  exists target. split; [exact Ht|].
  unfold Orchestrator.target_hr in Ht. apply mapM_length in Ht. exact Ht.
Defined.

(** ** The full pipeline *)

Lemma registry_params (k : string) (p : PK.drug_params) :
  PK.DRUG_PARAMS !! k = Some p ->
  0 < PK.p_ka p /\ 0 < PK.p_ke p /\ PK.p_ka p <> PK.p_ke p
  /\ 0 < PK.p_F p /\ 0 < PK.p_Vd p.
Proof.
  unfold PK.DRUG_PARAMS. intros H.
  apply lookup_insert_Some in H as [[_ <-]|[_ H]]; [simpl; repeat split; lra|].
  apply lookup_insert_Some in H as [[_ <-]|[_ H]]; [simpl; repeat split; lra|].
  rewrite lookup_empty in H. discriminate.
Qed.

Lemma default_engine_valid (name : string) :
  valid_params (default PD.metoprolol_defaults (PD.default_params !! name))
  /\ nonneg_Emax (default PD.metoprolol_defaults (PD.default_params !! name)).
Proof.
  assert (Hm : valid_params PD.metoprolol_defaults
               /\ nonneg_Emax PD.metoprolol_defaults).
  { unfold valid_params, valid_hill, nonneg_Emax. simpl. repeat split; lra. }
  assert (Ha : valid_params PD.atenolol_defaults
               /\ nonneg_Emax PD.atenolol_defaults).
  { unfold valid_params, valid_hill, nonneg_Emax. simpl. repeat split; lra. }
  destruct (PD.default_params !! name) as [p|] eqn:E; [|exact Hm].
  unfold PD.default_params in E.
  apply lookup_insert_Some in E as [[_ <-]|[_ E]]; [exact Hm|].
  apply lookup_insert_Some in E as [[_ <-]|[_ E]]; [exact Ha|].
  rewrite lookup_empty in E. discriminate.
Qed.

Section PipelineReturns.

Variable DB_AVAILABLE : bool.
Variable db_first : string -> result (option DigitalTwinOrchestrator.Patient).
Variable str_of_int : Z -> string.
Variable int_of_string : string -> result Z.
Variable float_of_string : string -> result R.
Variable py_str : pyval -> string.
Variable np_interp : list R -> list R -> list R -> result (list R).
Variable np_gradient : list R -> list R -> result (list R).

Hypothesis interp_total : forall x xp fp, exists out, np_interp x xp fp = Ok out.
Hypothesis gradient_total : forall f x, exists out, np_gradient f x = Ok out.

Let run := DigitalTwinOrchestrator.run_full_simulation DB_AVAILABLE db_first
             str_of_int int_of_string float_of_string py_str np_interp np_gradient.
Let merged := DigitalTwinOrchestrator.merged_params DB_AVAILABLE db_first str_of_int.

(** The five stages in a row, for a mapping the initializer accepts with
    non-zero heart rate and systolic pressure, a positive weight and dose,
    and a drug of the registry. *)
Lemma pipeline_returns (patient_params : option (gmap string pyval))
    (patient_id : option string) (drug_name : string) (dose_mg : R)
    (duration_hours : option R) (ode : ODE.CardiovascularODE) (w : R)
    (p : PK.drug_params) :
  merged patient_params patient_id <> ∅ ->
  ODE.init int_of_string float_of_string py_str (merged patient_params patient_id)
  = Ok ode ->
  ODE.hr ode <> 0 -> ODE.sbp ode <> 0 ->
  DigitalTwinOrchestrator.float_times
    (ODE.get (merged patient_params patient_id) "weight" (ODE.vfloat 70.0)) = Ok w ->
  0 < w -> PK.DRUG_PARAMS !! lower drug_name = Some p -> 0 < dose_mg ->
  let pk := {| PK.drug_name := lower drug_name; PK.dose := dose_mg; PK.weight := w;
               PK.tau := PyInt 12; PK.n_days := PyInt 7;
               PK.ka := PK.p_ka p; PK.ke := PK.p_ke p;
               PK.Vd := PK.p_Vd p * w; PK.F := PK.p_F p |} in
  let pd := {| PD.drug_name := lower drug_name;
               PD.params := default PD.metoprolol_defaults
                              (PD.default_params !! lower drug_name) |} in
  exists res,
    run patient_params patient_id drug_name dose_mg duration_hours = Ok res
    /\ DigitalTwinOrchestrator.r_baseline res = ODE.initialize ode
    /\ PK.simulate pk duration_hours = Ok (DigitalTwinOrchestrator.r_pk res)
    /\ PD.compute_effects pd (ODE.initialize ode) (DigitalTwinOrchestrator.r_pk res)
       = Ok (DigitalTwinOrchestrator.r_pd res)
    /\ ODE.simulate_with_effects (ODE.initialize ode)
         (DigitalTwinOrchestrator.r_pd res)
       = Ok (DigitalTwinOrchestrator.r_trajectory res)
    /\ lf_time_hours (DigitalTwinOrchestrator.r_lstm res)
       = st_time_hours (DigitalTwinOrchestrator.r_trajectory res)
    /\ length (target_hr_next_24h (DigitalTwinOrchestrator.r_lstm res))
       = length (st_time_hours (DigitalTwinOrchestrator.r_trajectory res)).
Proof.
  intros Hne Hinit Hhr Hsbp Hw Hwpos Hp Hdose pk pd.
  destruct (registry_params _ _ Hp) as (Pka & Pke & Pne & PF & PVd).
  assert (HVd : 0 < PK.p_Vd p * w) by (apply Rmult_lt_0_compat; assumption).
  destruct (simulate_total pk duration_hours 12 7) as (dc & Hdc & _);
    try reflexivity; try assumption; [simpl; lra|].
  destruct (simulate_profile pk duration_hours dc Hdc)
    as (Ht & Hlen & _ & _ & _ & _ & Hpos).
  specialize (Hpos Pka Pke Pne PF Hdose HVd).
  assert (Hn : concentration_mg_L dc <> []).
  { intros E. rewrite E in Hlen. pose proof n_time_pos. simpl in Hlen. lia. }
  destruct (default_engine_valid (lower drug_name)) as [Hv HE].
  destruct (compute_effects_closed pd (ODE.initialize ode) dc Hv Hpos Hn)
    as (e & He & D1 & D2 & D3 & D4 & D5 & Dt).
  destruct (simulate_with_effects_closed (ODE.initialize ode) e)
    as (traj & fh & fs & Hsim & Thr & _); try assumption.
  { simpl. lra. }
  { rewrite D1. apply delta_of_nonempty. exact Hn. }
  { rewrite Dt, Ht, linspace_length, D1, delta_of_length. congruence. }
  { rewrite D1, D2, !delta_of_length. reflexivity. }
  { rewrite D1, D3, !delta_of_length. reflexivity. }
  { rewrite D1, D4, !delta_of_length. reflexivity. }
  destruct (simulate_with_effects_inv _ _ _ Hsim) as (Tt & _).
  destruct (interp_total (st_time_hours traj) (dc_time_hours dc)
              (concentration_mg_L dc)) as (conc & Hconc).
  destruct (gradient_total (heart_rate traj) (st_time_hours traj)) as (hv & Hhv).
  destruct (gradient_total (systolic_bp traj) (st_time_hours traj)) as (bv & Hbv).
  destruct (gradient_total conc (st_time_hours traj)) as (cg & Hcg).
  destruct (target_hr_pointwise (st_time_hours traj) (heart_rate traj))
    as (target & Htarget & _).
  { rewrite Tt, Dt, Ht, linspace_length, Thr. unfold ODE.hr_series.
    rewrite length_map, D1, delta_of_length, Hlen. lia. }
  unfold run, DigitalTwinOrchestrator.run_full_simulation. cbv zeta.
  fold (merged patient_params patient_id).
  destruct (decide (merged patient_params patient_id = ∅)) as [Hempty|_];
    [contradiction|].
  rewrite Hinit. cbn [bind].
  unfold DigitalTwinOrchestrator.construct_pk. rewrite Hp, Hw. cbn [bind].
  rewrite (PK_init_known _ _ _ _ _ p Hp). cbn [bind].
  fold pk. rewrite Hdc. cbn [bind].
  rewrite PD_init_no_dataset by exact I. rewrite use_defaults_Ok. cbn [bind].
  fold pd. rewrite He. cbn [bind]. rewrite Hsim. cbn [bind].
  unfold Orchestrator.prepare_lstm_features.
  rewrite Hconc. cbn [bind]. rewrite Hhv. cbn [bind]. rewrite Hbv. cbn [bind].
  rewrite Hcg. cbn [bind]. rewrite Htarget. cbn [bind].
  eexists. split; [reflexivity|].
  cbn [DigitalTwinOrchestrator.r_baseline DigitalTwinOrchestrator.r_pk
       DigitalTwinOrchestrator.r_pd DigitalTwinOrchestrator.r_trajectory
       DigitalTwinOrchestrator.r_lstm lf_time_hours target_hr_next_24h].
  repeat (split; [assumption || reflexivity|]).
  unfold Orchestrator.target_hr in Htarget. apply mapM_length in Htarget.
  exact Htarget.
Qed.

End PipelineReturns.

Lemma or_default_nonzero (v : option R) (d : R) :
  d <> 0 -> DigitalTwinOrchestrator.or_default v d <> 0.
Proof.
  intros Hd. unfold DigitalTwinOrchestrator.or_default.
  destruct v as [x|]; [|exact Hd]. destruct (decide (x = 0)); assumption.
Qed.

Lemma init_params_of (str_of_int : Z -> string)
    (int_of_string : string -> result Z) (float_of_string : string -> result R)
    (py_str : pyval -> string) (patient : DigitalTwinOrchestrator.Patient) :
  let hr0 := DigitalTwinOrchestrator.or_default
               (DigitalTwinOrchestrator.hr patient) 75.0 in
  ODE.init int_of_string float_of_string py_str
    (DigitalTwinOrchestrator.params_of str_of_int patient)
  = Ok {| ODE.patient_id :=
            py_str (VStr (str_of_int (DigitalTwinOrchestrator.id patient)));
          ODE.age := DigitalTwinOrchestrator.age patient;
          ODE.sex := VStr (DigitalTwinOrchestrator.sex_of
                             (DigitalTwinOrchestrator.gender patient));
          ODE.weight := DigitalTwinOrchestrator.or_default
                          (DigitalTwinOrchestrator.weight patient) 70.0;
          ODE.height := DigitalTwinOrchestrator.or_default
                          (DigitalTwinOrchestrator.height patient) 170.0;
          ODE.hr := hr0;
          ODE.sbp := DigitalTwinOrchestrator.or_default
                       (DigitalTwinOrchestrator.sbp patient) 120.0;
          ODE.dbp := DigitalTwinOrchestrator.or_default
                       (DigitalTwinOrchestrator.dbp patient) 80.0;
          ODE.sv := 70.0;
          ODE.co := hr0 * 70.0 / 1000.0;
          ODE.svr := 18.0;
          ODE.arrhythmia_risk := 0.1 |}.
Proof. reflexivity. Qed.

(** X19.  A patient found in the database always passes the Baseline
    Initializer: the mapping built from the row converts without error
    whatever the row holds, missing and zero vitals are replaced by their
    defaults, so that the baseline heart rate, pressures and weight are
    never 0, and the cardiac output of the baseline is [hr * 70 / 1000]. *)
Theorem X19_fetched_patient_initialises
    (DB_AVAILABLE : bool)
    (db_first : string -> result (option DigitalTwinOrchestrator.Patient))
    (str_of_int : Z -> string) (int_of_string : string -> result Z)
    (float_of_string : string -> result R) (py_str : pyval -> string)
    (patient_id : string) (patient : DigitalTwinOrchestrator.Patient) :
  DB_AVAILABLE = true -> db_first patient_id = Ok (Some patient) ->
  exists ode,
    ODE.init int_of_string float_of_string py_str
      (DigitalTwinOrchestrator.fetch_patient_params DB_AVAILABLE db_first
         str_of_int patient_id) = Ok ode
    /\ ODE.age ode = DigitalTwinOrchestrator.age patient
    /\ ODE.hr ode <> 0 /\ ODE.sbp ode <> 0 /\ ODE.dbp ode <> 0
    /\ ODE.weight ode <> 0 /\ ODE.height ode <> 0
    /\ (DigitalTwinOrchestrator.hr patient = None
        \/ DigitalTwinOrchestrator.hr patient = Some 0 -> ODE.hr ode = 75.0)
    /\ (forall x, DigitalTwinOrchestrator.hr patient = Some x -> x <> 0 ->
                  ODE.hr ode = x)
    /\ hr_baseline (ODE.initialize ode) = ODE.hr ode
    /\ cardiac_output (ODE.initialize ode) = ODE.hr ode * 70.0 / 1000.0.
Proof.
  intros Hdb Hrow. unfold DigitalTwinOrchestrator.fetch_patient_params.
  rewrite Hdb, Hrow. cbn [negb].
  rewrite init_params_of. cbv zeta. eexists. split; [reflexivity|].
  cbn [ODE.age ODE.hr ODE.sbp ODE.dbp ODE.weight ODE.height].
  split; [reflexivity|].
  repeat (split; [apply or_default_nonzero; lra|]).
  split.
  { unfold DigitalTwinOrchestrator.or_default. intros [->| ->]; [reflexivity|].
    destruct (decide (0 = 0)); [reflexivity|congruence]. }
  split.
  { intros x -> Hx. unfold DigitalTwinOrchestrator.or_default.
    destruct (decide (x = 0)); [contradiction|reflexivity]. }
  split; [reflexivity|].
  unfold ODE.initialize. cbn [cardiac_output ODE.co ODE.hr ODE.sv].
  destruct (decide (_ > 0)); reflexivity.
Qed.

Lemma X19_witness :
  exists ode,
    ODE.init no_int no_float str_unknown
      (DigitalTwinOrchestrator.fetch_patient_params true one_patient str_seven "7")
    = Ok ode
    /\ ODE.hr ode = 75.0 /\ ODE.age ode = 61%Z.
Proof.
  destruct (X19_fetched_patient_initialises true one_patient str_seven no_int
              no_float str_unknown "7" patient_7 eq_refl eq_refl)
    as (ode & Hinit & Hage & _ & _ & _ & _ & _ & Hhr & _).
  exists ode. split; [exact Hinit|]. split; [|exact Hage].
  apply Hhr. right. reflexivity.
Defined.

Lemma merged_nothing (DB_AVAILABLE : bool)
    (db_first : string -> result (option DigitalTwinOrchestrator.Patient))
    (str_of_int : Z -> string) (patient_id : option string) :
  (patient_id = None \/ DB_AVAILABLE = false
   \/ exists pid, patient_id = Some pid
                  /\ (db_first pid = Ok None \/ exists e, db_first pid = Raise e)) ->
  DigitalTwinOrchestrator.merged_params DB_AVAILABLE db_first str_of_int
    None patient_id = ∅.
Proof.
  unfold DigitalTwinOrchestrator.merged_params,
    DigitalTwinOrchestrator.fetch_patient_params.
  intros [->|[->|(pid & -> & [->|(e & ->)])]]; try reflexivity.
  - destruct patient_id; reflexivity.
  - destruct DB_AVAILABLE; reflexivity.
  - destruct DB_AVAILABLE; reflexivity.
Qed.

(** X20.  How the pipeline stops before any simulation.  Without a manual
    mapping, and with no identifier, no database, no such patient or a
    failing lookup, it raises the [ValueError] of its validation step.  With
    a mapping the initializer accepts, a drug outside the PK registry raises
    [ValueError] at the PK step, so the metoprolol fall-back of the PD engine
    is never reached: whenever the pipeline returns, the drug is one of the
    registry.  And a weight given as text, even text that [float] reads,
    passes the initializer but raises [TypeError] at the PK step, where it
    is multiplied unconverted. *)
Theorem X20_pipeline_rejections
    (DB_AVAILABLE : bool)
    (db_first : string -> result (option DigitalTwinOrchestrator.Patient))
    (str_of_int : Z -> string) (int_of_string : string -> result Z)
    (float_of_string : string -> result R) (py_str : pyval -> string)
    (np_interp : list R -> list R -> list R -> result (list R))
    (np_gradient : list R -> list R -> result (list R))
    (patient_params : option (gmap string pyval)) (patient_id : option string)
    (drug_name : string) (dose_mg : R) (duration_hours : option R) :
  let run := DigitalTwinOrchestrator.run_full_simulation DB_AVAILABLE db_first
               str_of_int int_of_string float_of_string py_str np_interp
               np_gradient patient_params patient_id drug_name dose_mg
               duration_hours in
  let final_params := DigitalTwinOrchestrator.merged_params DB_AVAILABLE db_first
                        str_of_int patient_params patient_id in
  (patient_params = None ->
   (patient_id = None \/ DB_AVAILABLE = false
    \/ exists pid, patient_id = Some pid
                   /\ (db_first pid = Ok None \/ exists e, db_first pid = Raise e)) ->
   exists msg, run = Raise (ValueError msg))
  /\ (forall ode,
        final_params <> ∅ ->
        ODE.init int_of_string float_of_string py_str final_params = Ok ode ->
        PK.DRUG_PARAMS !! lower drug_name = None ->
        run = Raise (ValueError ("Unknown drug: " ++ drug_name)))
  /\ (forall ode s,
        ODE.init int_of_string float_of_string py_str final_params = Ok ode ->
        is_Some (PK.DRUG_PARAMS !! lower drug_name) ->
        final_params !! "weight" = Some (VStr s) ->
        run = Raise TypeError)
  /\ (forall res, run = Ok res ->
        lower drug_name = "metoprolol" \/ lower drug_name = "atenolol").
Proof.
  intros run final_params. unfold run.
  unfold DigitalTwinOrchestrator.run_full_simulation. cbv zeta.
  fold final_params. split; [|split; [|split]].
  - intros -> Hid. unfold final_params.
    rewrite (merged_nothing _ _ _ _ Hid).
    destruct (decide (∅ = ∅)) as [_|Hn]; [|congruence]. eexists. reflexivity.
  - intros ode Hne Hinit Hdrug.
    destruct (decide (final_params = ∅)); [contradiction|].
    rewrite Hinit. cbn [bind].
    unfold DigitalTwinOrchestrator.construct_pk. rewrite Hdrug. reflexivity.
  - intros ode s Hinit [p Hp] Hweight.
    destruct (decide (final_params = ∅)) as [Hempty|_].
    { rewrite Hempty, lookup_empty in Hweight. discriminate. }
    rewrite Hinit. cbn [bind].
    unfold DigitalTwinOrchestrator.construct_pk, ODE.get.
    rewrite Hp, Hweight. reflexivity.
  - intros res Hres.
    destruct (decide (final_params = ∅)); [discriminate|].
    apply bind_Ok_inv in Hres as (ode & _ & Hres).
    apply bind_Ok_inv in Hres as (pk & Hpk & _).
    unfold DigitalTwinOrchestrator.construct_pk in Hpk.
    destruct (PK.DRUG_PARAMS !! lower drug_name) as [p|] eqn:E; [|discriminate].
    apply DRUG_PARAMS_keys. rewrite E. eauto.
Qed.

Lemma X20_witness :
  DigitalTwinOrchestrator.run_full_simulation true no_patient str_seven
    no_int float_82 str_unknown interp_samples gradient_zero
    (Some text_weight) None "metoprolol" 25 (Some 168)
  = Raise TypeError.
Proof.
  destruct (X20_pipeline_rejections true no_patient str_seven no_int float_82
              str_unknown interp_samples gradient_zero (Some text_weight) None
              "metoprolol" 25 (Some 168)) as (_ & _ & Hweight & _).
  eapply Hweight.
  - reflexivity.
  - apply DRUG_PARAMS_keys. left. reflexivity.
  - reflexivity.
Defined.

Lemma default_engine_Emax_HR (name : string) :
  PD.Emax (PD.HR (default PD.metoprolol_defaults (PD.default_params !! name))) <= 25.
Proof.
  destruct (PD.default_params !! name) as [p|] eqn:E; [|simpl; lra].
  unfold PD.default_params in E.
  apply lookup_insert_Some in E as [[_ <-]|[_ E]]; [simpl; lra|].
  apply lookup_insert_Some in E as [[_ <-]|[_ E]]; [simpl; lra|].
  rewrite lookup_empty in E. discriminate.
Qed.

(** X21.  The pipeline on a patient of the database, given that numpy's
    interpolation and gradient return: for every row whose stored weight is
    not negative, either drug of the registry, every positive dose and every
    positive duration, the five stages return.  The PK profile, the trajectory and the LSTM
    features share one time axis of 5000 points from 0 to the requested
    duration; there is one heart-rate sample and one 24-hour target per
    point; and no heart-rate sample is above the baseline or more than 25
    beats below it. *)
Theorem X21_database_patient_pipeline
    (DB_AVAILABLE : bool)
    (db_first : string -> result (option DigitalTwinOrchestrator.Patient))
    (str_of_int : Z -> string) (int_of_string : string -> result Z)
    (float_of_string : string -> result R) (py_str : pyval -> string)
    (np_interp : list R -> list R -> list R -> result (list R))
    (np_gradient : list R -> list R -> result (list R))
    (patient_id : string) (patient : DigitalTwinOrchestrator.Patient)
    (drug_name : string) (dose_mg duration_hours : R) :
  (forall x xp fp, exists out, np_interp x xp fp = Ok out) ->
  (forall f x, exists out, np_gradient f x = Ok out) ->
  DB_AVAILABLE = true -> db_first patient_id = Ok (Some patient) ->
  (forall x, DigitalTwinOrchestrator.weight patient = Some x -> 0 <= x) ->
  lower drug_name = "metoprolol" \/ lower drug_name = "atenolol" ->
  0 < dose_mg -> 0 < duration_hours ->
  exists res,
    DigitalTwinOrchestrator.run_full_simulation DB_AVAILABLE db_first
      str_of_int int_of_string float_of_string py_str np_interp np_gradient
      None (Some patient_id) drug_name dose_mg (Some duration_hours) = Ok res
    /\ let b := DigitalTwinOrchestrator.r_baseline res in
       let pk := DigitalTwinOrchestrator.r_pk res in
       let traj := DigitalTwinOrchestrator.r_trajectory res in
       let lstm := DigitalTwinOrchestrator.r_lstm res in
       dc_time_hours pk = linspace 0 duration_hours PK.n_time
       /\ st_time_hours traj = dc_time_hours pk
       /\ lf_time_hours lstm = dc_time_hours pk
       /\ Z.of_nat (length (heart_rate traj)) = 5000%Z
       /\ Z.of_nat (length (target_hr_next_24h lstm)) = 5000%Z
       /\ hr_baseline b <> 0
       /\ Forall (fun h => hr_baseline b - 25 <= h <= hr_baseline b)
                 (heart_rate traj).
Proof.
  intros Hinterp Hgrad Hdb Hrow Hweight Hdrug Hdose Hduration.
  apply DRUG_PARAMS_keys in Hdrug as [p Hp].
  pose proof (init_params_of str_of_int int_of_string float_of_string py_str
                patient) as Hinit. cbv zeta in Hinit.
  match type of Hinit with _ = Ok ?o => set (ode := o) in Hinit end.
  set (w := DigitalTwinOrchestrator.or_default
              (DigitalTwinOrchestrator.weight patient) 70.0).
  assert (Hw : 0 < w).
  { unfold w, DigitalTwinOrchestrator.or_default.
    destruct (DigitalTwinOrchestrator.weight patient) as [x|] eqn:E; [|lra].
    specialize (Hweight x eq_refl).
    destruct (decide (x = 0)); lra. }
  assert (Hmerged :
            DigitalTwinOrchestrator.merged_params DB_AVAILABLE db_first str_of_int
              None (Some patient_id)
            = DigitalTwinOrchestrator.params_of str_of_int patient).
  { unfold DigitalTwinOrchestrator.merged_params,
      DigitalTwinOrchestrator.fetch_patient_params.
    rewrite Hdb, Hrow. reflexivity. }
  destruct (pipeline_returns DB_AVAILABLE db_first str_of_int int_of_string
              float_of_string py_str np_interp np_gradient Hinterp Hgrad
              None (Some patient_id) drug_name dose_mg (Some duration_hours)
              ode w p)
    as (res & Hres & Hb & Hpk & Hpd & Htraj & Hlt & Hltarget);
    try assumption.
  { rewrite Hmerged. unfold DigitalTwinOrchestrator.params_of.
    apply insert_non_empty. }
  { rewrite Hmerged. exact Hinit. }
  { cbn [ODE.hr]. apply or_default_nonzero. lra. }
  { cbn [ODE.sbp]. apply or_default_nonzero. lra. }
  { rewrite Hmerged. reflexivity. }
  exists res. split; [exact Hres|]. cbv zeta.
  destruct (registry_params _ _ Hp) as (Pka & Pke & Pne & PF & PVd).
  destruct (simulate_profile _ _ _ Hpk) as (Ht & Hlen & _ & _ & _ & _ & Hpos).
  cbn [PK.ka PK.ke PK.F PK.dose PK.Vd] in Hpos.
  specialize (Hpos Pka Pke Pne PF Hdose ltac:(apply Rmult_lt_0_compat; assumption)).
  destruct (default_engine_valid (lower drug_name)) as [Hv HE].
  destruct (compute_effects_deltas
              {| PD.drug_name := lower drug_name;
                 PD.params := default PD.metoprolol_defaults
                                (PD.default_params !! lower drug_name) |}
              _ _ _ Hv Hpos Hpd) as [D1 _].
  cbn [PD.params] in D1.
  destruct (simulate_with_effects_inv _ _ _ Htraj) as (Tt & Thr & _).
  assert (Hpt : pe_time_hours (DigitalTwinOrchestrator.r_pd res)
                = dc_time_hours (DigitalTwinOrchestrator.r_pk res)).
  { unfold PD.compute_effects in Hpd.
    apply bind_Ok_inv in Hpd as (r1 & _ & Hpd).
    apply bind_Ok_inv in Hpd as (r2 & _ & Hpd).
    apply bind_Ok_inv in Hpd as (r3 & _ & Hpd).
    apply bind_Ok_inv in Hpd as (r4 & _ & Hpd).
    apply bind_Ok_inv in Hpd as (r5 & _ & Hpd). cbv zeta in Hpd.
    apply bind_Ok_inv in Hpd as (x1 & _ & Hpd).
    apply bind_Ok_inv in Hpd as (x2 & _ & Hpd).
    apply Ok_inj in Hpd. rewrite <- Hpd. reflexivity. }
  assert (Hhrlen : length (heart_rate (DigitalTwinOrchestrator.r_trajectory res))
                   = PK.n_time).
  { rewrite Thr. unfold ODE.hr_series.
    rewrite length_map, D1, delta_of_length. exact Hlen. }
  split; [exact Ht|].
  split; [congruence|].
  split; [congruence|].
  split; [rewrite Hhrlen; apply n_time_is_5000|].
  split.
  { rewrite Hltarget, Tt, Hpt, Ht, linspace_length. apply n_time_is_5000. }
  rewrite Hb. split.
  { cbn [ODE.initialize hr_baseline ODE.hr].
    apply or_default_nonzero. lra. }
  rewrite Thr. unfold ODE.hr_series. rewrite D1.
  destruct Hv as (V1 & _). destruct HE as (E1 & _).
  pose proof (default_engine_Emax_HR (lower drug_name)) as H25.
  pose proof (shifted_range
                (hr_baseline (ODE.initialize ode)) _ _
                (delta_of_range _ (concentration_mg_L
                                     (DigitalTwinOrchestrator.r_pk res)) V1 E1))
    as Hrange.
  eapply Forall_impl; [exact Hrange|].
  intros h Hh. cbv beta in Hh. cbn [PD.params] in Hh. lra.
Qed.

Lemma X21_witness :
  exists res,
    DigitalTwinOrchestrator.run_full_simulation true one_patient str_seven
      no_int no_float str_unknown interp_samples gradient_zero
      None (Some "7") "Metoprolol" 50 (Some 168) = Ok res
    /\ Z.of_nat (length (heart_rate (DigitalTwinOrchestrator.r_trajectory res)))
       = 5000%Z.
Proof.
  destruct (X21_database_patient_pipeline true one_patient str_seven no_int
              no_float str_unknown interp_samples gradient_zero "7" patient_7
              "Metoprolol" 50 168 sample_interp_total sample_gradient_total
              eq_refl eq_refl)
    as (res & Hres & _ & _ & _ & Hlen & _).
  - intros x Hx. discriminate Hx.
  - left. reflexivity.
  - lra.
  - lra.
  - exists res. split; [exact Hres|exact Hlen].
Defined.

(** ** The placeholder dose curve of the service *)

Lemma Int_part_nonneg (x : R) : 0 <= x -> (0 <= Int_part x)%Z.
Proof.
  intros Hx. destruct (base_Int_part x) as [_ Hgt].
  assert (H : -1 < IZR (Int_part x)) by lra.
  apply lt_IZR in H. lia.
Qed.

Lemma Int_part_le (x : R) : IZR (Int_part x) <= x.
Proof. destruct (base_Int_part x) as [Hle _]. exact Hle. Qed.

Lemma fold_left_Rmax_bounded (l : list R) (x : R) :
  Forall (fun y => y <= x) l -> fold_left Rmax l x = x.
Proof.
  induction 1 as [|y l Hy _ IH]; simpl; [reflexivity|].
  rewrite Rmax_left by lra. exact IH.
Qed.

(** The sum of the first [k] samples of the placeholder curve. *)
Lemma placeholder_sum (dose d : R) (k : nat) :
  d <> 0 ->
  fold_left Rplus (map (fun i => dose * (1 - INR i / d)) (seq 0 k)) 0
  = dose * (INR k - INR k * (INR k - 1) / (2 * d)).
Proof.
  intros Hd. induction k as [|k IH].
  - simpl. field. exact Hd.
  - rewrite seq_S, map_app, fold_left_app, IH.
    cbn [map fold_left Nat.add]. rewrite S_INR.
    field. exact Hd.
Qed.

Lemma placeholder_curve (dose d : R) (n : Z) :
  d <> 0 ->
  mapM (fun t => let* q := py_div (IZR t) d in Ok (dose * (1 - q))) (range n)
  = Ok (map (fun i => dose * (1 - INR i / d)) (seq 0 (Z.to_nat n))).
Proof.
  intros Hd. unfold range.
  rewrite (mapM_pure _ (fun t => dose * (1 - IZR t / d))).
  - rewrite map_map. f_equal. apply map_ext. intros i.
    rewrite INR_IZR_INZ. reflexivity.
  - intros t _. rewrite py_div_nonzero by exact Hd. reflexivity.
Qed.

(** The placeholder curve for a non-negative dose over a positive
    duration, in closed form. *)
Lemma run_single_dose_closed (dose_mg duration_h : R) :
  0 <= dose_mg -> 0 < duration_h ->
  let n := Int_part duration_h in
  exists sim,
    PKPDService.run_single_dose dose_mg duration_h = Ok sim
    /\ PKPDService.time sim = range (n + 1)
    /\ length (PKPDService.concentration sim) = S (Z.to_nat n)
    /\ Forall (fun c => 0 <= c <= dose_mg) (PKPDService.concentration sim)
    /\ PKPDService.cmax sim = dose_mg
    /\ PKPDService.auc sim
       = dose_mg * (IZR n + 1) * (1 - IZR n / (2 * duration_h)).
Proof.
  intros Hdose Hd n.
  assert (Hn : (0 <= n)%Z) by (apply Int_part_nonneg; lra).
  assert (Hnd : IZR n <= duration_h) by apply Int_part_le.
  assert (Hk : Z.to_nat (n + 1) = S (Z.to_nat n)) by lia.
  assert (Hint : PKPDService.int_of_float duration_h = n).
  { unfold PKPDService.int_of_float. destruct (decide (0 <= duration_h)); [reflexivity|lra]. }
  unfold PKPDService.run_single_dose. rewrite Hint. cbv zeta.
  rewrite placeholder_curve by lra. cbn [bind]. rewrite Hk.
  set (g := fun i : nat => dose_mg * (1 - INR i / duration_h)).
  assert (Hrange : Forall (fun c => 0 <= c <= dose_mg)
                     (map g (seq 0 (S (Z.to_nat n))))).
  { apply Forall_forall. intros c Hc.
    apply list_elem_of_fmap in Hc as (i & -> & Hi).
    apply list_elem_of_In, in_seq in Hi.
    assert (Hi0 : 0 <= INR i) by apply pos_INR.
    assert (Hin : INR i <= IZR n).
    { rewrite INR_IZR_INZ. apply IZR_le. lia. }
    assert (Hq : 0 <= INR i / duration_h <= 1).
    { split.
      - apply Rmult_le_pos; [exact Hi0|]. left. apply Rinv_0_lt_compat. exact Hd.
      - apply (Rmult_le_reg_r duration_h); [exact Hd|].
        unfold Rdiv. rewrite Rmult_assoc, Rinv_l by lra. lra. }
    unfold g. split; [apply Rmult_le_pos; lra|].
    assert (0 <= dose_mg * (INR i / duration_h)) by (apply Rmult_le_pos; lra).
    lra. }
  assert (Hfirst : g 0%nat = dose_mg).
  { unfold g. simpl. unfold Rdiv. ring. }
  cbn [seq map PKPDService.py_max] in *. rewrite Hfirst in *.
  apply Forall_cons in Hrange as [_ Hrest].
  rewrite fold_left_Rmax_bounded
    by (eapply Forall_impl; [exact Hrest|]; intros c Hc; cbv beta in Hc; lra).
  cbn [bind]. eexists. split; [reflexivity|].
  cbn [PKPDService.time PKPDService.concentration PKPDService.cmax PKPDService.auc].
  split; [reflexivity|].
  split; [cbn [length]; rewrite length_map, length_seq; reflexivity|].
  split.
  { apply Forall_cons. split; [lra|exact Hrest]. }
  split; [reflexivity|].
  unfold PKPDService.py_sum.
  rewrite <- Hfirst at 1.
  change (g 0%nat :: map g (seq 1 (Z.to_nat n)))
    with (map g (seq 0 (S (Z.to_nat n)))).
  unfold g. rewrite placeholder_sum by lra.
  rewrite S_INR, INR_IZR_INZ, Z2Nat.id by exact Hn.
  field. lra.
Qed.

Lemma Int_part_0 : Int_part 0 = 0%Z.
Proof.
  destruct (base_Int_part 0) as [Hle Hgt].
  assert (H1 : IZR (Int_part 0) < 1) by lra.
  assert (H2 : -1 < IZR (Int_part 0)) by lra.
  apply lt_IZR in H1, H2. lia.
Qed.

Lemma Int_part_unit (x : R) : 0 <= x < 1 -> Int_part x = 0%Z.
Proof.
  intros [H0 H1]. destruct (base_Int_part x) as [Hle Hgt].
  assert (H3 : IZR (Int_part x) < 1) by lra.
  assert (H2 : -1 < IZR (Int_part x)) by lra.
  apply lt_IZR in H3, H2. lia.
Qed.

Lemma Int_part_ge_1 (x : R) : 1 <= x -> (1 <= Int_part x)%Z.
Proof.
  intros Hx. destruct (base_Int_part x) as [_ Hgt].
  assert (H : 0 < IZR (Int_part x)) by lra.
  apply lt_IZR in H. lia.
Qed.

(** X22.  The placeholder curve by duration.  For a non-negative dose over
    a positive duration there is one sample per whole hour from 0 to
    [n = int(duration_h)], every concentration lies between 0 and the dose,
    [cmax] is the dose and [auc] is the plain sum of the samples,
    [dose * (n + 1) * (1 - n / (2 * duration_h))].  A duration of 0 raises
    [ZeroDivisionError], a duration of -1 or less raises the [ValueError] of
    [max] on an empty list, and a duration strictly between -1 and 0 gives
    the single sample [dose] at time 0. *)
Theorem X22_run_single_dose_by_duration (dose_mg duration_h : R) :
  (0 <= dose_mg -> 0 < duration_h ->
   exists sim,
     PKPDService.run_single_dose dose_mg duration_h = Ok sim
     /\ PKPDService.time sim = range (Int_part duration_h + 1)
     /\ length (PKPDService.concentration sim) = S (Z.to_nat (Int_part duration_h))
     /\ Forall (fun c => 0 <= c <= dose_mg) (PKPDService.concentration sim)
     /\ PKPDService.cmax sim = dose_mg
     /\ PKPDService.auc sim
        = dose_mg * (IZR (Int_part duration_h) + 1)
          * (1 - IZR (Int_part duration_h) / (2 * duration_h)))
  /\ (duration_h = 0 ->
      PKPDService.run_single_dose dose_mg duration_h = Raise ZeroDivisionError)
  /\ (duration_h <= -1 ->
      exists msg,
        PKPDService.run_single_dose dose_mg duration_h = Raise (ValueError msg))
  /\ (-1 < duration_h < 0 ->
      exists sim,
        PKPDService.run_single_dose dose_mg duration_h = Ok sim
        /\ PKPDService.time sim = [0%Z]
        /\ PKPDService.concentration sim = [dose_mg]
        /\ PKPDService.cmax sim = dose_mg /\ PKPDService.auc sim = dose_mg).
Proof.
  split; [|split; [|split]].
  - intros Hdose Hd. exact (run_single_dose_closed dose_mg duration_h Hdose Hd).
  - intros ->. unfold PKPDService.run_single_dose, PKPDService.int_of_float.
    destruct (decide (0 <= 0)) as [_|Hn]; [|lra].
    rewrite Int_part_0. cbn [Z.add]. cbv zeta.
    change (range 1) with [0%Z]. cbn [mapM]. unfold py_div.
    destruct (decide (0 = 0)) as [_|Hn]; [reflexivity|congruence].
  - intros Hd. unfold PKPDService.run_single_dose, PKPDService.int_of_float.
    destruct (decide (0 <= duration_h)) as [Hpos|_]; [lra|].
    pose proof (Int_part_ge_1 (- duration_h) ltac:(lra)) as Hge.
    unfold range.
    replace (Z.to_nat (- Int_part (- duration_h) + 1)) with 0%nat by lia.
    cbn. eexists. reflexivity.
  - intros [Hlo Hhi]. unfold PKPDService.run_single_dose, PKPDService.int_of_float.
    destruct (decide (0 <= duration_h)) as [Hpos|_]; [lra|].
    rewrite (Int_part_unit (- duration_h)) by lra.
    change (range (- 0 + 1)) with [0%Z]. cbv zeta. cbn [mapM].
    rewrite py_div_nonzero by lra. cbn [bind PKPDService.py_max fold_left].
    replace (dose_mg * (1 - 0 / duration_h)) with dose_mg
      by (unfold Rdiv; ring).
    eexists. split; [reflexivity|].
    cbn [PKPDService.time PKPDService.concentration PKPDService.cmax
         PKPDService.auc PKPDService.py_sum fold_left].
    repeat split; try reflexivity. lra.
Qed.

Lemma X22_witness :
  exists sim,
    PKPDService.run_single_dose 100 24 = Ok sim
    /\ PKPDService.cmax sim = 100.
Proof.
  destruct (proj1 (X22_run_single_dose_by_duration 100 24))
    as (sim & Hsim & _ & _ & _ & Hcmax & _); try lra.
  exists sim. split; [exact Hsim|exact Hcmax].
Defined.

Lemma curve_points (time : list Z) (conc : list R) :
  length conc = length time ->
  exists points,
    mapM (fun i => match time !! i, conc !! i with
                   | Some t, Some c => Ok (t, c)
                   | _, _ => Raise IndexError
                   end) (seq 0 (length time)) = Ok points
    /\ length points = length time.
Proof.
  intros Hlen.
  destruct (mapM_Forall2
              (fun i => match time !! i, conc !! i with
                        | Some t, Some c => Ok (t, c)
                        | _, _ => Raise IndexError
                        end)
              (fun (_ : nat) (_ : Z * R) => True) (seq 0 (length time)))
    as (points & Hpoints & HF).
  - intros i Hi. apply in_seq in Hi.
    destruct (lookup_lt_is_Some_2 time i ltac:(lia)) as (t & ->).
    destruct (lookup_lt_is_Some_2 conc i ltac:(lia)) as (c & ->).
    eauto.
  - exists points. split; [exact Hpoints|].
    apply Forall2_length in HF. rewrite length_seq in HF. congruence.
Qed.

(** X23.  The dose comparison over a positive duration is proportional to
    the dose: for non-negative doses it returns one entry per dose, in
    order, whose [cmax] is the dose itself and whose [auc] is the dose times
    a factor that depends on the duration only, with one curve point per
    whole hour.  Without doses it returns the empty list whatever the
    duration, and with at least one dose a duration of 0 raises
    [ZeroDivisionError]. *)
Theorem X23_compare_doses_proportional (doses : list R) (duration : R) :
  (0 < duration -> Forall (fun dose => 0 <= dose) doses ->
   exists results,
     PKPDService.compare_doses doses duration = Ok results
     /\ Forall2 (fun dose r =>
                   PKPDService.c_dose r = dose
                   /\ PKPDService.c_cmax r = dose
                   /\ PKPDService.c_auc r
                      = dose * ((IZR (Int_part duration) + 1)
                                * (1 - IZR (Int_part duration) / (2 * duration)))
                   /\ length (PKPDService.curve r)
                      = S (Z.to_nat (Int_part duration)))
                doses results)
  /\ PKPDService.compare_doses [] duration = Ok []
  /\ (doses <> [] -> duration = 0 ->
      PKPDService.compare_doses doses duration = Raise ZeroDivisionError).
Proof.
  split; [|split].
  - intros Hd Hdoses. unfold PKPDService.compare_doses.
    apply mapM_Forall2. intros dose Hin.
    rewrite Forall_forall in Hdoses.
    specialize (Hdoses dose (proj2 (list_elem_of_In _ _) Hin)).
    destruct (run_single_dose_closed dose duration Hdoses Hd)
      as (sim & -> & Htime & Hlen & _ & Hcmax & Hauc).
    cbn [bind].
    assert (Htl : length (PKPDService.time sim) = S (Z.to_nat (Int_part duration))).
    { rewrite Htime. unfold range. rewrite length_map, length_seq.
      pose proof (Int_part_nonneg duration ltac:(lra)). lia. }
    destruct (curve_points (PKPDService.time sim) (PKPDService.concentration sim))
      as (points & -> & Hpl); [congruence|].
    cbn [bind]. eexists. split; [reflexivity|].
    cbn [PKPDService.c_dose PKPDService.c_cmax PKPDService.c_auc PKPDService.curve].
    split; [reflexivity|]. split; [exact Hcmax|]. split; [|congruence].
    rewrite Hauc. ring.
  - reflexivity.
  - intros Hne ->. destruct doses as [|dose doses]; [congruence|].
    unfold PKPDService.compare_doses. cbn [mapM].
    unfold PKPDService.run_single_dose, PKPDService.int_of_float.
    destruct (decide (0 <= 0)) as [_|Hn]; [|lra].
    rewrite Int_part_0. cbn [Z.add]. cbv zeta.
    change (range 1) with [0%Z]. cbn [mapM]. unfold py_div.
    destruct (decide (0 = 0)) as [_|Hn]; [reflexivity|congruence].
Qed.

Lemma X23_witness :
  exists results,
    PKPDService.compare_doses [25; 50] 24 = Ok results
    /\ length results = 2%nat.
Proof.
  destruct (proj1 (X23_compare_doses_proportional [25; 50] 24))
    as (results & Hres & HF); try lra.
  { repeat constructor; lra. }
  exists results. split; [exact Hres|].
  apply Forall2_length in HF. simpl in HF. congruence.
Defined.

(** ** The simulation service *)

Lemma n_days_of_ge_1 (payload : PKPDService.PKPDSimulateRequest) :
  (1 <= PKPDService.n_days_of payload)%Z.
Proof.
  unfold PKPDService.n_days_of. cbv zeta.
  destruct (decide (_ < 1)%Z); lia.
Qed.

(** X24.  The simulation service with the PK engine available.  The request
    schema makes the dosing interval a float, and the engine needs an
    integer one: every request with a non-zero interval ends in the
    [TypeError] of the engine, which the service swallows, leaving
    [simulation_data] empty; so does a drug outside the registry.  Only a
    request whose interval is 0, which the service replaces by the integer
    12, reaches the engine: for a registry drug, a positive dose and a
    weight that is absent or not negative it returns the PK record on 5000
    points from 0 to the requested duration.  The number of simulated days
    is at least 1.  Without the engine, a duration of 0 raises the
    [ZeroDivisionError] of the placeholder, which is not caught. *)
Theorem X24_service_simulate (payload : PKPDService.PKPDSimulateRequest) :
  (PKPDService.dosing_interval_h payload <> 0 ->
   PKPDService.simulate true payload = Ok PKPDService.NoData)
  /\ (PK.DRUG_PARAMS !! lower (PKPDService.drug_name payload) = None ->
      PKPDService.simulate true payload = Ok PKPDService.NoData)
  /\ (PKPDService.dosing_interval_h payload = 0 ->
      is_Some (PK.DRUG_PARAMS !! lower (PKPDService.drug_name payload)) ->
      0 < PKPDService.dose_mg payload ->
      (forall w, PKPDService.weight_kg payload = Some w -> 0 <= w) ->
      exists pk_output,
        PKPDService.simulate true payload = Ok (PKPDService.FromPKModel pk_output)
        /\ dc_time_hours pk_output
           = linspace 0 (PKPDService.duration_h payload) PK.n_time
        /\ length (concentration_mg_L pk_output) = PK.n_time
        /\ Forall (fun c => 0 <= c) (concentration_mg_L pk_output))
  /\ (1 <= PKPDService.n_days_of payload)%Z
  /\ (PKPDService.duration_h payload = 0 ->
      PKPDService.simulate false payload = Raise ZeroDivisionError).
Proof.
  split; [|split; [|split; [|split]]].
  - intros Htau. unfold PKPDService.simulate. cbv zeta.
    destruct (PK.DRUG_PARAMS !! lower (PKPDService.drug_name payload))
      as [p|] eqn:Hp.
    + rewrite (PK_init_known _ _ _ _ _ p Hp). cbn [bind].
      rewrite (simulate_float_interval _ _ (PKPDService.dosing_interval_h payload));
        [reflexivity| |exact Htau].
      cbn [PK.tau]. unfold PKPDService.tau_of.
      destruct (decide (PKPDService.dosing_interval_h payload = 0));
        [contradiction|reflexivity].
    + rewrite PK_init_unknown by exact Hp. reflexivity.
  - intros Hp. unfold PKPDService.simulate. cbv zeta.
    rewrite PK_init_unknown by exact Hp. reflexivity.
  - intros Htau [p Hp] Hdose Hweight.
    destruct (registry_params _ _ Hp) as (Pka & Pke & Pne & PF & PVd).
    assert (Hw : 0 < PKPDService.weight_of payload).
    { unfold PKPDService.weight_of.
      destruct (PKPDService.weight_kg payload) as [w|] eqn:E; [|lra].
      specialize (Hweight w eq_refl). destruct (decide (w = 0)); lra. }
    assert (Ht12 : PKPDService.tau_of payload = PyInt 12).
    { unfold PKPDService.tau_of.
      destruct (decide (PKPDService.dosing_interval_h payload = 0));
        [reflexivity|contradiction]. }
    unfold PKPDService.simulate. cbv zeta.
    rewrite (PK_init_known _ _ _ _ _ p Hp), Ht12. cbn [bind].
    match goal with
    | |- context [PK.simulate ?pk ?d] =>
        destruct (simulate_total pk d 12 (PKPDService.n_days_of payload))
          as (dc & Hdc & _);
          try reflexivity; try assumption;
          [simpl; lra|apply Rmult_lt_0_compat; assumption|];
        destruct (simulate_profile pk d dc Hdc)
          as (Ht & Hlen & _ & _ & _ & _ & Hpos);
        rewrite Hdc
    end.
    exists dc. split; [reflexivity|]. split; [exact Ht|]. split; [exact Hlen|].
    apply Hpos; try assumption. apply Rmult_lt_0_compat; assumption.
  - apply n_days_of_ge_1.
  - intros Hd. unfold PKPDService.simulate. rewrite Hd.
    unfold PKPDService.run_single_dose, PKPDService.int_of_float.
    destruct (decide (0 <= 0)) as [_|Hn]; [|lra].
    rewrite Int_part_0. cbn [Z.add]. cbv zeta.
    change (range 1) with [0%Z]. cbn [mapM]. unfold py_div.
    destruct (decide (0 = 0)) as [_|Hn]; [reflexivity|congruence].
Qed.

Lemma X24_witness :
  PKPDService.simulate true request_q12 = Ok PKPDService.NoData
  /\ exists pk_output,
       PKPDService.simulate true request_q0 = Ok (PKPDService.FromPKModel pk_output)
       /\ length (concentration_mg_L pk_output) = PK.n_time.
Proof.
  split.
  - apply (proj1 (X24_service_simulate request_q12)). simpl. lra.
  - destruct (proj1 (proj2 (proj2 (X24_service_simulate request_q0))))
      as (pk_output & Hsim & _ & Hlen & _).
    + reflexivity.
    + apply DRUG_PARAMS_keys. left. reflexivity.
    + simpl. lra.
    + intros w Hw. discriminate Hw.
    + exists pk_output. split; [exact Hsim|exact Hlen].
Defined.

(** ** The adverse-event label of the LSTM features *)

Lemma prepare_lstm_features_inv
    (np_interp : list R -> list R -> list R -> result (list R))
    (np_gradient : list R -> list R -> result (list R))
    (b : PatientBaseline) (drug : DrugConcentration)
    (traj : SimulationTrajectory) (features : LSTMFeatures) :
  Orchestrator.prepare_lstm_features np_interp np_gradient b drug traj
  = Ok features ->
  lf_time_hours features = st_time_hours traj
  /\ heart_rate_history features = heart_rate traj
  /\ bp_history features = systolic_bp traj
  /\ co_history features = st_cardiac_output traj
  /\ baseline_hr features = hr_baseline b
  /\ baseline_bp features = sbp_baseline b
  /\ np_interp (st_time_hours traj) (dc_time_hours drug) (concentration_mg_L drug)
     = Ok (drug_concentration features)
  /\ target_adverse_event features
     = match adverse_events traj with [] => 0%Z | _ :: _ => 1%Z end.
Proof.
  intros H. unfold Orchestrator.prepare_lstm_features in H. cbv zeta in H.
  apply bind_Ok_inv in H as (conc & Hconc & H).
  apply bind_Ok_inv in H as (hv & _ & H).
  apply bind_Ok_inv in H as (bv & _ & H).
  apply bind_Ok_inv in H as (cg & _ & H).
  apply bind_Ok_inv in H as (target & _ & H).
  apply Ok_inj in H. subst features.
  cbn [lf_time_hours heart_rate_history bp_history co_history baseline_hr
       baseline_bp drug_concentration target_adverse_event].
  repeat (split; [assumption || reflexivity|]). reflexivity.
Qed.

(** X25.  When the features are prepared from a trajectory that effect
    propagation returned, the adverse-event label is 0 or 1, and it is 0
    exactly when neither PD flag was set, no sample of the heart-rate
    history is below 60 and no sample of the pressure history is below 90.
    The histories are the series of the trajectory and the feature time axis
    is its time axis. *)
Theorem X25_adverse_event_label
    (np_interp : list R -> list R -> list R -> result (list R))
    (np_gradient : list R -> list R -> result (list R))
    (b : PatientBaseline) (e : PhysiologicalEffects) (drug : DrugConcentration)
    (traj : SimulationTrajectory) (features : LSTMFeatures) :
  ODE.simulate_with_effects b e = Ok traj ->
  Orchestrator.prepare_lstm_features np_interp np_gradient b drug traj
  = Ok features ->
  (target_adverse_event features = 0%Z \/ target_adverse_event features = 1%Z)
  /\ (target_adverse_event features = 0%Z <->
      bradycardia_risk e = false /\ hypotension_risk e = false
      /\ Forall (fun h => 60 <= h) (heart_rate_history features)
      /\ Forall (fun s => 90 <= s) (bp_history features))
  /\ lf_time_hours features = pe_time_hours e
  /\ heart_rate_history features = ODE.hr_series b e
  /\ bp_history features = ODE.sbp_series b e.
Proof.
  intros Hsim Hfeat.
  destruct (prepare_lstm_features_inv _ _ _ _ _ _ Hfeat)
    as (Ft & Fhr & Fbp & _ & _ & _ & _ & Flabel).
  destruct (simulate_with_effects_inv _ _ _ Hsim) as (Tt & Thr & Tsbp & _).
  pose proof (adverse_events_nil_iff b e traj Hsim) as Hnil.
  rewrite Fhr, Fbp, Flabel.
  split; [destruct (adverse_events traj); auto|].
  split.
  - rewrite <- Hnil. destruct (adverse_events traj); split; intros H;
      try reflexivity; discriminate.
  - rewrite Ft. repeat split; congruence.
Qed.

Lemma X25_witness :
  exists traj features,
    ODE.simulate_with_effects default_baseline arrest_effects = Ok traj
    /\ Orchestrator.prepare_lstm_features interp_samples gradient_zero
         default_baseline scenario2_concentration traj = Ok features
    /\ target_adverse_event features = 1%Z.
Proof.
  destruct arrest_trajectory as (traj & Hsim & Hhr).
  assert (Hfeat : exists features,
             Orchestrator.prepare_lstm_features interp_samples gradient_zero
               default_baseline scenario2_concentration traj = Ok features).
  { unfold Orchestrator.prepare_lstm_features, interp_samples, gradient_zero.
    cbn [bind].
    destruct (target_hr_pointwise (st_time_hours traj) (heart_rate traj))
      as (target & -> & _).
    - destruct (simulate_with_effects_inv _ _ _ Hsim) as (-> & _).
      rewrite Hhr. simpl. lia.
    - cbn [bind]. eexists. reflexivity. }
  destruct Hfeat as (features & Hfeat).
  exists traj, features. split; [exact Hsim|]. split; [exact Hfeat|].
  destruct (X25_adverse_event_label interp_samples gradient_zero default_baseline
              arrest_effects scenario2_concentration traj features Hsim Hfeat)
    as ([H0|H1] & Hiff & _ & Hhist & _); [|exact H1].
  apply Hiff in H0 as (_ & _ & Hall & _).
  rewrite Hhist in Hall.
  change (ODE.hr_series default_baseline arrest_effects)
    with [75.0 + -80; 75.0 + 0] in Hall.
  apply Forall_cons in Hall as [Hfirst _]. lra.
Defined.

(** ** The parameters of a simulation request *)

(** A vital of the request mapping: the request, else the database row,
    else the default of the route. *)
Lemma get_val_float (float_of_string : string -> result R)
    (req_val db_val : option R) (ehr_key : string) (d : R) :
  ODE.py_float float_of_string
    (TwinRoute.get_val (TwinRoute.float_val req_val) ehr_key (ODE.vfloat d)
       (TwinRoute.float_val db_val))
  = Ok (default (default d db_val) req_val).
Proof.
  unfold TwinRoute.get_val, TwinRoute.float_val, TwinRoute.ehr_data.
  destruct req_val as [x|]; [reflexivity|].
  destruct db_val as [x|]; [reflexivity|].
  cbn [fmap option_fmap option_map]. rewrite lookup_empty. reflexivity.
Qed.

(** X26.  The parameters a simulation request hands to the pipeline.  The
    route never reads the parsed EHR file (it does not import [json], and the
    [NameError] of [json.load] is swallowed), so every vital is taken from
    the request if given there, else from the database row if stored there,
    else from the route's default; stroke volume, cardiac output, vascular
    resistance and arrhythmia risk, which the row does not store, come from
    the request or the default (risk 0.2).  A value of 0 in the request or in
    the row is kept as it is.  The age always comes from the request or the
    row.  The mapping always passes the Baseline Initializer. *)
Theorem X26_request_parameters
    (str_of_int : Z -> string)
    (int_of_string : string -> result Z) (float_of_string : string -> result R)
    (py_str : pyval -> string) (req : TwinRoute.SimulationRequest)
    (patient : DigitalTwinOrchestrator.Patient) (sex0 : string) :
  exists ode,
    ODE.init int_of_string float_of_string py_str
      (TwinRoute.patient_params str_of_int req patient sex0) = Ok ode
    /\ ODE.age ode
       = default (DigitalTwinOrchestrator.age patient) (TwinRoute.age req)
    /\ ODE.weight ode
       = default (default 70.0 (DigitalTwinOrchestrator.weight patient))
                 (TwinRoute.weight req)
    /\ ODE.height ode
       = default (default 170.0 (DigitalTwinOrchestrator.height patient))
                 (TwinRoute.height req)
    /\ ODE.hr ode
       = default (default 75.0 (DigitalTwinOrchestrator.hr patient))
                 (TwinRoute.hr req)
    /\ ODE.sbp ode
       = default (default 120.0 (DigitalTwinOrchestrator.sbp patient))
                 (TwinRoute.sbp req)
    /\ ODE.dbp ode
       = default (default 80.0 (DigitalTwinOrchestrator.dbp patient))
                 (TwinRoute.dbp req)
    /\ ODE.sv ode = default 70.0 (TwinRoute.sv req)
    /\ ODE.co ode = default 5.0 (TwinRoute.co req)
    /\ ODE.svr ode = default 18.0 (TwinRoute.svr req)
    /\ ODE.arrhythmia_risk ode = default 0.2 (TwinRoute.ecg_risk req)
    /\ ODE.sex ode = VStr sex0
    /\ hr_baseline (ODE.initialize ode) = ODE.hr ode.
Proof.
  pose proof (get_val_float float_of_string) as G.
  assert (Hage : ODE.py_int int_of_string
                   (TwinRoute.get_val (TwinRoute.int_val (TwinRoute.age req))
                      "age" (VNum (PyInt 45))
                      (Some (VNum (PyInt (DigitalTwinOrchestrator.age patient)))))
                 = Ok (default (DigitalTwinOrchestrator.age patient)
                               (TwinRoute.age req))).
  { unfold TwinRoute.get_val, TwinRoute.int_val.
    destruct (TwinRoute.age req); reflexivity. }
  assert (Gnone : forall (req_val : option R) (ehr_key : string) (d : R),
             ODE.py_float float_of_string
               (TwinRoute.get_val (TwinRoute.float_val req_val) ehr_key
                  (ODE.vfloat d) None)
             = Ok (default d req_val)).
  { intros req_val ehr_key d. exact (G req_val None ehr_key d). }
  unfold ODE.init, ODE.get.
  set (m := TwinRoute.patient_params str_of_int req patient sex0).
  replace (m !! "patient_id")
    with (Some (VStr (str_of_int (TwinRoute.patient_id req)))) by reflexivity.
  replace (m !! "sex") with (Some (VStr sex0)) by reflexivity.
  replace (m !! "age")
    with (Some (TwinRoute.get_val (TwinRoute.int_val (TwinRoute.age req))
                  "age" (VNum (PyInt 45))
                  (Some (VNum (PyInt (DigitalTwinOrchestrator.age patient))))))
    by reflexivity.
  replace (m !! "weight")
    with (Some (TwinRoute.get_val
                  (TwinRoute.float_val (TwinRoute.weight req)) "weight_kg"
                  (ODE.vfloat 70.0)
                  (TwinRoute.float_val (DigitalTwinOrchestrator.weight patient))))
    by reflexivity.
  replace (m !! "height")
    with (Some (TwinRoute.get_val
                  (TwinRoute.float_val (TwinRoute.height req)) "height_cm"
                  (ODE.vfloat 170.0)
                  (TwinRoute.float_val (DigitalTwinOrchestrator.height patient))))
    by reflexivity.
  replace (m !! "hr")
    with (Some (TwinRoute.get_val
                  (TwinRoute.float_val (TwinRoute.hr req)) "heart_rate"
                  (ODE.vfloat 75.0)
                  (TwinRoute.float_val (DigitalTwinOrchestrator.hr patient))))
    by reflexivity.
  replace (m !! "sbp")
    with (Some (TwinRoute.get_val
                  (TwinRoute.float_val (TwinRoute.sbp req)) "blood_pressure_sys"
                  (ODE.vfloat 120.0)
                  (TwinRoute.float_val (DigitalTwinOrchestrator.sbp patient))))
    by reflexivity.
  replace (m !! "dbp")
    with (Some (TwinRoute.get_val
                  (TwinRoute.float_val (TwinRoute.dbp req)) "blood_pressure_dia"
                  (ODE.vfloat 80.0)
                  (TwinRoute.float_val (DigitalTwinOrchestrator.dbp patient))))
    by reflexivity.
  replace (m !! "sv")
    with (Some (TwinRoute.get_val
                  (TwinRoute.float_val (TwinRoute.sv req)) "stroke_volume"
                  (ODE.vfloat 70.0) None))
    by reflexivity.
  replace (m !! "co")
    with (Some (TwinRoute.get_val
                  (TwinRoute.float_val (TwinRoute.co req)) "cardiac_output"
                  (ODE.vfloat 5.0) None))
    by reflexivity.
  replace (m !! "svr")
    with (Some (TwinRoute.get_val
                  (TwinRoute.float_val (TwinRoute.svr req)) "svr"
                  (ODE.vfloat 18.0) None))
    by reflexivity.
  replace (m !! "ecg_risk")
    with (Some (TwinRoute.get_val
                  (TwinRoute.float_val (TwinRoute.ecg_risk req)) "ecg_risk"
                  (ODE.vfloat 0.2) None))
    by reflexivity.
  cbv [default from_option Datatypes.id].
  rewrite Hage, !G, !Gnone. cbn [bind].
  eexists. split; [reflexivity|].
  cbn [ODE.age ODE.weight ODE.height ODE.hr ODE.sbp ODE.dbp ODE.sv ODE.co
       ODE.svr ODE.arrhythmia_risk ODE.sex].
  cbv [default from_option Datatypes.id].
  repeat split; reflexivity.
Qed.

Lemma X26_witness :
  exists ode,
    ODE.init no_int no_float str_unknown
      (TwinRoute.patient_params str_seven request_hr0 patient_7 "M") = Ok ode
    /\ ODE.hr ode = 0 /\ ODE.arrhythmia_risk ode = 0.2.
Proof.
  destruct (X26_request_parameters str_seven no_int no_float str_unknown
              request_hr0 patient_7 "M")
    as (ode & Hinit & _ & _ & _ & Hhr & _ & _ & _ & _ & _ & Hrisk & _).
  exists ode. split; [exact Hinit|]. split.
  - rewrite Hhr. reflexivity.
  - rewrite Hrisk. reflexivity.
Defined.
